(** * Directory-identity reconciliation over the entity store

    A shallow embedding of [internal/database/crud.go]: the SQLite tables
    declared by [schema], the statements the functions issue against them,
    and the reconciliation functions built on those statements
    ([LocateUserEntity], [LocateLstEntity],
    [CreateOrUpdateUserEntityWithPathChange],
    [CreateOrUpdateLstEntityWithPathChange]) together with the plain
    accessors.

    Every function runs against a store value and yields the store after the
    call, the statements it issued (each with the error the store answered,
    if any) and the Go result pair [(value, err)].  Messages printed with
    [fmt.Printf] are a side channel and are not part of the model. *)

From Stdlib Require Import ZArith List String Ascii Bool.
Import ListNotations.

Local Open Scope string_scope.
Local Open Scope list_scope.
Local Open Scope Z_scope.

(** ** Values *)

(** [time.Time], kept abstract as a number of ticks. *)
Definition Time := Z.

(** [sql.NullInt32]. *)
Record NullInt32 := mkNullInt32 { Int32 : Z; Valid : bool }.

(** [sql.NullTime]. *)
Definition NullTime := option Time.

Definition int32_min : Z := - 2 ^ 31.
Definition int32_max : Z := 2 ^ 31 - 1.

(** The [Scan] method of [sql.NullInt32] applied to an [int64] (the value of
    [LastInsertId]): the receiver becomes valid; the number is stored when it
    fits 32 bits, otherwise the conversion fails and the old number stays.
    Every caller in this file drops the error of [Scan]. *)
Definition NullInt32_Scan (n : NullInt32) (v : Z) : NullInt32 :=
  if (int32_min <=? v) && (v <=? int32_max)
  then mkNullInt32 v true
  else mkNullInt32 (Int32 n) true.

(** The [driver.Value] of a [sql.NullInt32] bound to a [?]: NULL when not
    valid. *)
Definition NullInt32_Value (n : NullInt32) : option Z :=
  if Valid n then Some (Int32 n) else None.

(** Errors a call can hand back. *)
Inductive error : Type :=
| ErrNoRows                        (* sql.ErrNoRows *)
| ErrUnique (columns : string)     (* UNIQUE constraint failed: <columns> *)
| ErrForeignKey                    (* FOREIGN KEY constraint failed *)
| ErrPath (msg : string)           (* failure of filepath.Abs *)
| ErrConvert (msg : string).       (* sql: converting argument ...: <msg> *)

Inductive result (A : Type) : Type :=
| Ok (a : A)
| Err (e : error).
Arguments Ok {A} a.
Arguments Err {A} e.

(** ** Collation *)

(** SQLite's [NOCASE]: the 26 upper case letters of ASCII are folded to lower
    case before the comparison, nothing else is. *)
Definition lower_ascii (c : ascii) : ascii :=
  let n := nat_of_ascii c in
  if ((65 <=? n) && (n <=? 90))%nat then ascii_of_nat (n + 32) else c.

Fixpoint lower (s : string) : string :=
  match s with
  | EmptyString => EmptyString
  | String c s' => String (lower_ascii c) (lower s')
  end.

Definition nocase_eqb (a b : string) : bool := String.eqb (lower a) (lower b).

(** ** Tables and the Go structs scanned from them

    The struct declarations live outside [crud.go]; their fields are the ones
    the file reads and writes, with the [db] column each binds to taken from
    [schema] and from the named parameters of the INSERT statements.  A
    stored row has a non-NULL integer primary key, a scanned struct carries
    it as a valid [sql.NullInt32]. *)

Module User.
(** Modelled from the spec: struct [User], declared outside [crud.go]; one
    field per attribute of Account (section 3), which are the columns of
    table [users].  A stored row and the struct are the same value. *)
Record t := mk
  { Id : Z; ScreenName : string; Name : string;
    IsProtected : bool; FriendsCount : Z }.
End User.

Module Lst.
(** Modelled from the spec: struct [Lst], declared outside [crud.go]; one
    field per attribute of AccountList (section 3), which are the columns of
    table [lsts]. *)
Record t := mk { Id : Z; Name : string; OwnerId : Z }.
End Lst.

Module UserEntity.
(** A row of table [user_entities], column by column. *)
Record row := mkRow
  { id : Z; user_id : Z; name : string; latest_release_time : NullTime;
    parent_dir : string; media_count : option Z }.

(** Modelled from the spec: struct [UserEntity], declared outside [crud.go];
    the fields are the ones [crud.go] reads and writes ([Id], [Uid], [Name],
    [LatestReleaseTime], [ParentDir], [MediaCount]), one per attribute of
    AccountEntity (section 3). *)
Record t := mk
  { Id : NullInt32; Uid : Z; Name : string; LatestReleaseTime : NullTime;
    ParentDir : string; MediaCount : option Z }.

(** [SELECT *] scanned into a struct. *)
Definition scan (r : row) : t :=
  mk (mkNullInt32 (id r) true) (user_id r) (name r)
     (latest_release_time r) (parent_dir r) (media_count r).

Definition set_ParentDir (e : t) (d : string) : t :=
  mk (Id e) (Uid e) (Name e) (LatestReleaseTime e) d (MediaCount e).

Definition set_Name (e : t) (n : string) : t :=
  mk (Id e) (Uid e) n (LatestReleaseTime e) (ParentDir e) (MediaCount e).

Definition set_Id (e : t) (i : NullInt32) : t :=
  mk i (Uid e) (Name e) (LatestReleaseTime e) (ParentDir e) (MediaCount e).

Definition row_set_parent_dir (r : row) (d : string) : row :=
  mkRow (id r) (user_id r) (name r) (latest_release_time r) d
        (media_count r).

Definition row_set_parent_dir_name (r : row) (d n : string) : row :=
  mkRow (id r) (user_id r) n (latest_release_time r) d (media_count r).
End UserEntity.

Module LstEntity.
(** A row of table [lst_entities], column by column. *)
Record row := mkRow
  { id : Z; lst_id : Z; name : string; parent_dir : string }.

(** Modelled from the spec: struct [LstEntity], declared outside [crud.go];
    the fields are the ones [crud.go] reads and writes ([Id], [LstId],
    [Name], [ParentDir]), one per attribute of ListEntity (section 3). *)
Record t := mk
  { Id : NullInt32; LstId : Z; Name : string; ParentDir : string }.

Definition scan (r : row) : t :=
  mk (mkNullInt32 (id r) true) (lst_id r) (name r) (parent_dir r).

Definition set_ParentDir (e : t) (d : string) : t :=
  mk (Id e) (LstId e) (Name e) d.

Definition set_Id (e : t) (i : NullInt32) : t :=
  mk i (LstId e) (Name e) (ParentDir e).

Definition row_set_parent_dir (r : row) (d : string) : row :=
  mkRow (id r) (lst_id r) (name r) d.
End LstEntity.

Module UserLink.
(** A row of table [user_links], column by column. *)
Record row := mkRow
  { id : Z; user_id : Z; name : string; parent_lst_entity_id : Z }.

(** Modelled from the spec: struct [UserLink], declared outside [crud.go];
    one field per attribute of AccountLink (section 3). *)
Record t := mk
  { Id : NullInt32; Uid : Z; Name : string; ParentLstEntityId : Z }.

Definition scan (r : row) : t :=
  mk (mkNullInt32 (id r) true) (user_id r) (name r)
     (parent_lst_entity_id r).
End UserLink.

(** The store: one list per table, in the order in which the store hands
    rows back to a SELECT without ORDER BY.  [foreign_keys] is the
    connection's [PRAGMA foreign_keys], which is set where the connection is
    opened, outside [crud.go]. *)
Record DB := mkDB
  { users : list User.t;
    lsts : list Lst.t;
    lst_entities : list LstEntity.row;
    user_entities : list UserEntity.row;
    user_links : list UserLink.row;
    foreign_keys : bool }.

Definition with_user_entities (db : DB) (t : list UserEntity.row) : DB :=
  mkDB (users db) (lsts db) (lst_entities db) t (user_links db)
       (foreign_keys db).

Definition with_lst_entities (db : DB) (t : list LstEntity.row) : DB :=
  mkDB (users db) (lsts db) t (user_entities db) (user_links db)
       (foreign_keys db).

(** ** Statements and calls *)

(** The statements of [crud.go] that the modelled functions issue, with the
    values bound to their placeholders. *)
Inductive stmt : Type :=
| SelectUserById (uid : Z)
    (* SELECT * FROM users WHERE id=? *)
| SelectLstById (lid : Z)
    (* SELECT * FROM lsts WHERE id = ? *)
| SelectUserEntityById (id : Z)
    (* SELECT * FROM user_entities WHERE id=? *)
| SelectLstEntityById (id : Z)
    (* SELECT * FROM lst_entities WHERE id=? *)
| SelectUserLinkAt (uid : Z) (parentLstEntityId : Z)
    (* SELECT * FROM user_links WHERE user_id = ? AND parent_lst_entity_id = ? *)
| SelectUserEntities (uid : Z)
    (* SELECT * FROM user_entities WHERE user_id=? *)
| SelectUserEntityAt (uid : Z) (dir : string)
    (* SELECT * FROM user_entities WHERE user_id=? AND parent_dir=? *)
| UpdateUserEntityDir (dir : string) (id : option Z)
    (* UPDATE user_entities SET parent_dir=? WHERE id=? *)
| UpdateUserEntityDirName (dir name : string) (id : option Z)
    (* UPDATE user_entities SET parent_dir=?, name=? WHERE id=? *)
| InsertUserEntity (uid : Z) (name dir : string)
    (* INSERT INTO user_entities(user_id, name, parent_dir) VALUES(...) *)
| SelectLstEntities (lid : Z)
    (* SELECT * FROM lst_entities WHERE lst_id=? *)
| SelectLstEntityAt (lid : Z) (dir : string)
    (* SELECT * FROM lst_entities WHERE lst_id=? AND parent_dir=? *)
| UpdateLstEntityDir (dir : string) (id : option Z)
    (* UPDATE lst_entities SET parent_dir=? WHERE id=? *)
| InsertLstEntity (lid : Z) (name dir : string).
    (* INSERT INTO lst_entities(lst_id, name, parent_dir) VALUES(...) *)

(** One statement sent to the store and the error it came back with. *)
Record event := mkEvent { sent : stmt; answer : option error }.

(** What a call leaves behind. *)
Record run (A : Type) := mkRun
  { db_after : DB; issued : list event; returned : result A }.
Arguments mkRun {A} _ _ _.
Arguments db_after {A} _.
Arguments issued {A} _.
Arguments returned {A} _.

Definition M (A : Type) : Type := DB -> run A.

Definition ret {A} (a : A) : M A := fun db => mkRun db [] (Ok a).

(** [if err != nil { return nil, err }] *)
Definition fail {A} (e : error) : M A := fun db => mkRun db [] (Err e).

Definition bind {A B} (m : M A) (k : A -> M B) : M B :=
  fun db =>
    match m db with
    | mkRun db1 l1 (Err e) => mkRun db1 l1 (Err e)
    | mkRun db1 l1 (Ok a) =>
        match k a db1 with
        | mkRun db2 l2 r => mkRun db2 (l1 ++ l2) r
        end
    end.

(** [v, err := m] with [err] inspected by the caller instead of returned. *)
Definition try {A} (m : M A) : M (result A) :=
  fun db =>
    match m db with
    | mkRun db1 l1 r => mkRun db1 l1 (Ok r)
    end.

(** A call written as a statement of its own: both results are dropped. *)
Definition discard {A} (m : M A) : M unit :=
  fun db =>
    match m db with
    | mkRun db1 l1 _ => mkRun db1 l1 (Ok tt)
    end.

Definition lift {A} (r : result A) : M A :=
  fun db => mkRun db [] r.

Declare Scope go_scope.
Delimit Scope go_scope with go.
Notation "x <- m ;; k" := (bind m (fun x => k))
  (at level 100, m at next level, right associativity) : go_scope.
Notation "m ;;; k" := (bind m (fun _ => k))
  (at level 100, right associativity) : go_scope.
Local Open Scope go_scope.

(** ** The store's answers *)

Definition answer_of {A} (r : result A) : option error :=
  match r with
  | Ok _ => None
  | Err e => Some e
  end.

(** [db.Select]: every matching row, scanned. *)
Definition db_Select {R A} (s : stmt) (table : DB -> list R)
    (sel : R -> bool) (scan : R -> A) : M (list A) :=
  fun db => mkRun db [mkEvent s None] (Ok (map scan (filter sel (table db)))).

(** [db.Get]: the first matching row, [sql.ErrNoRows] when there is none. *)
Definition db_Get {R A} (s : stmt) (table : DB -> list R)
    (sel : R -> bool) (scan : R -> A) : M A :=
  fun db =>
    match find sel (table db) with
    | Some r => mkRun db [mkEvent s None] (Ok (scan r))
    | None => mkRun db [mkEvent s (Some ErrNoRows)] (Err ErrNoRows)
    end.

(** [db.Exec] / [db.NamedExec] of a statement that rewrites one table and
    answers with a value (the last insert id, for an INSERT).  A statement
    the store rejects leaves the table as it was. *)
Definition db_Exec {R A} (s : stmt) (store : DB -> list R -> DB)
    (f : DB -> result (list R * A)) : M A :=
  fun db =>
    match f db with
    | Ok (t, a) => mkRun (store db t) [mkEvent s None] (Ok a)
    | Err e => mkRun db [mkEvent s (Some e)] (Err e)
    end.

(** The integer primary key given to a row inserted without one: one more
    than the largest in use, 1 in an empty table. *)
Definition next_rowid (ids : list Z) : Z :=
  match ids with
  | [] => 1
  | i :: rest => 1 + fold_right Z.max i rest
  end.

Definition user_entities_unique : string :=
  "user_entities.user_id, user_entities.parent_dir".
Definition lst_entities_unique : string :=
  "lst_entities.lst_id, lst_entities.parent_dir".

(** [WHERE user_id=? AND parent_dir=?]; [parent_dir] is declared
    [COLLATE NOCASE]. *)
Definition user_entity_at (uid : Z) (dir : string) (r : UserEntity.row)
  : bool :=
  (UserEntity.user_id r =? uid) && nocase_eqb (UserEntity.parent_dir r) dir.

Definition lst_entity_at (lid : Z) (dir : string) (r : LstEntity.row)
  : bool :=
  (LstEntity.lst_id r =? lid) && nocase_eqb (LstEntity.parent_dir r) dir.

(** [UNIQUE (user_id, parent_dir)] against a rewrite of [parent_dir] in the
    rows with primary key [i]: some such row would collide with a row that is
    not rewritten. *)
Definition user_entities_conflict (t : list UserEntity.row) (i : Z)
    (dir : string) : bool :=
  existsb
    (fun r =>
       (UserEntity.id r =? i)
       && existsb
            (fun r' =>
               negb (UserEntity.id r' =? i)
               && user_entity_at (UserEntity.user_id r) dir r')
            t)
    t.

Definition lst_entities_conflict (t : list LstEntity.row) (i : Z)
    (dir : string) : bool :=
  existsb
    (fun r =>
       (LstEntity.id r =? i)
       && existsb
            (fun r' =>
               negb (LstEntity.id r' =? i)
               && lst_entity_at (LstEntity.lst_id r) dir r')
            t)
    t.

(** The rows an UPDATE [... WHERE id=?] rewrites: a NULL bound to the
    placeholder selects none. *)
Definition update_where_id {R} (id : R -> Z) (f : R -> R) (i : Z)
    (t : list R) : list R :=
  map (fun r => if id r =? i then f r else r) t.

Definition update_user_entities (f : UserEntity.row -> UserEntity.row)
    (dir : string) (i : option Z) (db : DB)
  : result (list UserEntity.row * unit) :=
  match i with
  | None => Ok (user_entities db, tt)
  | Some i =>
      if user_entities_conflict (user_entities db) i dir
      then Err (ErrUnique user_entities_unique)
      else Ok (update_where_id UserEntity.id f i (user_entities db), tt)
  end.

Definition update_lst_entities (dir : string) (i : option Z) (db : DB)
  : result (list LstEntity.row * unit) :=
  match i with
  | None => Ok (lst_entities db, tt)
  | Some i =>
      if lst_entities_conflict (lst_entities db) i dir
      then Err (ErrUnique lst_entities_unique)
      else Ok (update_where_id LstEntity.id
                 (fun r => LstEntity.row_set_parent_dir r dir) i
                 (lst_entities db), tt)
  end.

(** INSERT INTO user_entities(user_id, name, parent_dir): the columns that
    are not listed take their default, NULL; the primary key is assigned by
    the store.  The UNIQUE index is checked when the row is written, the
    foreign key (when enforced) at the end of the statement. *)
Definition insert_user_entity (uid : Z) (name dir : string) (db : DB)
  : result (list UserEntity.row * Z) :=
  if existsb (user_entity_at uid dir) (user_entities db)
  then Err (ErrUnique user_entities_unique)
  else if foreign_keys db
          && negb (existsb (fun u => User.Id u =? uid) (users db))
  then Err ErrForeignKey
  else
    let i := next_rowid (map UserEntity.id (user_entities db)) in
    Ok (user_entities db ++ [UserEntity.mkRow i uid name None dir None], i).

Definition insert_lst_entity (lid : Z) (name dir : string) (db : DB)
  : result (list LstEntity.row * Z) :=
  if existsb (lst_entity_at lid dir) (lst_entities db)
  then Err (ErrUnique lst_entities_unique)
  else
    let i := next_rowid (map LstEntity.id (lst_entities db)) in
    Ok (lst_entities db ++ [LstEntity.mkRow i lid name dir], i).

(** ** The functions of [crud.go] *)

Section Crud.

(** [filepath.Abs]: the canonical absolute form of a path, or an error. *)
Variable Abs : string -> result string.

(** [filepath.Join] of two elements. *)
Variable Join : string -> string -> string.

(** [os.Stat p] came back with a nil error: the only thing the functions
    look at in its result. *)
Variable Stat : string -> bool.

(** [strings.EqualFold]. *)
Variable EqualFold : string -> string -> bool.

Definition select_user_entities (uid : Z) : M (list UserEntity.t) :=
  db_Select (SelectUserEntities uid) user_entities
    (fun r => UserEntity.user_id r =? uid) UserEntity.scan.

Definition select_lst_entities (lid : Z) : M (list LstEntity.t) :=
  db_Select (SelectLstEntities lid) lst_entities
    (fun r => LstEntity.lst_id r =? lid) LstEntity.scan.

Definition exec_update_user_entity_dir (dir : string) (id : NullInt32)
  : M unit :=
  db_Exec (UpdateUserEntityDir dir (NullInt32_Value id)) with_user_entities
    (update_user_entities (fun r => UserEntity.row_set_parent_dir r dir)
       dir (NullInt32_Value id)).

Definition exec_update_user_entity_dir_name (dir name : string)
    (id : NullInt32) : M unit :=
  db_Exec (UpdateUserEntityDirName dir name (NullInt32_Value id))
    with_user_entities
    (update_user_entities
       (fun r => UserEntity.row_set_parent_dir_name r dir name)
       dir (NullInt32_Value id)).

Definition exec_insert_user_entity (entity : UserEntity.t) : M Z :=
  db_Exec
    (InsertUserEntity (UserEntity.Uid entity) (UserEntity.Name entity)
       (UserEntity.ParentDir entity))
    with_user_entities
    (insert_user_entity (UserEntity.Uid entity) (UserEntity.Name entity)
       (UserEntity.ParentDir entity)).

Definition exec_update_lst_entity_dir (dir : string) (id : NullInt32)
  : M unit :=
  db_Exec (UpdateLstEntityDir dir (NullInt32_Value id)) with_lst_entities
    (update_lst_entities dir (NullInt32_Value id)).

Definition exec_insert_lst_entity (entity : LstEntity.t) : M Z :=
  db_Exec
    (InsertLstEntity (LstEntity.LstId entity) (LstEntity.Name entity)
       (LstEntity.ParentDir entity))
    with_lst_entities
    (insert_lst_entity (LstEntity.LstId entity) (LstEntity.Name entity)
       (LstEntity.ParentDir entity)).

(** The [for ... range entities] of [CreateOrUpdateUserEntityWithPathChange]
    (lines 66-83): the first record whose stored directory holds [.user]
    is rewritten and returned. *)
Fixpoint CreateOrUpdateUserEntityWithPathChange_range
    (entity : UserEntity.t) (entities : list UserEntity.t)
  : M (option UserEntity.t) :=
  match entities with
  | [] => ret None
  | existingEntity :: rest =>
      let userFilePath := Join (UserEntity.ParentDir existingEntity) ".user" in
      if Stat userFilePath then
        exec_update_user_entity_dir_name (UserEntity.ParentDir entity)
          (UserEntity.Name entity) (UserEntity.Id existingEntity) ;;;
        ret (Some (UserEntity.set_Name
                     (UserEntity.set_ParentDir existingEntity
                        (UserEntity.ParentDir entity))
                     (UserEntity.Name entity)))
      else CreateOrUpdateUserEntityWithPathChange_range entity rest
  end.

(** [CreateOrUpdateUserEntityWithPathChange] (lines 20-98).  The value is
    the struct behind the returned pointer. *)
Definition CreateOrUpdateUserEntityWithPathChange (entity : UserEntity.t)
    (rootPath : string) : M UserEntity.t :=
  absPath <- lift (Abs (UserEntity.ParentDir entity)) ;;
  let entity := UserEntity.set_ParentDir entity absPath in
  let newUserFilePath := Join absPath ".user" in
  moved <-
    (if Stat newUserFilePath then
       entities <- select_user_entities (UserEntity.Uid entity) ;;
       match entities with
       | existingEntity :: _ =>
           exec_update_user_entity_dir_name (UserEntity.ParentDir entity)
             (UserEntity.Name entity) (UserEntity.Id existingEntity) ;;;
           ret (Some (UserEntity.set_Name
                        (UserEntity.set_ParentDir existingEntity
                           (UserEntity.ParentDir entity))
                        (UserEntity.Name entity)))
       | [] => ret None
       end
     else ret None) ;;
  match moved with
  | Some existingEntity => ret existingEntity
  | None =>
      entities <- select_user_entities (UserEntity.Uid entity) ;;
      found <- CreateOrUpdateUserEntityWithPathChange_range entity entities ;;
      match found with
      | Some existingEntity => ret existingEntity
      | None =>
          lastId <- exec_insert_user_entity entity ;;
          ret (UserEntity.set_Id entity
                 (NullInt32_Scan (UserEntity.Id entity) lastId))
      end
  end.

(** The [for ... range entities] of [CreateOrUpdateLstEntityWithPathChange]
    (lines 118-133). *)
Fixpoint CreateOrUpdateLstEntityWithPathChange_range
    (entity : LstEntity.t) (entities : list LstEntity.t)
  : M (option LstEntity.t) :=
  match entities with
  | [] => ret None
  | existingEntity :: rest =>
      if EqualFold (LstEntity.Name existingEntity) (LstEntity.Name entity)
      then
        exec_update_lst_entity_dir (LstEntity.ParentDir entity)
          (LstEntity.Id existingEntity) ;;;
        ret (Some (LstEntity.set_ParentDir existingEntity
                     (LstEntity.ParentDir entity)))
      else CreateOrUpdateLstEntityWithPathChange_range entity rest
  end.

(** [CreateOrUpdateLstEntityWithPathChange] (lines 101-148). *)
Definition CreateOrUpdateLstEntityWithPathChange (entity : LstEntity.t)
  : M LstEntity.t :=
  absPath <- lift (Abs (LstEntity.ParentDir entity)) ;;
  let entity := LstEntity.set_ParentDir entity absPath in
  entities <- select_lst_entities (LstEntity.LstId entity) ;;
  found <- CreateOrUpdateLstEntityWithPathChange_range entity entities ;;
  match found with
  | Some existingEntity => ret existingEntity
  | None =>
      id <- exec_insert_lst_entity entity ;;
      ret (LstEntity.set_Id entity (NullInt32_Scan (LstEntity.Id entity) id))
  end.

(** [GetUserById] (lines 229-241). *)
Definition GetUserById (uid : Z) : M (option User.t) :=
  r <- try (db_Get (SelectUserById uid) users
              (fun u => User.Id u =? uid) (fun u => u)) ;;
  match r with
  | Err ErrNoRows => ret None
  | Err err => fail err
  | Ok result => ret (Some result)
  end.

(** [CreateUserEntity] (lines 249-271).  The Go function returns only the
    error; the value here is the caller's struct after the call. *)
Definition CreateUserEntity (entity : UserEntity.t) : M UserEntity.t :=
  abs <- lift (Abs (UserEntity.ParentDir entity)) ;;
  let entity := UserEntity.set_ParentDir entity abs in
  lastId <- exec_insert_user_entity entity ;;
  ret (UserEntity.set_Id entity
         (NullInt32_Scan (UserEntity.Id entity) lastId)).

(** The [for ... range entities] of [LocateUserEntity] (lines 324-340).
    The result of [db.Exec] is not looked at. *)
Fixpoint LocateUserEntity_range (absPath : string)
    (entities : list UserEntity.t) : M (option UserEntity.t) :=
  match entities with
  | [] => ret None
  | entity :: rest =>
      let userFilePath := Join (UserEntity.ParentDir entity) ".user" in
      if Stat userFilePath then
        discard (exec_update_user_entity_dir absPath (UserEntity.Id entity)) ;;;
        ret (Some (UserEntity.set_ParentDir entity absPath))
      else LocateUserEntity_range absPath rest
  end.

(** [LocateUserEntity] (lines 279-348). *)
Definition LocateUserEntity (uid : Z) (parentDIr : string)
  : M (option UserEntity.t) :=
  absPath <- lift (Abs parentDIr) ;;
  let newUserFilePath := Join absPath ".user" in
  moved <-
    (if Stat newUserFilePath then
       entities <- select_user_entities uid ;;
       match entities with
       | entity :: _ =>
           discard (exec_update_user_entity_dir absPath
                      (UserEntity.Id entity)) ;;;
           ret (Some (UserEntity.set_ParentDir entity absPath))
       | [] => ret None
       end
     else ret None) ;;
  match moved with
  | Some entity => ret (Some entity)
  | None =>
      r <- try (db_Get (SelectUserEntityAt uid absPath) user_entities
                  (user_entity_at uid absPath) UserEntity.scan) ;;
      match r with
      | Err ErrNoRows =>
          entities <- select_user_entities uid ;;
          LocateUserEntity_range absPath entities
      | Err err => fail err
      | Ok result => ret (Some result)
      end
  end.

(** [GetUserEntity] (lines 350-362). *)
Definition GetUserEntity (id : Z) : M (option UserEntity.t) :=
  r <- try (db_Get (SelectUserEntityById id) user_entities
              (fun r => UserEntity.id r =? id) UserEntity.scan) ;;
  match r with
  | Err ErrNoRows => ret None
  | Err err => fail err
  | Ok result => ret (Some result)
  end.

(** [GetLst] (lines 394-406). *)
Definition GetLst (lid : Z) : M (option Lst.t) :=
  r <- try (db_Get (SelectLstById lid) lsts
              (fun l => Lst.Id l =? lid) (fun l => l)) ;;
  match r with
  | Err ErrNoRows => ret None
  | Err err => fail err
  | Ok result => ret (Some result)
  end.

(** [GetLstEntity] (lines 443-455). *)
Definition GetLstEntity (id : Z) : M (option LstEntity.t) :=
  r <- try (db_Get (SelectLstEntityById id) lst_entities
              (fun r => LstEntity.id r =? id) LstEntity.scan) ;;
  match r with
  | Err ErrNoRows => ret None
  | Err err => fail err
  | Ok result => ret (Some result)
  end.

(** The [for ... range entities] of [LocateLstEntity] (lines 477-493): the
    test inside the loop is on the target directory, not on the record. *)
Fixpoint LocateLstEntity_range (absPath : string)
    (entities : list LstEntity.t) : M (option LstEntity.t) :=
  match entities with
  | [] => ret None
  | entity :: rest =>
      if Stat absPath then
        discard (exec_update_lst_entity_dir absPath (LstEntity.Id entity)) ;;;
        ret (Some (LstEntity.set_ParentDir entity absPath))
      else LocateLstEntity_range absPath rest
  end.

(** [LocateLstEntity] (lines 457-501). *)
Definition LocateLstEntity (lid : Z) (parentDir : string)
  : M (option LstEntity.t) :=
  absPath <- lift (Abs parentDir) ;;
  r <- try (db_Get (SelectLstEntityAt lid absPath) lst_entities
              (lst_entity_at lid absPath) LstEntity.scan) ;;
  match r with
  | Err ErrNoRows =>
      entities <- select_lst_entities lid ;;
      LocateLstEntity_range absPath entities
  | Err err => fail err
  | Ok result => ret (Some result)
  end.

(** [GetUserLink] (lines 549-561). *)
Definition GetUserLink (uid : Z) (parentLstEntityId : Z)
  : M (option UserLink.t) :=
  r <- try (db_Get (SelectUserLinkAt uid parentLstEntityId) user_links
              (fun r => (UserLink.user_id r =? uid)
                        && (UserLink.parent_lst_entity_id r
                            =? parentLstEntityId))
              UserLink.scan) ;;
  match r with
  | Err ErrNoRows => ret None
  | Err err => fail err
  | Ok res => ret (Some res)
  end.

End Crud.

(** ** Schema invariants of a store *)

Fixpoint distinct (l : list Z) : bool :=
  match l with
  | [] => true
  | x :: l' => negb (existsb (Z.eqb x) l') && distinct l'
  end.

(** [PRIMARY KEY (id)] of [user_entities]. *)
Definition user_entities_pk (db : DB) : bool :=
  distinct (map UserEntity.id (user_entities db)).

(** [PRIMARY KEY (id)] of [lst_entities]. *)
Definition lst_entities_pk (db : DB) : bool :=
  distinct (map LstEntity.id (lst_entities db)).

(** [UNIQUE (user_id, parent_dir)] of [user_entities]. *)
Fixpoint user_entities_uniq (t : list UserEntity.row) : bool :=
  match t with
  | [] => true
  | r :: t' =>
      negb (existsb
              (user_entity_at (UserEntity.user_id r) (UserEntity.parent_dir r))
              t')
      && user_entities_uniq t'
  end.

(** The rows of one account, in store order. *)
Definition rows_of_user (uid : Z) (db : DB) : list UserEntity.row :=
  filter (fun r => UserEntity.user_id r =? uid) (user_entities db).

(** The rows of one list, in store order. *)
Definition rows_of_lst (lid : Z) (db : DB) : list LstEntity.row :=
  filter (fun r => LstEntity.lst_id r =? lid) (lst_entities db).

(** The marker file [.user] sits directly inside [dir]. *)
Definition has_marker (Join : string -> string -> string)
    (Stat : string -> bool) (dir : string) : bool :=
  Stat (Join dir ".user").

(** ** Environments and stores used in the examples *)

(** [filepath.Abs] on the paths of the examples, which are absolute and
    clean and so their own canonical form. *)
Definition Abs_id (p : string) : result string := Ok p.

(** [filepath.Join] of a clean directory other than the root and a file
    name. *)
Definition Join_slash (a b : string) : string := (a ++ "/" ++ b)%string.

(** A file system given by the list of paths that exist. *)
Definition Stat_in (present : list string) (p : string) : bool :=
  existsb (String.eqb p) present.

(** [strings.EqualFold] on ASCII names. *)
Definition EqualFold_ascii (a b : string) : bool := nocase_eqb a b.

Definition no_id : NullInt32 := mkNullInt32 0 false.

(** Account 42 tracked at [/data/X]. *)
Definition store_one : DB :=
  mkDB [] [] []
    [UserEntity.mkRow 1 42 "alice" (Some 1700000000) "/data/X" (Some 12)]
    [] false.

(** Account 42 tracked twice, at [/a] and at [/b]. *)
Definition store_two : DB :=
  mkDB [] [] []
    [UserEntity.mkRow 1 42 "alice" (Some 1700000000) "/a" (Some 12);
     UserEntity.mkRow 2 42 "alice" None "/b" None]
    [] false.

(** Account 7 tracked at [/old]. *)
Definition store_old : DB :=
  mkDB [] [] [] [UserEntity.mkRow 1 7 "bob" None "/old" None] [] false.

(** List 3 tracked at [/a] under the name [Friends]. *)
Definition store_lst : DB :=
  mkDB [] [] [LstEntity.mkRow 1 3 "Friends" "/a"] [] [] false.

Definition empty_store : DB := mkDB [] [] [] [] [] false.

(** Account 42 tracked twice, at [/data/X] and at [/data/X2]. *)
Definition store_X_X2 : DB :=
  mkDB [] [] []
    [UserEntity.mkRow 1 42 "alice" (Some 1700000000) "/data/X" (Some 12);
     UserEntity.mkRow 2 42 "alice" None "/data/X2" None]
    [] false.

(** Candidates handed to the create paths. *)
Definition candidate_alice : UserEntity.t :=
  UserEntity.mk no_id 42 "alice" None "/data/X" None.

Definition candidate_alice_b : UserEntity.t :=
  UserEntity.mk no_id 42 "alice" None "/b" None.

Definition candidate_carol : UserEntity.t :=
  UserEntity.mk no_id 9 "carol" (Some 1700000500) "/fresh" (Some 99).

Definition candidate_friends : LstEntity.t :=
  LstEntity.mk no_id 3 "friends" "/b".

(** ** Statements under test

    Four sentences of the specification are written down here as they
    stand, so that they can be evaluated on a concrete store. *)

Section Statements.

Variable Abs : string -> result string.
Variable Join : string -> string -> string.
Variable Stat : string -> bool.
Variable EqualFold : string -> string -> bool.

(** Marker-confirmed relocation, as the specification words it: with the
    marker inside the canonical directory and at least one row stored for
    the account, [LocateUserEntity] returns the first row re-pointed at the
    directory, the stored row is rewritten, and the account keeps its
    number of rows. *)
Definition marker_relocation_as_specified (db : DB) (uid : Z)
    (dir : string) : Prop :=
  forall absPath r rest,
    Abs dir = Ok absPath ->
    has_marker Join Stat absPath = true ->
    rows_of_user uid db = r :: rest ->
    let out := LocateUserEntity Abs Join Stat uid dir db in
    let r' := UserEntity.row_set_parent_dir r absPath in
    returned out = Ok (Some (UserEntity.scan r'))
    /\ In r' (user_entities (db_after out))
    /\ List.length (rows_of_user uid (db_after out))
       = List.length (rows_of_user uid db).

(** The fast path with two or more rows, as worded: the first row is
    updated and returned even when another row already sits at the
    directory, and the exact-match query is not sent. *)
Definition fast_path_bypass_as_specified (db : DB) (uid : Z)
    (dir : string) : Prop :=
  forall absPath r r2 rest,
    Abs dir = Ok absPath ->
    has_marker Join Stat absPath = true ->
    rows_of_user uid db = r :: r2 :: rest ->
    let out := LocateUserEntity Abs Join Stat uid dir db in
    let r' := UserEntity.row_set_parent_dir r absPath in
    returned out = Ok (Some (UserEntity.scan r'))
    /\ In r' (user_entities (db_after out))
    /\ (forall ev, In ev (issued out) ->
                   sent ev <> SelectUserEntityAt uid absPath).

(** The exact-match phase of the create path, as worded: a candidate whose
    (account, directory) pair is stored, with no marker at the candidate
    directory or at a stored directory of the account, gets the stored row
    back and nothing is inserted. *)
Definition create_exact_match_as_specified (db : DB)
    (entity : UserEntity.t) (rootPath : string) : Prop :=
  forall absPath r,
    Abs (UserEntity.ParentDir entity) = Ok absPath ->
    In r (user_entities db) ->
    user_entity_at (UserEntity.Uid entity) absPath r = true ->
    has_marker Join Stat absPath = false ->
    (forall x, In x (rows_of_user (UserEntity.Uid entity) db) ->
               has_marker Join Stat (UserEntity.parent_dir x) = false) ->
    let out :=
      CreateOrUpdateUserEntityWithPathChange Abs Join Stat entity rootPath db
    in
    returned out = Ok (UserEntity.scan r)
    /\ user_entities (db_after out) = user_entities db.

(** The fallback of the list create path, as worded: an existing row is
    taken as the relocated one only when the candidate directory exists on
    disk and the names agree up to case; the row taken is re-pointed and
    returned. *)
Definition lst_create_fallback_as_specified (db : DB)
    (entity : LstEntity.t) : Prop :=
  forall absPath r,
    Abs (LstEntity.ParentDir entity) = Ok absPath ->
    (forall x, In x (lst_entities db) ->
               lst_entity_at (LstEntity.LstId entity) absPath x = false) ->
    In r (lst_entities db) ->
    let out := CreateOrUpdateLstEntityWithPathChange Abs EqualFold entity db in
    let r' := LstEntity.row_set_parent_dir r absPath in
    returned out = Ok (LstEntity.scan r') ->
    (Stat absPath = true
     /\ EqualFold (LstEntity.name r) (LstEntity.Name entity) = true)
    /\ In r' (lst_entities (db_after out)).

(** A row of [after] whose primary key is not in use in [before]. *)
Definition inserted_row (before after : DB) (r : UserEntity.row) : Prop :=
  In r (user_entities after)
  /\ forall x, In x (user_entities before) ->
               UserEntity.id x <> UserEntity.id r.

(** What an INSERT of [entity] at [dir] makes of [user_entities]. *)
Definition appended (db : DB) (entity : UserEntity.t) (dir : string)
  : list UserEntity.row :=
  user_entities db
  ++ [UserEntity.mkRow (next_rowid (map UserEntity.id (user_entities db)))
        (UserEntity.Uid entity) (UserEntity.Name entity) None dir None].

(** The table after a call either has the primary keys it had, or has
    grown by the one row of the INSERT. *)
Definition same_keys_or_appended {A} (db : DB) (entity : UserEntity.t)
    (dir : string) (out : run A) : Prop :=
  map UserEntity.id (user_entities (db_after out))
  = map UserEntity.id (user_entities db)
  \/ user_entities (db_after out) = appended db entity dir.

End Statements.

(** Every statement of a call that the store answered with an error is the
    error the call returns. *)
Definition errors_returned {A} (out : run A) : Prop :=
  forall ev e, In ev (issued out) -> answer ev = Some e -> returned out = Err e.

(** ** The plain accessors of [crud.go]

    Each of them sends one statement.  Its outcome is the store after the
    statement and the Go result; the functions that return only [error]
    yield [unit] or, where they write the new primary key into the caller's
    struct, that struct.  [DelUser] and [RecordUserPreviousName] involve the
    table [user_previous_names] and the clock, [CreateLstEntity] inserts
    under a primary key of the caller's choice, [CreateTables] panics on
    failure: they are not modelled. *)

From Stdlib Require Import Lia.

Record outcome (A : Type) := mkOutcome { store_after : DB; value : result A }.
Arguments mkOutcome {A} _ _.
Arguments store_after {A} _.
Arguments value {A} _.

Definition with_users (db : DB) (t : list User.t) : DB :=
  mkDB t (lsts db) (lst_entities db) (user_entities db) (user_links db)
       (foreign_keys db).

Definition with_lsts (db : DB) (t : list Lst.t) : DB :=
  mkDB (users db) t (lst_entities db) (user_entities db) (user_links db)
       (foreign_keys db).

Definition with_user_links (db : DB) (t : list UserLink.row) : DB :=
  mkDB (users db) (lsts db) (lst_entities db) (user_entities db) t
       (foreign_keys db).

(** [db.Exec] / [db.NamedExec] of one statement on one table, the value of
    the statement (the last insert id, for an INSERT) handed on. *)
Definition exec1 {R A} (store : DB -> list R -> DB)
    (f : DB -> result (list R * A)) (db : DB) : outcome A :=
  match f db with
  | Ok (t, a) => mkOutcome (store db t) (Ok a)
  | Err e => mkOutcome db (Err e)
  end.

(** The rows a DELETE [... WHERE id=?] leaves. *)
Definition delete_where_id {R} (id : R -> Z) (i : Z) (t : list R) : list R :=
  filter (fun r => negb (id r =? i)) t.

Definition users_unique : string := "users.screen_name".
Definition lsts_pk : string := "lsts.id".


(** UPDATE users SET screen_name, name, protected, friends_count WHERE id:
    every column of the row is rewritten from the struct. *)
Definition update_user (usr : User.t) (db : DB)
  : result (list User.t * unit) :=
  if existsb (fun u => User.Id u =? User.Id usr) (users db)
     && existsb (fun u => negb (User.Id u =? User.Id usr)
                          && String.eqb (User.ScreenName u)
                               (User.ScreenName usr)) (users db)
  then Err (ErrUnique users_unique)
  else Ok (update_where_id User.Id (fun _ => usr) (User.Id usr) (users db), tt).

Definition insert_lst (lst : Lst.t) (db : DB) : result (list Lst.t * unit) :=
  if existsb (fun l => Lst.Id l =? Lst.Id lst) (lsts db)
  then Err (ErrUnique lsts_pk)
  else Ok (lsts db ++ [lst], tt).



(** DELETE FROM lst_entities WHERE id=?: [user_links] refers to the table,
    and a referenced row cannot go while foreign keys are enforced. *)
Definition delete_lst_entity (id : Z) (db : DB)
  : result (list LstEntity.row * unit) :=
  if foreign_keys db
     && existsb (fun r => LstEntity.id r =? id) (lst_entities db)
     && existsb (fun l => UserLink.parent_lst_entity_id l =? id)
          (user_links db)
  then Err ErrForeignKey
  else Ok (delete_where_id LstEntity.id id (lst_entities db), tt).

Definition row_set_stat (name : string) (t : NullTime) (count : option Z)
    (r : UserEntity.row) : UserEntity.row :=
  UserEntity.mkRow (UserEntity.id r) (UserEntity.user_id r) name t
    (UserEntity.parent_dir r) count.

Definition row_set_media_count (count : option Z) (r : UserEntity.row)
  : UserEntity.row :=
  row_set_stat (UserEntity.name r) (UserEntity.latest_release_time r) count r.

Definition row_set_latest_release_time (t : NullTime) (r : UserEntity.row)
  : UserEntity.row :=
  row_set_stat (UserEntity.name r) t (UserEntity.media_count r) r.

(** An UPDATE [... WHERE id=?] of columns no constraint looks at; a NULL
    bound to the placeholder selects no row. *)
Definition update_plain {R} (id : R -> Z) (f : R -> R) (i : option Z)
    (t : list R) : result (list R * unit) :=
  match i with
  | None => Ok (t, tt)
  | Some i => Ok (update_where_id id f i t, tt)
  end.


(** [UpdateUser] (lines 243-247). *)
Definition UpdateUser (usr : User.t) (db : DB) : outcome unit :=
  exec1 with_users (update_user usr) db.

(** [DelUserEntity] (lines 273-277). *)
Definition DelUserEntity (id : Z) (db : DB) : outcome unit :=
  exec1 with_user_entities
    (fun db => Ok (delete_where_id UserEntity.id id (user_entities db), tt))
    db.

(** [UpdateUserEntity] (lines 364-368). *)
Definition UpdateUserEntity (entity : UserEntity.t) (db : DB) : outcome unit :=
  exec1 with_user_entities
    (fun db =>
       update_plain UserEntity.id
         (row_set_stat (UserEntity.Name entity)
            (UserEntity.LatestReleaseTime entity)
            (UserEntity.MediaCount entity))
         (NullInt32_Value (UserEntity.Id entity)) (user_entities db))
    db.

(** [UpdateUserEntityMediCount] (lines 370-374). *)
Definition UpdateUserEntityMediCount (eid : Z) (count : Z) (db : DB)
  : outcome unit :=
  exec1 with_user_entities
    (fun db =>
       update_plain UserEntity.id (row_set_media_count (Some count))
         (Some eid) (user_entities db))
    db.

(** [UpdateUserEntityTweetStat] (lines 376-380). *)
Definition UpdateUserEntityTweetStat (eid : Z) (baseline : Time) (count : Z)
    (db : DB) : outcome unit :=
  exec1 with_user_entities
    (fun db =>
       update_plain UserEntity.id
         (fun r => row_set_stat (UserEntity.name r) (Some baseline)
                     (Some count) r)
         (Some eid) (user_entities db))
    db.

(** [CreateLst] (lines 382-386). *)
Definition CreateLst (lst : Lst.t) (db : DB) : outcome unit :=
  exec1 with_lsts (insert_lst lst) db.

(** [DelLst] (lines 388-392). *)
Definition DelLst (lid : Z) (db : DB) : outcome unit :=
  exec1 with_lsts
    (fun db => Ok (delete_where_id Lst.Id lid (lsts db), tt)) db.

(** [UpdateLst] (lines 408-412). *)
Definition UpdateLst (lst : Lst.t) (db : DB) : outcome unit :=
  exec1 with_lsts
    (fun db =>
       update_plain Lst.Id
         (fun l => Lst.mk (Lst.Id l) (Lst.Name lst) (Lst.OwnerId l))
         (Some (Lst.Id lst)) (lsts db))
    db.

(** [DelLstEntity] (lines 437-441). *)
Definition DelLstEntity (id : Z) (db : DB) : outcome unit :=
  exec1 with_lst_entities (delete_lst_entity id) db.

(** [UpdateLstEntity] (lines 502-506): the placeholder is bound to
    [entity.Id.Int32], whether or not the id is valid. *)
Definition UpdateLstEntity (entity : LstEntity.t) (db : DB) : outcome unit :=
  exec1 with_lst_entities
    (fun db =>
       update_plain LstEntity.id
         (fun r => LstEntity.mkRow (LstEntity.id r) (LstEntity.lst_id r)
                     (LstEntity.Name entity) (LstEntity.parent_dir r))
         (Some (Int32 (LstEntity.Id entity))) (lst_entities db))
    db.

(** [SetUserEntityLatestReleaseTime] (lines 508-512). *)
Definition SetUserEntityLatestReleaseTime (id : Z) (t : Time) (db : DB)
  : outcome unit :=
  exec1 with_user_entities
    (fun db =>
       update_plain UserEntity.id (row_set_latest_release_time (Some t))
         (Some id) (user_entities db))
    db.


(** [DelUserLink] (lines 536-540). *)
Definition DelUserLink (id : Z) (db : DB) : outcome unit :=
  exec1 with_user_links
    (fun db => Ok (delete_where_id UserLink.id id (user_links db), tt)) db.

(** [GetUserLinks] (lines 542-547): the slice starts out empty, not nil. *)
Definition GetUserLinks (uid : Z) (db : DB) : outcome (list UserLink.t) :=
  mkOutcome db
    (Ok (map UserLink.scan
           (filter (fun r => UserLink.user_id r =? uid) (user_links db)))).

(** [UpdateUserLink] (lines 563-567). *)
Definition UpdateUserLink (id : Z) (name : string) (db : DB) : outcome unit :=
  exec1 with_user_links
    (fun db =>
       update_plain UserLink.id
         (fun r => UserLink.mkRow (UserLink.id r) (UserLink.user_id r) name
                     (UserLink.parent_lst_entity_id r))
         (Some id) (user_links db))
    db.

(** ** Invariants and views used by the further properties *)

(** [PRIMARY KEY (id)] and [UNIQUE (user_id, parent_dir)] of
    [user_entities]. *)
Definition user_entities_ok (db : DB) : Prop :=
  user_entities_pk db = true /\ user_entities_uniq (user_entities db) = true.

(** A row with its directory blanked: what a relocation leaves alone. *)
Definition but_dir (r : UserEntity.row) : UserEntity.row :=
  UserEntity.row_set_parent_dir r "".

Definition lst_but_dir (r : LstEntity.row) : LstEntity.row :=
  LstEntity.row_set_parent_dir r "".

(** Everything in the store except the directories of the two entity
    tables. *)
Definition same_but_dirs (db db' : DB) : Prop :=
  users db' = users db
  /\ lsts db' = lsts db
  /\ user_links db' = user_links db
  /\ foreign_keys db' = foreign_keys db
  /\ map but_dir (user_entities db') = map but_dir (user_entities db)
  /\ map lst_but_dir (lst_entities db') = map lst_but_dir (lst_entities db).

(** A property of the store that a call carries from before to after. *)
Definition keeps {A} (P : DB -> Prop) (m : M A) : Prop :=
  forall db, P db -> P (db_after (m db)).

(** The rows of [user_entities] pairwise apart on (user_id, parent_dir). *)
Definition apart (a b : UserEntity.row) : Prop :=
  user_entity_at (UserEntity.user_id a) (UserEntity.parent_dir a) b = false.

(** The stored row the account create path takes for the candidate: with
    the marker in the target directory the first row of the account,
    otherwise the first row whose stored directory holds the marker. *)
Definition create_path_choice (Join : string -> string -> string)
    (Stat : string -> bool) (absPath : string) (rows : list UserEntity.row)
  : option UserEntity.row :=
  if has_marker Join Stat absPath then hd_error rows
  else find (fun r => has_marker Join Stat (UserEntity.parent_dir r)) rows.

(** The row an INSERT of [entity] at [dir] adds. *)
Definition new_row (db : DB) (entity : UserEntity.t) (dir : string)
  : UserEntity.row :=
  UserEntity.mkRow (next_rowid (map UserEntity.id (user_entities db)))
    (UserEntity.Uid entity) (UserEntity.Name entity) None dir None.

(** The columns of a [user_entities] row that the statistics updates leave
    alone. *)
Definition placement (r : UserEntity.row) : Z * Z * string :=
  (UserEntity.id r, UserEntity.user_id r, UserEntity.parent_dir r).

(** What a create path for accounts may change: [user_entities] and nothing
    else. *)
Definition only_user_entities (db db' : DB) : Prop :=
  users db' = users db
  /\ lsts db' = lsts db
  /\ lst_entities db' = lst_entities db
  /\ user_links db' = user_links db
  /\ foreign_keys db' = foreign_keys db.

(** What the create path for lists may change: [lst_entities], where the
    rows it had keep their key, list and name, and rows may be added after
    them. *)
Definition only_lst_entities (db db' : DB) : Prop :=
  users db' = users db
  /\ lsts db' = lsts db
  /\ user_entities db' = user_entities db
  /\ user_links db' = user_links db
  /\ foreign_keys db' = foreign_keys db
  /\ exists added,
       map lst_but_dir (lst_entities db')
       = map lst_but_dir (lst_entities db) ++ added.

(** More stores and arguments for the examples. *)
Definition Abs_fails (p : string) : result string := Err (ErrPath "getwd").

Definition usr_alice : User.t := User.mk 42 "alice" "Alice" false 10.
Definition usr_bob : User.t := User.mk 7 "bob" "Bob" false 3.
Definition lst_friends : Lst.t := Lst.mk 3 "Friends" 42.

(** Foreign keys enforced; accounts 42 and 7, list 3 tracked at [/a],
    account 42 tracked at [/data/X] and linked into the list entity. *)
Definition store_full : DB :=
  mkDB [usr_alice; usr_bob] [lst_friends]
    [LstEntity.mkRow 1 3 "Friends" "/a"]
    [UserEntity.mkRow 1 42 "alice" (Some 1700000000) "/data/X" (Some 12)]
    [UserLink.mkRow 1 42 "alice" 1] true.

(** Accounts 42 and 7, one row each. *)
Definition store_mixed : DB :=
  mkDB [] [] []
    [UserEntity.mkRow 1 42 "alice" (Some 1700000000) "/data/X" (Some 12);
     UserEntity.mkRow 2 7 "bob" None "/old" None]
    [] false.

Definition candidate_alice_X2 : UserEntity.t :=
  UserEntity.mk no_id 42 "Alice A." None "/data/X2" None.

Definition entity_alice_stat : UserEntity.t :=
  UserEntity.mk (mkNullInt32 1 true) 42 "Alice A." (Some 1700000900)
    "/elsewhere" (Some 40).


(** ** Arguments declared [uint64]

    [database/sql] turns every argument into a driver value before the
    statement goes to the store.  A [uint64] becomes an [int64]; one with
    the high bit set is refused, and [db.Get], [db.Select] and [db.Exec]
    come back with that error and send nothing.  The definitions above take
    an id as the store sees it, a number the driver has accepted.  Below are
    the six modelled functions of [crud.go] whose id parameter is declared
    [uint64], on the whole of that type. *)

Definition ErrHighBit : error :=
  ErrConvert "uint64 values with high bit set are not supported".

Definition driver_accepts (u : Z) : bool := u <? 2 ^ 63.

Section Uint64.

Variable Abs : string -> result string.
Variable Join : string -> string -> string.
Variable Stat : string -> bool.

(** [GetUserById] (lines 229-241), [uid uint64]: the error of [db.Get] is
    not [sql.ErrNoRows] and is returned. *)
Definition GetUserById_uint64 (uid : Z) : M (option User.t) :=
  if driver_accepts uid then GetUserById uid else fail ErrHighBit.

(** [GetLst] (lines 394-406), [lid uint64]. *)
Definition GetLst_uint64 (lid : Z) : M (option Lst.t) :=
  if driver_accepts lid then GetLst lid else fail ErrHighBit.

(** [GetUserLink] (lines 549-561), [uid uint64]; the other parameter is an
    [int32]. *)
Definition GetUserLink_uint64 (uid : Z) (parentLstEntityId : Z)
  : M (option UserLink.t) :=
  if driver_accepts uid then GetUserLink uid parentLstEntityId
  else fail ErrHighBit.

(** [LocateUserEntity] (lines 279-348), [uid uint64]: the path is made
    absolute first; after that the first statement reached, the SELECT of
    line 291 or the one of line 313, fails on its argument and the error is
    returned at line 293 or 345. *)
Definition LocateUserEntity_uint64 (uid : Z) (parentDIr : string)
  : M (option UserEntity.t) :=
  if driver_accepts uid then LocateUserEntity Abs Join Stat uid parentDIr
  else (absPath <- lift (Abs parentDIr) ;; fail ErrHighBit).

(** [GetUserLinks] (lines 542-547), [uid uint64]. *)
Definition GetUserLinks_uint64 (uid : Z) (db : DB)
  : outcome (list UserLink.t) :=
  if driver_accepts uid then GetUserLinks uid db
  else mkOutcome db (Err ErrHighBit).

(** [DelLst] (lines 388-392), [lid uint64]. *)
Definition DelLst_uint64 (lid : Z) (db : DB) : outcome unit :=
  if driver_accepts lid then DelLst lid db else mkOutcome db (Err ErrHighBit).

End Uint64.

(** "Absence is not failure" as the specification words it, for
    [GetUserById]: no stored user has the id, so a nil result and a nil
    error come back. *)
Definition absence_as_specified (db : DB) (uid : Z) : Prop :=
  (forall u, In u (users db) -> User.Id u <> uid) ->
  returned (GetUserById_uint64 uid db) = Ok None.

(** ** Facts about the store *)

Lemma distinct_In_eq {R} (id : R -> Z) (t : list R) (r r' : R) :
  distinct (map id t) = true ->
  In r t -> In r' t -> id r = id r' -> r = r'.
Proof.
  induction t as [|a t IH]; simpl; [tauto|].
  intros Hd Hr Hr' E.
  apply andb_true_iff in Hd. destruct Hd as [Hn Hd].
  apply negb_true_iff in Hn.
  assert (Hfresh : forall x, In x t -> id a <> id x).
  { intros x Hx Ex.
    assert (existsb (Z.eqb (id a)) (map id t) = true) as Hc.
    { apply existsb_exists. exists (id x). split.
      - now apply in_map.
      - now apply Z.eqb_eq. }
    congruence. }
  destruct Hr as [->|Hr], Hr' as [->|Hr'].
  - reflexivity.
  - exfalso. now apply (Hfresh r').
  - exfalso. apply (Hfresh r Hr). congruence.
  - now apply IH.
Qed.

Lemma nocase_eqb_sym (a b : string) : nocase_eqb a b = nocase_eqb b a.
Proof. unfold nocase_eqb. apply String.eqb_sym. Qed.

Lemma nocase_eqb_trans (a b c : string) :
  nocase_eqb a b = true -> nocase_eqb b c = true -> nocase_eqb a c = true.
Proof.
  unfold nocase_eqb. rewrite !String.eqb_eq. congruence.
Qed.

(** No row outside primary key [i] sits at the target: the UNIQUE index
    accepts the rewrite. *)
Lemma user_entities_conflict_free (t : list UserEntity.row)
    (r : UserEntity.row) (dir : string) :
  distinct (map UserEntity.id t) = true ->
  In r t ->
  (forall r', In r' t -> UserEntity.id r' <> UserEntity.id r ->
              user_entity_at (UserEntity.user_id r) dir r' = false) ->
  user_entities_conflict t (UserEntity.id r) dir = false.
Proof.
  intros Hd Hr Hfree. unfold user_entities_conflict.
  apply not_true_is_false. intros Hc.
  apply existsb_exists in Hc. destruct Hc as [x [Hx Hc]].
  apply andb_true_iff in Hc. destruct Hc as [Ex Hc].
  apply Z.eqb_eq in Ex.
  assert (x = r) by (eapply distinct_In_eq; eauto). subst x.
  apply existsb_exists in Hc. destruct Hc as [y [Hy Hc]].
  apply andb_true_iff in Hc. destruct Hc as [Ny Hc].
  apply negb_true_iff, Z.eqb_neq in Ny.
  rewrite (Hfree y Hy Ny) in Hc. discriminate.
Qed.

Lemma lst_entities_conflict_free (t : list LstEntity.row)
    (r : LstEntity.row) (dir : string) :
  distinct (map LstEntity.id t) = true ->
  In r t ->
  (forall r', In r' t -> LstEntity.id r' <> LstEntity.id r ->
              lst_entity_at (LstEntity.lst_id r) dir r' = false) ->
  lst_entities_conflict t (LstEntity.id r) dir = false.
Proof.
  intros Hd Hr Hfree. unfold lst_entities_conflict.
  apply not_true_is_false. intros Hc.
  apply existsb_exists in Hc. destruct Hc as [x [Hx Hc]].
  apply andb_true_iff in Hc. destruct Hc as [Ex Hc].
  apply Z.eqb_eq in Ex.
  assert (x = r) by (eapply distinct_In_eq; eauto). subst x.
  apply existsb_exists in Hc. destruct Hc as [y [Hy Hc]].
  apply andb_true_iff in Hc. destruct Hc as [Ny Hc].
  apply negb_true_iff, Z.eqb_neq in Ny.
  rewrite (Hfree y Hy Ny) in Hc. discriminate.
Qed.

(** A rewrite that keeps the owner column commutes with the selection of an
    owner's rows. *)
Lemma filter_update_where_id {R} (id owner : R -> Z) (f : R -> R) (i o : Z)
    (t : list R) :
  (forall r, owner (f r) = owner r) ->
  filter (fun r => owner r =? o) (update_where_id id f i t)
  = update_where_id id f i (filter (fun r => owner r =? o) t).
Proof.
  intros Hf. unfold update_where_id.
  induction t as [|a t IH]; simpl; [reflexivity|].
  destruct (id a =? i) eqn:Ei.
  - rewrite Hf. destruct (owner a =? o); simpl; rewrite ?Ei, IH; reflexivity.
  - destruct (owner a =? o); simpl; rewrite ?Ei, IH; reflexivity.
Qed.

Lemma update_where_id_length {R} (id : R -> Z) (f : R -> R) (i : Z)
    (t : list R) :
  List.length (update_where_id id f i t) = List.length t.
Proof. unfold update_where_id. apply length_map. Qed.

Lemma update_where_id_In {R} (id : R -> Z) (f : R -> R) (t : list R) (r : R) :
  In r t -> In (f r) (update_where_id id f (id r) t).
Proof.
  intros Hr. unfold update_where_id.
  apply in_map_iff. exists r. rewrite Z.eqb_refl. auto.
Qed.

Lemma update_where_id_other {R} (id : R -> Z) (f : R -> R) (i : Z)
    (t : list R) (r : R) :
  In r t -> id r <> i -> In r (update_where_id id f i t).
Proof.
  intros Hr Hi. unfold update_where_id.
  apply in_map_iff. exists r. apply Z.eqb_neq in Hi. rewrite Hi. auto.
Qed.

Lemma find_In {R} (p : R -> bool) (t : list R) (r : R) :
  find p t = Some r -> In r t /\ p r = true.
Proof. apply find_some. Qed.

Lemma rows_of_user_In (uid : Z) (db : DB) (r : UserEntity.row) :
  In r (rows_of_user uid db) ->
  In r (user_entities db) /\ UserEntity.user_id r = uid.
Proof.
  unfold rows_of_user. rewrite filter_In, Z.eqb_eq. tauto.
Qed.

Lemma rows_of_lst_In (lid : Z) (db : DB) (r : LstEntity.row) :
  In r (rows_of_lst lid db) ->
  In r (lst_entities db) /\ LstEntity.lst_id r = lid.
Proof.
  unfold rows_of_lst. rewrite filter_In, Z.eqb_eq. tauto.
Qed.

(** No stored row answers the exact-match query: [db.Get] finds nothing. *)
Lemma find_none_of_all_false {R} (p : R -> bool) (t : list R) :
  (forall r, In r t -> p r = false) -> find p t = None.
Proof.
  induction t as [|a t IH]; simpl; intros H; [reflexivity|].
  rewrite (H a) by auto. apply IH. auto.
Qed.

(** Under the UNIQUE index the exact-match query has one possible answer. *)
Lemma find_user_entity_at (t : list UserEntity.row) (uid : Z) (dir : string)
    (r : UserEntity.row) :
  user_entities_uniq t = true ->
  In r t -> user_entity_at uid dir r = true ->
  find (user_entity_at uid dir) t = Some r.
Proof.
  induction t as [|a t IH]; simpl; [tauto|].
  intros Hu Hr Hat.
  apply andb_true_iff in Hu. destruct Hu as [Hn Hu].
  apply negb_true_iff in Hn.
  destruct (user_entity_at uid dir a) eqn:Ea.
  - destruct Hr as [->|Hr]; [reflexivity|]. exfalso.
    assert (existsb (user_entity_at (UserEntity.user_id a)
                       (UserEntity.parent_dir a)) t = true) as Hc.
    { apply existsb_exists. exists r. split; [assumption|].
      unfold user_entity_at in *.
      apply andb_true_iff in Ea. destruct Ea as [Ea1 Ea2].
      apply andb_true_iff in Hat. destruct Hat as [Hat1 Hat2].
      apply Z.eqb_eq in Ea1, Hat1.
      apply andb_true_iff. split.
      - apply Z.eqb_eq. congruence.
      - apply (nocase_eqb_trans _ dir); [assumption|].
        now rewrite nocase_eqb_sym. }
    congruence.
  - destruct Hr as [->|Hr]; [congruence|]. now apply IH.
Qed.

Lemma map_id_update_where_id {R} (id : R -> Z) (f : R -> R) (i : Z)
    (t : list R) :
  (forall r, id (f r) = id r) ->
  map id (update_where_id id f i t) = map id t.
Proof.
  intros Hf. unfold update_where_id. rewrite map_map.
  apply map_ext. intros a. destruct (id a =? i); [apply Hf|reflexivity].
Qed.

(** ** The reconciliation functions *)

Section Reconciliation.

Variable Abs : string -> result string.
Variable Join : string -> string -> string.
Variable Stat : string -> bool.
Variable EqualFold : string -> string -> bool.

Lemma exec_update_user_entity_dir_accepted (db : DB) (dir : string) (i : Z) :
  user_entities_conflict (user_entities db) i dir = false ->
  exec_update_user_entity_dir dir (mkNullInt32 i true) db
  = mkRun
      (with_user_entities db
         (update_where_id UserEntity.id
            (fun r => UserEntity.row_set_parent_dir r dir) i
            (user_entities db)))
      [mkEvent (UpdateUserEntityDir dir (Some i)) None] (Ok tt).
Proof.
  intros Hc. unfold exec_update_user_entity_dir, db_Exec. simpl.
  rewrite Hc. reflexivity.
Qed.

Lemma exec_update_user_entity_dir_rejected (db : DB) (dir : string) (i : Z) :
  user_entities_conflict (user_entities db) i dir = true ->
  exec_update_user_entity_dir dir (mkNullInt32 i true) db
  = mkRun db
      [mkEvent (UpdateUserEntityDir dir (Some i))
         (Some (ErrUnique user_entities_unique))]
      (Err (ErrUnique user_entities_unique)).
Proof.
  intros Hc. unfold exec_update_user_entity_dir, db_Exec. simpl.
  rewrite Hc. reflexivity.
Qed.

Lemma exec_update_lst_entity_dir_accepted (db : DB) (dir : string) (i : Z) :
  lst_entities_conflict (lst_entities db) i dir = false ->
  exec_update_lst_entity_dir dir (mkNullInt32 i true) db
  = mkRun
      (with_lst_entities db
         (update_where_id LstEntity.id
            (fun r => LstEntity.row_set_parent_dir r dir) i
            (lst_entities db)))
      [mkEvent (UpdateLstEntityDir dir (Some i)) None] (Ok tt).
Proof.
  intros Hc. unfold exec_update_lst_entity_dir, db_Exec. simpl.
  rewrite Hc. reflexivity.
Qed.

(** The loop of [LocateUserEntity] stops at the first record whose stored
    directory holds the marker. *)
Lemma LocateUserEntity_range_find (absPath : string)
    (rows : list UserEntity.row) (db : DB) :
  LocateUserEntity_range Join Stat absPath (map UserEntity.scan rows) db
  = match find (fun r => has_marker Join Stat (UserEntity.parent_dir r)) rows
    with
    | Some r =>
        (discard (exec_update_user_entity_dir absPath
                    (mkNullInt32 (UserEntity.id r) true)) ;;;
         ret (Some (UserEntity.scan
                      (UserEntity.row_set_parent_dir r absPath)))) db
    | None => mkRun db [] (Ok None)
    end.
Proof.
  induction rows as [|a rows IH]; simpl; [reflexivity|].
  unfold has_marker at 1. simpl.
  destruct (Stat (Join (UserEntity.parent_dir a) ".user")); [reflexivity|].
  apply IH.
Qed.

(** C2.  Fallback marker scan: when the marker is absent from the
    canonical directory, no stored row matches (uid, canonical directory)
    and some stored row of the account has the marker inside its stored
    directory, [LocateUserEntity] re-points the first such row at the
    canonical directory and returns it; the account keeps its number of
    rows, so exactly one row remains when exactly one was stored. *)
Theorem fallback_marker_scan (db : DB) (uid : Z) (dir absPath : string)
    (r : UserEntity.row) :
  Abs dir = Ok absPath ->
  user_entities_pk db = true ->
  has_marker Join Stat absPath = false ->
  (forall r', In r' (user_entities db) ->
              user_entity_at uid absPath r' = false) ->
  find (fun r => has_marker Join Stat (UserEntity.parent_dir r))
       (rows_of_user uid db) = Some r ->
  let out := LocateUserEntity Abs Join Stat uid dir db in
  let r' := UserEntity.row_set_parent_dir r absPath in
  returned out = Ok (Some (UserEntity.scan r'))
  /\ user_entities (db_after out)
     = update_where_id UserEntity.id
         (fun x => UserEntity.row_set_parent_dir x absPath)
         (UserEntity.id r) (user_entities db)
  /\ In r' (user_entities (db_after out))
  /\ List.length (rows_of_user uid (db_after out))
     = List.length (rows_of_user uid db)
  /\ (rows_of_user uid db = [r] -> rows_of_user uid (db_after out) = [r']).
Proof.
  intros HAbs Hpk Hnew Hexact Hfind out r'.
  destruct (find_In _ _ _ Hfind) as [Hin _].
  destruct (rows_of_user_In _ _ _ Hin) as [Hr Hu].
  assert (Hfree : user_entities_conflict (user_entities db)
                    (UserEntity.id r) absPath = false).
  { apply user_entities_conflict_free; auto.
    intros x Hx _. rewrite Hu. now apply Hexact. }
  assert (Hout : out
    = mkRun
        (with_user_entities db
           (update_where_id UserEntity.id
              (fun x => UserEntity.row_set_parent_dir x absPath)
              (UserEntity.id r) (user_entities db)))
        [mkEvent (SelectUserEntityAt uid absPath) (Some ErrNoRows);
         mkEvent (SelectUserEntities uid) None;
         mkEvent (UpdateUserEntityDir absPath (Some (UserEntity.id r))) None]
        (Ok (Some (UserEntity.scan r')))).
  { subst out. unfold LocateUserEntity, bind at 1, lift. rewrite HAbs.
    unfold has_marker in Hnew. unfold bind at 1. rewrite Hnew.
    unfold ret at 1. cbv beta iota.
    unfold bind at 1, try, db_Get.
    rewrite (find_none_of_all_false _ _ Hexact).
    unfold bind at 1, select_user_entities, db_Select.
    fold (rows_of_user uid db).
    rewrite LocateUserEntity_range_find, Hfind.
    unfold bind, discard.
    rewrite (exec_update_user_entity_dir_accepted _ _ _ Hfree).
    reflexivity. }
  rewrite Hout. simpl.
  split; [reflexivity|]. split; [reflexivity|].
  split.
  { apply (update_where_id_In UserEntity.id
             (fun x => UserEntity.row_set_parent_dir x absPath) _ r Hr). }
  unfold rows_of_user. simpl.
  rewrite (filter_update_where_id UserEntity.id UserEntity.user_id)
    by reflexivity.
  split; [apply update_where_id_length|].
  fold (rows_of_user uid db). intros ->. simpl.
  rewrite Z.eqb_refl. reflexivity.
Qed.

(** Once the marker is found in the target directory and the account has
    rows, [LocateUserEntity] is the SELECT of the account's rows followed
    by the UPDATE of the first one, whose outcome it does not look at. *)
Lemma LocateUserEntity_fast_path (db : DB) (uid : Z) (dir absPath : string)
    (r : UserEntity.row) (rest : list UserEntity.row) :
  Abs dir = Ok absPath ->
  has_marker Join Stat absPath = true ->
  rows_of_user uid db = r :: rest ->
  LocateUserEntity Abs Join Stat uid dir db
  = match exec_update_user_entity_dir absPath
            (mkNullInt32 (UserEntity.id r) true) db with
    | mkRun db1 l1 _ =>
        mkRun db1 (mkEvent (SelectUserEntities uid) None :: l1)
          (Ok (Some (UserEntity.scan
                       (UserEntity.row_set_parent_dir r absPath))))
    end.
Proof.
  intros HAbs Hnew Hrows.
  unfold LocateUserEntity, bind at 1, lift. rewrite HAbs.
  unfold has_marker in Hnew. unfold bind at 1. rewrite Hnew.
  unfold bind at 1, select_user_entities, db_Select.
  fold (rows_of_user uid db). rewrite Hrows. simpl map.
  unfold bind, discard, ret. simpl.
  destruct (exec_update_user_entity_dir absPath
              {| Int32 := UserEntity.id r; Valid := true |} db).
  simpl. rewrite !app_nil_r. reflexivity.
Qed.

(** The fast path when the UNIQUE index lets the rewrite through. *)
Lemma LocateUserEntity_fast_path_accepted (db : DB) (uid : Z)
    (dir absPath : string) (r : UserEntity.row)
    (rest : list UserEntity.row) :
  Abs dir = Ok absPath ->
  user_entities_pk db = true ->
  has_marker Join Stat absPath = true ->
  rows_of_user uid db = r :: rest ->
  (forall x, In x (user_entities db) ->
             UserEntity.id x <> UserEntity.id r ->
             user_entity_at uid absPath x = false) ->
  let out := LocateUserEntity Abs Join Stat uid dir db in
  let r' := UserEntity.row_set_parent_dir r absPath in
  returned out = Ok (Some (UserEntity.scan r'))
  /\ user_entities (db_after out)
     = update_where_id UserEntity.id
         (fun x => UserEntity.row_set_parent_dir x absPath)
         (UserEntity.id r) (user_entities db)
  /\ In r' (user_entities (db_after out))
  /\ List.length (rows_of_user uid (db_after out))
     = List.length (rows_of_user uid db)
  /\ issued out
     = [mkEvent (SelectUserEntities uid) None;
        mkEvent (UpdateUserEntityDir absPath (Some (UserEntity.id r))) None].
Proof.
  intros HAbs Hpk Hnew Hrows Hother out r'.
  assert (Hin : In r (rows_of_user uid db)) by (rewrite Hrows; now left).
  destruct (rows_of_user_In _ _ _ Hin) as [Hr Hu].
  assert (Hfree : user_entities_conflict (user_entities db)
                    (UserEntity.id r) absPath = false).
  { apply user_entities_conflict_free; auto.
    intros x Hx Nx. rewrite Hu. now apply Hother. }
  subst out.
  rewrite (LocateUserEntity_fast_path _ _ _ _ _ _ HAbs Hnew Hrows).
  rewrite (exec_update_user_entity_dir_accepted _ _ _ Hfree). simpl.
  split; [reflexivity|]. split; [reflexivity|].
  split.
  { apply (update_where_id_In UserEntity.id
             (fun x => UserEntity.row_set_parent_dir x absPath) _ r Hr). }
  split; [|reflexivity].
  unfold rows_of_user. simpl.
  rewrite (filter_update_where_id UserEntity.id UserEntity.user_id)
    by reflexivity.
  apply update_where_id_length.
Qed.

(** C1, as amended.  Marker-confirmed relocation: when the marker is
    inside the canonical directory, the account has at least one stored
    row, and no other stored row of the account already sits at the
    canonical directory (compared as the UNIQUE index compares), then
    [LocateUserEntity] re-points the first row the store returns at the
    canonical directory and returns that row, with the same id; no row is
    inserted and the account keeps its number of rows. *)
Theorem marker_confirmed_relocation (db : DB) (uid : Z)
    (dir absPath : string) (r : UserEntity.row)
    (rest : list UserEntity.row) :
  Abs dir = Ok absPath ->
  user_entities_pk db = true ->
  has_marker Join Stat absPath = true ->
  rows_of_user uid db = r :: rest ->
  (forall x, In x (user_entities db) ->
             UserEntity.id x <> UserEntity.id r ->
             user_entity_at uid absPath x = false) ->
  let out := LocateUserEntity Abs Join Stat uid dir db in
  let r' := UserEntity.row_set_parent_dir r absPath in
  returned out = Ok (Some (UserEntity.scan r'))
  /\ user_entities (db_after out)
     = update_where_id UserEntity.id
         (fun x => UserEntity.row_set_parent_dir x absPath)
         (UserEntity.id r) (user_entities db)
  /\ In r' (user_entities (db_after out))
  /\ List.length (rows_of_user uid (db_after out))
     = List.length (rows_of_user uid db)
  /\ issued out
     = [mkEvent (SelectUserEntities uid) None;
        mkEvent (UpdateUserEntityDir absPath (Some (UserEntity.id r))) None].
Proof.
  intros HAbs Hpk Hnew Hrows Hother.
  exact (LocateUserEntity_fast_path_accepted db uid dir absPath r rest
           HAbs Hpk Hnew Hrows Hother).
Qed.

(** C9, as amended.  The marker fast path skips the exact match: with the
    marker inside the canonical directory and rows stored for the account,
    [LocateUserEntity] sends the SELECT of the account's rows and the
    UPDATE of the first one and never the exact-match query, also when
    another row already sits at the canonical directory; a row it returns
    is that first row, re-pointed; no other row changes; and the first row
    is rewritten in the store and returned whenever no other row of the
    account sits at the canonical directory. *)
Theorem marker_fast_path_skips_exact_match (db : DB) (uid : Z)
    (dir absPath : string) (r : UserEntity.row)
    (rest : list UserEntity.row) :
  Abs dir = Ok absPath ->
  has_marker Join Stat absPath = true ->
  rows_of_user uid db = r :: rest ->
  let out := LocateUserEntity Abs Join Stat uid dir db in
  let r' := UserEntity.row_set_parent_dir r absPath in
  map sent (issued out)
  = [SelectUserEntities uid;
     UpdateUserEntityDir absPath (Some (UserEntity.id r))]
  /\ (forall e, returned out = Ok (Some e) -> e = UserEntity.scan r')
  /\ (forall x, In x (user_entities db) ->
                UserEntity.id x <> UserEntity.id r ->
                In x (user_entities (db_after out)))
  /\ (user_entities_pk db = true ->
      (forall x, In x (user_entities db) ->
                 UserEntity.id x <> UserEntity.id r ->
                 user_entity_at uid absPath x = false) ->
      returned out = Ok (Some (UserEntity.scan r'))
      /\ In r' (user_entities (db_after out))).
Proof.
  intros HAbs Hnew Hrows out r'.
  split; [|split; [|split]].
  - subst out.
    rewrite (LocateUserEntity_fast_path _ _ _ _ _ _ HAbs Hnew Hrows).
    unfold exec_update_user_entity_dir, db_Exec, update_user_entities.
    simpl.
    destruct (user_entities_conflict (user_entities db) (UserEntity.id r)
                absPath); reflexivity.
  - subst out.
    rewrite (LocateUserEntity_fast_path _ _ _ _ _ _ HAbs Hnew Hrows).
    destruct (exec_update_user_entity_dir absPath
                {| Int32 := UserEntity.id r; Valid := true |} db).
    simpl. intros e He. now inversion He.
  - intros x Hx Nx. subst out.
    rewrite (LocateUserEntity_fast_path _ _ _ _ _ _ HAbs Hnew Hrows).
    unfold exec_update_user_entity_dir, db_Exec, update_user_entities.
    simpl.
    destruct (user_entities_conflict (user_entities db) (UserEntity.id r)
                absPath); simpl; [assumption|].
    now apply update_where_id_other.
  - intros Hpk Hother.
    destruct (LocateUserEntity_fast_path_accepted db uid dir absPath r rest)
      as (H1 & _ & H2 & _); auto.
Qed.

(** C3.  Idempotent exact match: when a row with (uid, canonical
    directory) is stored and no directory holds the marker,
    [LocateUserEntity] returns that row as stored, leaves the store as it
    was, and sends nothing but the exact-match SELECT: no UPDATE, no
    INSERT. *)
Theorem idempotent_exact_match (db : DB) (uid : Z) (dir absPath : string)
    (r : UserEntity.row) :
  Abs dir = Ok absPath ->
  user_entities_uniq (user_entities db) = true ->
  In r (user_entities db) ->
  user_entity_at uid absPath r = true ->
  (forall d, has_marker Join Stat d = false) ->
  LocateUserEntity Abs Join Stat uid dir db
  = mkRun db [mkEvent (SelectUserEntityAt uid absPath) None]
      (Ok (Some (UserEntity.scan r))).
Proof.
  intros HAbs Hu Hr Hat Hno.
  unfold LocateUserEntity, bind at 1, lift. rewrite HAbs.
  pose proof (Hno absPath) as Hnew. unfold has_marker in Hnew.
  unfold bind at 1. rewrite Hnew.
  unfold ret at 1. cbv beta iota.
  unfold bind at 1, try, db_Get.
  rewrite (find_user_entity_at _ _ _ _ Hu Hr Hat).
  reflexivity.
Qed.

(** The loop of the account create path stops at the first record whose
    stored directory holds the marker. *)
Lemma CreateOrUpdateUserEntityWithPathChange_range_find
    (entity : UserEntity.t) (rows : list UserEntity.row) (db : DB) :
  CreateOrUpdateUserEntityWithPathChange_range Join Stat entity
    (map UserEntity.scan rows) db
  = match find (fun r => has_marker Join Stat (UserEntity.parent_dir r)) rows
    with
    | Some r =>
        (exec_update_user_entity_dir_name (UserEntity.ParentDir entity)
           (UserEntity.Name entity) (mkNullInt32 (UserEntity.id r) true) ;;;
         ret (Some (UserEntity.scan
                      (UserEntity.row_set_parent_dir_name r
                         (UserEntity.ParentDir entity)
                         (UserEntity.Name entity))))) db
    | None => mkRun db [] (Ok None)
    end.
Proof.
  induction rows as [|a rows IH]; simpl; [reflexivity|].
  unfold has_marker at 1. simpl.
  destruct (Stat (Join (UserEntity.parent_dir a) ".user")); [reflexivity|].
  apply IH.
Qed.

Lemma find_marker_none (uid : Z) (db : DB) :
  (forall x, In x (rows_of_user uid db) ->
             has_marker Join Stat (UserEntity.parent_dir x) = false) ->
  find (fun r => has_marker Join Stat (UserEntity.parent_dir r))
       (rows_of_user uid db) = None.
Proof. apply find_none_of_all_false. Qed.

(** C4, as amended.  The account create path has no exact-match phase: for
    a candidate whose (account, canonical directory) pair is stored, with
    no marker at the canonical directory or at a stored directory of the
    account, [CreateOrUpdateUserEntityWithPathChange] sends the INSERT,
    the UNIQUE index rejects it, and the call returns that error and no
    entity; no row is inserted and none is changed. *)
Theorem create_rejects_stored_pair (db : DB) (entity : UserEntity.t)
    (rootPath absPath : string) (r : UserEntity.row) :
  Abs (UserEntity.ParentDir entity) = Ok absPath ->
  In r (user_entities db) ->
  user_entity_at (UserEntity.Uid entity) absPath r = true ->
  has_marker Join Stat absPath = false ->
  (forall x, In x (rows_of_user (UserEntity.Uid entity) db) ->
             has_marker Join Stat (UserEntity.parent_dir x) = false) ->
  CreateOrUpdateUserEntityWithPathChange Abs Join Stat entity rootPath db
  = mkRun db
      [mkEvent (SelectUserEntities (UserEntity.Uid entity)) None;
       mkEvent (InsertUserEntity (UserEntity.Uid entity)
                  (UserEntity.Name entity) absPath)
         (Some (ErrUnique user_entities_unique))]
      (Err (ErrUnique user_entities_unique)).
Proof.
  intros HAbs Hr Hat Hnew Hold.
  unfold CreateOrUpdateUserEntityWithPathChange, bind at 1, lift.
  rewrite HAbs. unfold has_marker in Hnew.
  unfold bind at 1. rewrite Hnew.
  unfold ret at 1. cbv beta iota.
  unfold bind at 1, select_user_entities, db_Select. simpl UserEntity.Uid.
  fold (rows_of_user (UserEntity.Uid entity) db).
  unfold bind at 1.
  rewrite CreateOrUpdateUserEntityWithPathChange_range_find.
  rewrite (find_marker_none _ _ Hold).
  unfold bind, exec_insert_user_entity, db_Exec, insert_user_entity.
  simpl.
  assert (existsb (user_entity_at (UserEntity.Uid entity) absPath)
            (user_entities db) = true) as ->.
  { apply existsb_exists. eauto. }
  reflexivity.
Qed.

(** The loop of [LocateLstEntity]: with the target directory on disk the
    first record is taken, otherwise none is. *)
Lemma LocateLstEntity_range_first (absPath : string)
    (rows : list LstEntity.row) (db : DB) :
  LocateLstEntity_range Stat absPath (map LstEntity.scan rows) db
  = match rows with
    | r :: _ =>
        if Stat absPath then
          (discard (exec_update_lst_entity_dir absPath
                      (mkNullInt32 (LstEntity.id r) true)) ;;;
           ret (Some (LstEntity.scan
                        (LstEntity.row_set_parent_dir r absPath)))) db
        else mkRun db [] (Ok None)
    | [] => mkRun db [] (Ok None)
    end.
Proof.
  destruct rows as [|r rows]; [reflexivity|].
  simpl. destruct (Stat absPath) eqn:E; [reflexivity|].
  induction rows as [|a rows IH]; simpl; [reflexivity|].
  rewrite E. apply IH.
Qed.

(** C5.  Name-independent fallback of the list locate path: when no
    stored row matches (lid, canonical directory), the canonical directory
    exists on disk and the list has at least one stored row,
    [LocateLstEntity] takes the first stored row of the list whatever its
    name, re-points it at the canonical directory and returns it. *)
Theorem lst_locate_ignores_name (db : DB) (lid : Z) (dir absPath : string)
    (r : LstEntity.row) (rest : list LstEntity.row) :
  Abs dir = Ok absPath ->
  lst_entities_pk db = true ->
  (forall x, In x (lst_entities db) -> lst_entity_at lid absPath x = false) ->
  Stat absPath = true ->
  rows_of_lst lid db = r :: rest ->
  let out := LocateLstEntity Abs Stat lid dir db in
  let r' := LstEntity.row_set_parent_dir r absPath in
  returned out = Ok (Some (LstEntity.scan r'))
  /\ lst_entities (db_after out)
     = update_where_id LstEntity.id
         (fun x => LstEntity.row_set_parent_dir x absPath)
         (LstEntity.id r) (lst_entities db)
  /\ In r' (lst_entities (db_after out)).
Proof.
  intros HAbs Hpk Hexact Hdir Hrows out r'.
  assert (Hin : In r (rows_of_lst lid db)) by (rewrite Hrows; now left).
  destruct (rows_of_lst_In _ _ _ Hin) as [Hr Hl].
  assert (Hfree : lst_entities_conflict (lst_entities db)
                    (LstEntity.id r) absPath = false).
  { apply lst_entities_conflict_free; auto.
    intros x Hx _. rewrite Hl. now apply Hexact. }
  assert (Hout : out
    = mkRun
        (with_lst_entities db
           (update_where_id LstEntity.id
              (fun x => LstEntity.row_set_parent_dir x absPath)
              (LstEntity.id r) (lst_entities db)))
        [mkEvent (SelectLstEntityAt lid absPath) (Some ErrNoRows);
         mkEvent (SelectLstEntities lid) None;
         mkEvent (UpdateLstEntityDir absPath (Some (LstEntity.id r))) None]
        (Ok (Some (LstEntity.scan r')))).
  { subst out. unfold LocateLstEntity, bind at 1, lift. rewrite HAbs.
    unfold bind at 1, try, db_Get.
    rewrite (find_none_of_all_false _ _ Hexact).
    unfold bind at 1, select_lst_entities, db_Select.
    fold (rows_of_lst lid db).
    rewrite LocateLstEntity_range_first, Hrows, Hdir.
    unfold bind, discard.
    rewrite (exec_update_lst_entity_dir_accepted _ _ _ Hfree).
    reflexivity. }
  rewrite Hout. simpl.
  split; [reflexivity|]. split; [reflexivity|].
  apply (update_where_id_In LstEntity.id
           (fun x => LstEntity.row_set_parent_dir x absPath) _ r Hr).
Qed.

(** The loop of the list create path stops at the first record whose name
    folds to the candidate's. *)
Lemma CreateOrUpdateLstEntityWithPathChange_range_find
    (entity : LstEntity.t) (rows : list LstEntity.row) (db : DB) :
  CreateOrUpdateLstEntityWithPathChange_range EqualFold entity
    (map LstEntity.scan rows) db
  = match find (fun r => EqualFold (LstEntity.name r) (LstEntity.Name entity))
            rows
    with
    | Some r =>
        (exec_update_lst_entity_dir (LstEntity.ParentDir entity)
           (mkNullInt32 (LstEntity.id r) true) ;;;
         ret (Some (LstEntity.scan
                      (LstEntity.row_set_parent_dir r
                         (LstEntity.ParentDir entity))))) db
    | None => mkRun db [] (Ok None)
    end.
Proof.
  induction rows as [|a rows IH]; simpl; [reflexivity|].
  destruct (EqualFold (LstEntity.name a) (LstEntity.Name entity));
    [reflexivity|].
  apply IH.
Qed.

(** C6, as amended.  Fallback of the list create path: for a candidate
    with no stored (list, canonical directory) match,
    [CreateOrUpdateLstEntityWithPathChange] takes an existing row of the
    list exactly when its name equals the candidate's up to case (the
    first such row in store order), whether or not the canonical directory
    exists on disk; the row taken is re-pointed at the canonical directory
    and returned; when no row qualifies the candidate is inserted. *)
Theorem lst_create_matches_by_name (db : DB) (entity : LstEntity.t)
    (absPath : string) :
  Abs (LstEntity.ParentDir entity) = Ok absPath ->
  lst_entities_pk db = true ->
  (forall x, In x (lst_entities db) ->
             lst_entity_at (LstEntity.LstId entity) absPath x = false) ->
  let out := CreateOrUpdateLstEntityWithPathChange Abs EqualFold entity db in
  match find (fun x => EqualFold (LstEntity.name x) (LstEntity.Name entity))
          (rows_of_lst (LstEntity.LstId entity) db)
  with
  | Some r =>
      let r' := LstEntity.row_set_parent_dir r absPath in
      returned out = Ok (LstEntity.scan r')
      /\ map sent (issued out)
         = [SelectLstEntities (LstEntity.LstId entity);
            UpdateLstEntityDir absPath (Some (LstEntity.id r))]
      /\ lst_entities (db_after out)
         = update_where_id LstEntity.id
             (fun x => LstEntity.row_set_parent_dir x absPath)
             (LstEntity.id r) (lst_entities db)
      /\ In r' (lst_entities (db_after out))
  | None =>
      let id := next_rowid (map LstEntity.id (lst_entities db)) in
      returned out
      = Ok (LstEntity.set_Id (LstEntity.set_ParentDir entity absPath)
              (NullInt32_Scan (LstEntity.Id entity) id))
      /\ map sent (issued out)
         = [SelectLstEntities (LstEntity.LstId entity);
            InsertLstEntity (LstEntity.LstId entity) (LstEntity.Name entity)
              absPath]
      /\ lst_entities (db_after out)
         = lst_entities db
           ++ [LstEntity.mkRow id (LstEntity.LstId entity)
                 (LstEntity.Name entity) absPath]
  end.
Proof.
  intros HAbs Hpk Hexact out.
  assert (Hrun : out
    = match find (fun x => EqualFold (LstEntity.name x)
                             (LstEntity.Name entity))
              (rows_of_lst (LstEntity.LstId entity) db)
      with
      | Some r =>
          mkRun
            (with_lst_entities db
               (update_where_id LstEntity.id
                  (fun x => LstEntity.row_set_parent_dir x absPath)
                  (LstEntity.id r) (lst_entities db)))
            [mkEvent (SelectLstEntities (LstEntity.LstId entity)) None;
             mkEvent (UpdateLstEntityDir absPath (Some (LstEntity.id r)))
               None]
            (Ok (LstEntity.scan (LstEntity.row_set_parent_dir r absPath)))
      | None =>
          let id := next_rowid (map LstEntity.id (lst_entities db)) in
          mkRun
            (with_lst_entities db
               (lst_entities db
                ++ [LstEntity.mkRow id (LstEntity.LstId entity)
                      (LstEntity.Name entity) absPath]))
            [mkEvent (SelectLstEntities (LstEntity.LstId entity)) None;
             mkEvent (InsertLstEntity (LstEntity.LstId entity)
                        (LstEntity.Name entity) absPath) None]
            (Ok (LstEntity.set_Id (LstEntity.set_ParentDir entity absPath)
                   (NullInt32_Scan (LstEntity.Id entity) id)))
      end).
  { subst out.
    unfold CreateOrUpdateLstEntityWithPathChange, bind at 1, lift.
    rewrite HAbs.
    unfold bind at 1, select_lst_entities, db_Select.
    simpl LstEntity.LstId.
    fold (rows_of_lst (LstEntity.LstId entity) db).
    unfold bind at 1.
    rewrite CreateOrUpdateLstEntityWithPathChange_range_find.
    simpl LstEntity.Name. simpl LstEntity.ParentDir.
    destruct (find _ (rows_of_lst (LstEntity.LstId entity) db))
      as [r|] eqn:Hf.
    - destruct (find_In _ _ _ Hf) as [Hin _].
      destruct (rows_of_lst_In _ _ _ Hin) as [Hr Hl].
      assert (Hfree : lst_entities_conflict (lst_entities db)
                        (LstEntity.id r) absPath = false).
      { apply lst_entities_conflict_free; auto.
        intros x Hx _. rewrite Hl. now apply Hexact. }
      unfold bind.
      rewrite (exec_update_lst_entity_dir_accepted _ _ _ Hfree).
      reflexivity.
    - unfold bind, exec_insert_lst_entity, db_Exec, insert_lst_entity.
      simpl.
      assert (existsb (lst_entity_at (LstEntity.LstId entity) absPath)
                (lst_entities db) = false) as ->.
      { apply not_true_is_false. intros Hc.
        apply existsb_exists in Hc. destruct Hc as [x [Hx Hc]].
        rewrite (Hexact x Hx) in Hc. discriminate. }
      reflexivity. }
  rewrite Hrun. clear Hrun out.
  destruct (find _ (rows_of_lst (LstEntity.LstId entity) db)) as [r|] eqn:Hf.
  - simpl. repeat split.
    destruct (find_In _ _ _ Hf) as [Hin _].
    destruct (rows_of_lst_In _ _ _ Hin) as [Hr Hl].
    apply (update_where_id_In LstEntity.id
             (fun x => LstEntity.row_set_parent_dir x absPath) _ r Hr).
  - simpl. repeat split.
Qed.

Lemma GetUserById_absent (db : DB) (uid : Z) :
  (forall u, In u (users db) -> User.Id u <> uid) ->
  GetUserById uid db
  = mkRun db [mkEvent (SelectUserById uid) (Some ErrNoRows)] (Ok None).
Proof.
  intros H. unfold GetUserById, bind, try, db_Get.
  rewrite find_none_of_all_false; [reflexivity|].
  intros u Hu. apply Z.eqb_neq. auto.
Qed.

Lemma GetUserEntity_absent (db : DB) (id : Z) :
  (forall r, In r (user_entities db) -> UserEntity.id r <> id) ->
  GetUserEntity id db
  = mkRun db [mkEvent (SelectUserEntityById id) (Some ErrNoRows)] (Ok None).
Proof.
  intros H. unfold GetUserEntity, bind, try, db_Get.
  rewrite find_none_of_all_false; [reflexivity|].
  intros u Hu. apply Z.eqb_neq. auto.
Qed.

Lemma GetLst_absent (db : DB) (lid : Z) :
  (forall l, In l (lsts db) -> Lst.Id l <> lid) ->
  GetLst lid db
  = mkRun db [mkEvent (SelectLstById lid) (Some ErrNoRows)] (Ok None).
Proof.
  intros H. unfold GetLst, bind, try, db_Get.
  rewrite find_none_of_all_false; [reflexivity|].
  intros u Hu. apply Z.eqb_neq. auto.
Qed.

Lemma GetLstEntity_absent (db : DB) (id : Z) :
  (forall r, In r (lst_entities db) -> LstEntity.id r <> id) ->
  GetLstEntity id db
  = mkRun db [mkEvent (SelectLstEntityById id) (Some ErrNoRows)] (Ok None).
Proof.
  intros H. unfold GetLstEntity, bind, try, db_Get.
  rewrite find_none_of_all_false; [reflexivity|].
  intros u Hu. apply Z.eqb_neq. auto.
Qed.

Lemma GetUserLink_absent (db : DB) (uid parentLstEntityId : Z) :
  (forall r, In r (user_links db) ->
             ~ (UserLink.user_id r = uid
                /\ UserLink.parent_lst_entity_id r = parentLstEntityId)) ->
  GetUserLink uid parentLstEntityId db
  = mkRun db
      [mkEvent (SelectUserLinkAt uid parentLstEntityId) (Some ErrNoRows)]
      (Ok None).
Proof.
  intros H. unfold GetUserLink, bind, try, db_Get.
  rewrite find_none_of_all_false; [reflexivity|].
  intros r Hr. apply not_true_is_false. intros Hc.
  apply andb_true_iff in Hc. destruct Hc as [H1 H2].
  apply Z.eqb_eq in H1, H2. apply (H r Hr). auto.
Qed.

(** Nothing stored resolves the call: the marker phase, the exact match
    and the scan all come back empty, and one to three SELECTs are all that
    was sent. *)
Lemma LocateUserEntity_absent (db : DB) (uid : Z) (dir absPath : string) :
  Abs dir = Ok absPath ->
  (forall r, In r (user_entities db) ->
             user_entity_at uid absPath r = false) ->
  (has_marker Join Stat absPath = false \/ rows_of_user uid db = []) ->
  (forall r, In r (rows_of_user uid db) ->
             has_marker Join Stat (UserEntity.parent_dir r) = false) ->
  LocateUserEntity Abs Join Stat uid dir db
  = mkRun db
      ((if has_marker Join Stat absPath
        then [mkEvent (SelectUserEntities uid) None] else [])
       ++ [mkEvent (SelectUserEntityAt uid absPath) (Some ErrNoRows);
           mkEvent (SelectUserEntities uid) None])
      (Ok None).
Proof.
  intros HAbs Hexact Hfast Hscan.
  unfold LocateUserEntity, bind at 1, lift. rewrite HAbs.
  assert (Hmoved :
    (if Stat (Join absPath ".user")
     then
       entities <- select_user_entities uid ;;
       match entities with
       | entity :: _ =>
           discard (exec_update_user_entity_dir absPath
                      (UserEntity.Id entity)) ;;;
           ret (Some (UserEntity.set_ParentDir entity absPath))
       | [] => ret None
       end
     else ret None) db
    = mkRun db (if has_marker Join Stat absPath
                then [mkEvent (SelectUserEntities uid) None] else [])
        (Ok None)).
  { unfold has_marker in *. destruct Hfast as [Hm|He].
    - rewrite Hm. reflexivity.
    - destruct (Stat (Join absPath ".user")); [|reflexivity].
      unfold bind, select_user_entities, db_Select.
      fold (rows_of_user uid db). rewrite He. reflexivity. }
  unfold bind at 1. rewrite Hmoved.
  unfold bind at 1, try, db_Get.
  rewrite (find_none_of_all_false _ _ Hexact).
  unfold bind at 1, select_user_entities, db_Select.
  fold (rows_of_user uid db).
  rewrite LocateUserEntity_range_find.
  rewrite (find_marker_none _ _ Hscan). reflexivity.
Qed.

Lemma LocateLstEntity_absent (db : DB) (lid : Z) (dir absPath : string) :
  Abs dir = Ok absPath ->
  (forall r, In r (lst_entities db) -> lst_entity_at lid absPath r = false) ->
  (Stat absPath = false \/ rows_of_lst lid db = []) ->
  LocateLstEntity Abs Stat lid dir db
  = mkRun db
      [mkEvent (SelectLstEntityAt lid absPath) (Some ErrNoRows);
       mkEvent (SelectLstEntities lid) None]
      (Ok None).
Proof.
  intros HAbs Hexact Hfb.
  unfold LocateLstEntity, bind at 1, lift. rewrite HAbs.
  unfold bind at 1, try, db_Get.
  rewrite (find_none_of_all_false _ _ Hexact).
  unfold bind at 1, select_lst_entities, db_Select.
  fold (rows_of_lst lid db).
  rewrite LocateLstEntity_range_first.
  destruct Hfb as [Hs|He].
  - rewrite Hs. destruct (rows_of_lst lid db); reflexivity.
  - rewrite He. reflexivity.
Qed.

(** C8, as amended.  Absence is not failure: [GetUserById], [GetUserEntity],
    [GetLst], [GetLstEntity], [GetUserLink], [LocateUserEntity] and
    [LocateLstEntity] return a nil result with a nil error, and leave the
    store as it was, when the id is one the driver accepts (below 2^63 where
    the parameter is a [uint64]), no stored row matches the query and, for
    the two locate functions, no fallback phase resolves. *)
Theorem absence_is_not_failure :
  (forall db uid,
      uid < 2 ^ 63 ->
      (forall u, In u (users db) -> User.Id u <> uid) ->
      let out := GetUserById_uint64 uid db in
      returned out = Ok None /\ db_after out = db)
  /\ (forall db id,
         (forall r, In r (user_entities db) -> UserEntity.id r <> id) ->
         let out := GetUserEntity id db in
         returned out = Ok None /\ db_after out = db)
  /\ (forall db lid,
         lid < 2 ^ 63 ->
         (forall l, In l (lsts db) -> Lst.Id l <> lid) ->
         let out := GetLst_uint64 lid db in
         returned out = Ok None /\ db_after out = db)
  /\ (forall db id,
         (forall r, In r (lst_entities db) -> LstEntity.id r <> id) ->
         let out := GetLstEntity id db in
         returned out = Ok None /\ db_after out = db)
  /\ (forall db uid parentLstEntityId,
         uid < 2 ^ 63 ->
         (forall r, In r (user_links db) ->
                    ~ (UserLink.user_id r = uid
                       /\ UserLink.parent_lst_entity_id r
                          = parentLstEntityId)) ->
         let out := GetUserLink_uint64 uid parentLstEntityId db in
         returned out = Ok None /\ db_after out = db)
  /\ (forall db uid dir absPath,
         uid < 2 ^ 63 ->
         Abs dir = Ok absPath ->
         (forall r, In r (user_entities db) ->
                    user_entity_at uid absPath r = false) ->
         (has_marker Join Stat absPath = false \/ rows_of_user uid db = []) ->
         (forall r, In r (rows_of_user uid db) ->
                    has_marker Join Stat (UserEntity.parent_dir r) = false) ->
         let out := LocateUserEntity_uint64 Abs Join Stat uid dir db in
         returned out = Ok None /\ db_after out = db)
  /\ (forall db lid dir absPath,
         Abs dir = Ok absPath ->
         (forall r, In r (lst_entities db) ->
                    lst_entity_at lid absPath r = false) ->
         (Stat absPath = false \/ rows_of_lst lid db = []) ->
         let out := LocateLstEntity Abs Stat lid dir db in
         returned out = Ok None /\ db_after out = db).
Proof.
  assert (Hacc : forall u, u < 2 ^ 63 -> driver_accepts u = true)
    by (intros u Hu; now apply Z.ltb_lt).
  split; [|split; [|split; [|split; [|split; [|split]]]]].
  - intros db uid Hu H. unfold GetUserById_uint64.
    rewrite (Hacc uid Hu), (GetUserById_absent _ _ H). now split.
  - intros db id H. rewrite (GetUserEntity_absent _ _ H). now split.
  - intros db lid Hu H. unfold GetLst_uint64.
    rewrite (Hacc lid Hu), (GetLst_absent _ _ H). now split.
  - intros db id H. rewrite (GetLstEntity_absent _ _ H). now split.
  - intros db uid p Hu H. unfold GetUserLink_uint64.
    rewrite (Hacc uid Hu), (GetUserLink_absent _ _ _ H). now split.
  - intros db uid dir absPath Hu H1 H2 H3 H4. unfold LocateUserEntity_uint64.
    rewrite (Hacc uid Hu), (LocateUserEntity_absent _ _ _ _ H1 H2 H3 H4).
    now split.
  - intros db lid dir absPath H1 H2 H3.
    rewrite (LocateLstEntity_absent _ _ _ _ H1 H2 H3). now split.
Qed.

(** An UPDATE, accepted or not, leaves the primary keys of the table as
    they were. *)
Lemma exec_update_user_entity_dir_name_ids (dir name : string)
    (i : NullInt32) (db : DB) :
  map UserEntity.id
    (user_entities (db_after (exec_update_user_entity_dir_name dir name i db)))
  = map UserEntity.id (user_entities db).
Proof.
  unfold exec_update_user_entity_dir_name, db_Exec, update_user_entities.
  destruct (NullInt32_Value i) as [k|]; [|reflexivity].
  destruct (user_entities_conflict (user_entities db) k dir);
    [reflexivity|].
  simpl. now apply map_id_update_where_id.
Qed.

Lemma update_then_ret_cases {A} (dir name : string) (i : NullInt32) (a : A)
    (db : DB) :
  exists db1 l1 res,
    (exec_update_user_entity_dir_name dir name i ;;; ret a) db
    = mkRun db1 l1 res
    /\ map UserEntity.id (user_entities db1)
       = map UserEntity.id (user_entities db)
    /\ (res = Ok a \/ exists e, res = Err e).
Proof.
  pose proof (exec_update_user_entity_dir_name_ids dir name i db) as H.
  unfold bind, ret.
  destruct (exec_update_user_entity_dir_name dir name i db)
    as [db1 l1 [u|e]]; simpl in H.
  - exists db1, (l1 ++ []), (Ok a). auto.
  - exists db1, l1, (Err e). eauto.
Qed.

Lemma exec_insert_user_entity_after {A} (entity : UserEntity.t)
    (k : Z -> A) (db : DB) :
  same_keys_or_appended db entity (UserEntity.ParentDir entity)
    ((lastId <- exec_insert_user_entity entity ;; ret (k lastId)) db).
Proof.
  unfold same_keys_or_appended, bind, ret, exec_insert_user_entity,
    db_Exec, insert_user_entity, appended.
  destruct (existsb _ (user_entities db)); [now left|].
  destruct (foreign_keys db && _); [now left|].
  now right.
Qed.

Lemma same_keys_or_appended_prefix {A} (db : DB) (entity : UserEntity.t)
    (dir : string) (o : run A) (l : list event) :
  same_keys_or_appended db entity dir o ->
  same_keys_or_appended db entity dir
    (match o with
     | mkRun db2 l2 r => mkRun db2 (l ++ l2) r
     end).
Proof. destruct o. exact (fun H => H). Qed.

(** The part of the account create path that follows the marker test on
    the target directory (lines 57-97). *)
Lemma CreateOrUpdateUserEntityWithPathChange_tail_after (db : DB)
    (entity : UserEntity.t) :
  same_keys_or_appended db entity (UserEntity.ParentDir entity)
    ((entities <- select_user_entities (UserEntity.Uid entity) ;;
      found <- CreateOrUpdateUserEntityWithPathChange_range Join Stat
                 entity entities ;;
      match found with
      | Some existingEntity => ret existingEntity
      | None =>
          lastId <- exec_insert_user_entity entity ;;
          ret (UserEntity.set_Id entity
                 (NullInt32_Scan (UserEntity.Id entity) lastId))
      end) db).
Proof.
  unfold bind at 1, select_user_entities, db_Select.
  fold (rows_of_user (UserEntity.Uid entity) db).
  apply same_keys_or_appended_prefix.
  unfold bind at 1.
  rewrite CreateOrUpdateUserEntityWithPathChange_range_find.
  destruct (find _ (rows_of_user (UserEntity.Uid entity) db)) as [r|].
  - left.
    destruct (update_then_ret_cases (UserEntity.ParentDir entity)
                (UserEntity.Name entity)
                (mkNullInt32 (UserEntity.id r) true)
                (Some (UserEntity.scan
                         (UserEntity.row_set_parent_dir_name r
                            (UserEntity.ParentDir entity)
                            (UserEntity.Name entity)))) db)
      as (db1 & l1 & res & E & Hids & [->|[e ->]]);
      rewrite E; exact Hids.
  - apply (same_keys_or_appended_prefix db entity _ _ []).
    apply exec_insert_user_entity_after.
Qed.

Lemma CreateOrUpdateUserEntityWithPathChange_after (db : DB)
    (entity : UserEntity.t) (rootPath absPath : string) :
  Abs (UserEntity.ParentDir entity) = Ok absPath ->
  same_keys_or_appended db entity absPath
    (CreateOrUpdateUserEntityWithPathChange Abs Join Stat entity rootPath db).
Proof.
  intros HAbs.
  unfold CreateOrUpdateUserEntityWithPathChange, bind at 1, lift.
  rewrite HAbs.
  set (entity' := UserEntity.set_ParentDir entity absPath).
  apply (same_keys_or_appended_prefix db entity _ _ []).
  pose proof (CreateOrUpdateUserEntityWithPathChange_tail_after db entity')
    as Htail.
  change (UserEntity.ParentDir entity') with absPath in Htail at 1.
  change (same_keys_or_appended db entity' absPath)
    with (@same_keys_or_appended UserEntity.t db entity absPath) in Htail.
  destruct (Stat (Join absPath ".user")).
  - unfold bind at 1. unfold bind at 1, select_user_entities at 1, db_Select.
    fold (rows_of_user (UserEntity.Uid entity') db).
    destruct (rows_of_user (UserEntity.Uid entity') db) as [|r rest].
    + cbn [map]. unfold ret at 1. cbv beta iota.
      apply same_keys_or_appended_prefix. exact Htail.
    + cbn [map]. cbv beta iota. left. cbn [UserEntity.Id UserEntity.scan].
      destruct (update_then_ret_cases (UserEntity.ParentDir entity')
                  (UserEntity.Name entity')
                  (mkNullInt32 (UserEntity.id r) true)
                  (Some (UserEntity.set_Name
                           (UserEntity.set_ParentDir (UserEntity.scan r)
                              (UserEntity.ParentDir entity'))
                           (UserEntity.Name entity'))) db)
        as (db1 & l1 & res & E & Hids & [->|[e ->]]);
        rewrite E; exact Hids.
  - unfold bind at 1, ret at 1. cbv beta iota.
    apply same_keys_or_appended_prefix. exact Htail.
Qed.

Lemma CreateUserEntity_after (db : DB) (entity : UserEntity.t)
    (abs : string) :
  Abs (UserEntity.ParentDir entity) = Ok abs ->
  same_keys_or_appended db entity abs (CreateUserEntity Abs entity db).
Proof.
  intros HAbs. unfold CreateUserEntity, bind at 1, lift. rewrite HAbs.
  apply (same_keys_or_appended_prefix db entity _ _ []).
  apply (exec_insert_user_entity_after
           (UserEntity.set_ParentDir entity abs)).
Qed.

Lemma inserted_row_appended {A} (db : DB) (entity : UserEntity.t)
    (dir : string) (out : run A) (r : UserEntity.row) :
  same_keys_or_appended db entity dir out ->
  inserted_row db (db_after out) r ->
  r = UserEntity.mkRow (next_rowid (map UserEntity.id (user_entities db)))
        (UserEntity.Uid entity) (UserEntity.Name entity) None dir None.
Proof.
  intros [Hk|Ha] [Hin Hnew].
  - exfalso.
    assert (In (UserEntity.id r) (map UserEntity.id (user_entities db)))
      as Hi by (rewrite <- Hk; now apply in_map).
    apply in_map_iff in Hi. destruct Hi as [x [Ex Hx]].
    now apply (Hnew x Hx).
  - rewrite Ha in Hin. unfold appended in Hin.
    apply in_app_or in Hin. destruct Hin as [Hin|[<-|[]]]; [|reflexivity].
    exfalso. now apply (Hnew r Hin).
Qed.

(** C10.  Creation persists identity, name and directory only: a row
    inserted by [CreateOrUpdateUserEntityWithPathChange] or by
    [CreateUserEntity] carries the candidate's user id and name and the
    canonical directory, and NULL in [latest_release_time] and
    [media_count], whatever the candidate carries there. *)
Theorem creation_stores_identity_name_directory (db : DB)
    (entity : UserEntity.t) (rootPath absPath : string)
    (r : UserEntity.row) :
  Abs (UserEntity.ParentDir entity) = Ok absPath ->
  inserted_row db
    (db_after (CreateOrUpdateUserEntityWithPathChange Abs Join Stat entity
                 rootPath db)) r
  \/ inserted_row db (db_after (CreateUserEntity Abs entity db)) r ->
  UserEntity.user_id r = UserEntity.Uid entity
  /\ UserEntity.name r = UserEntity.Name entity
  /\ UserEntity.parent_dir r = absPath
  /\ UserEntity.latest_release_time r = None
  /\ UserEntity.media_count r = None.
Proof.
  intros HAbs [H|H].
  - rewrite (inserted_row_appended db entity absPath _ r
               (CreateOrUpdateUserEntityWithPathChange_after db entity
                  rootPath absPath HAbs) H).
    repeat split.
  - rewrite (inserted_row_appended db entity absPath _ r
               (CreateUserEntity_after db entity absPath HAbs) H).
    repeat split.
Qed.

End Reconciliation.

(** ** Error propagation in the create paths *)

Lemma errors_returned_ret {A} (a : A) (db : DB) : errors_returned (ret a db).
Proof. intros ev e []. Qed.

Lemma errors_returned_lift {A} (r : result A) (db : DB) :
  errors_returned (lift r db).
Proof. intros ev e []. Qed.

Lemma errors_returned_Select {R A} (s : stmt) (table : DB -> list R)
    (sel : R -> bool) (scan : R -> A) (db : DB) :
  errors_returned (db_Select s table sel scan db).
Proof.
  intros ev e [<-|[]]. discriminate.
Qed.

Lemma errors_returned_Exec {R A} (s : stmt) (store : DB -> list R -> DB)
    (f : DB -> result (list R * A)) (db : DB) :
  errors_returned (db_Exec s store f db).
Proof.
  unfold db_Exec. destruct (f db) as [[t a]|e0]; intros ev e [<-|[]]; simpl.
  - discriminate.
  - now intros [= ->].
Qed.

(** [bind] keeps the property: an error of the first call ends the
    sequence, an error of the second is what the sequence returns. *)
Lemma errors_returned_bind {A B} (m : M A) (k : A -> M B) (db : DB) :
  errors_returned (m db) ->
  (forall a db1, errors_returned (k a db1)) ->
  errors_returned (bind m k db).
Proof.
  intros Hm Hk. unfold bind.
  destruct (m db) as [db1 l1 [a|e0]] eqn:Em.
  - specialize (Hk a db1).
    destruct (k a db1) as [db2 l2 r] eqn:Ek.
    intros ev e Hin He. simpl in *.
    apply in_app_or in Hin. destruct Hin as [Hin|Hin].
    + specialize (Hm ev e Hin He). discriminate.
    + exact (Hk ev e Hin He).
  - intros ev e Hin He. simpl in *.
    specialize (Hm ev e Hin He). now inversion Hm.
Qed.

Lemma errors_returned_user_range (Join : string -> string -> string)
    (Stat : string -> bool) (entity : UserEntity.t)
    (entities : list UserEntity.t) (db : DB) :
  errors_returned
    (CreateOrUpdateUserEntityWithPathChange_range Join Stat entity entities db).
Proof.
  induction entities as [|x rest IH]; simpl.
  - apply errors_returned_ret.
  - destruct (Stat (Join (UserEntity.ParentDir x) ".user")); [|exact IH].
    apply errors_returned_bind.
    + apply errors_returned_Exec.
    + intros. apply errors_returned_ret.
Qed.

Lemma errors_returned_lst_range (EqualFold : string -> string -> bool)
    (entity : LstEntity.t) (entities : list LstEntity.t) (db : DB) :
  errors_returned
    (CreateOrUpdateLstEntityWithPathChange_range EqualFold entity entities db).
Proof.
  induction entities as [|x rest IH]; simpl.
  - apply errors_returned_ret.
  - destruct (EqualFold (LstEntity.Name x) (LstEntity.Name entity));
      [|exact IH].
    apply errors_returned_bind.
    + apply errors_returned_Exec.
    + intros. apply errors_returned_ret.
Qed.

(** Both create paths hand every error of the store to their caller. *)
Lemma create_paths_return_store_errors (Abs : string -> result string)
    (Join : string -> string -> string) (Stat : string -> bool)
    (EqualFold : string -> string -> bool) :
  (forall entity rootPath db,
      errors_returned
        (CreateOrUpdateUserEntityWithPathChange Abs Join Stat entity rootPath
           db))
  /\ (forall entity db,
         errors_returned
           (CreateOrUpdateLstEntityWithPathChange Abs EqualFold entity db)).
Proof.
  split.
  - intros entity rootPath db.
    unfold CreateOrUpdateUserEntityWithPathChange.
    apply errors_returned_bind; [apply errors_returned_lift|].
    intros absPath db1.
    apply errors_returned_bind.
    + destruct (Stat (Join absPath ".user")); [|apply errors_returned_ret].
      apply errors_returned_bind; [apply errors_returned_Select|].
      intros [|x rest] db2; [apply errors_returned_ret|].
      apply errors_returned_bind; [apply errors_returned_Exec|].
      intros. apply errors_returned_ret.
    + intros [x|] db2; [apply errors_returned_ret|].
      apply errors_returned_bind; [apply errors_returned_Select|].
      intros entities db3.
      apply errors_returned_bind; [apply errors_returned_user_range|].
      intros [x|] db4; [apply errors_returned_ret|].
      apply errors_returned_bind; [apply errors_returned_Exec|].
      intros. apply errors_returned_ret.
  - intros entity db.
    unfold CreateOrUpdateLstEntityWithPathChange.
    apply errors_returned_bind; [apply errors_returned_lift|].
    intros absPath db1.
    apply errors_returned_bind; [apply errors_returned_Select|].
    intros entities db2.
    apply errors_returned_bind; [apply errors_returned_lst_range|].
    intros [x|] db3; [apply errors_returned_ret|].
    apply errors_returned_bind; [apply errors_returned_Exec|].
    intros. apply errors_returned_ret.
Qed.

(** ** The theorems on concrete stores *)

(** C1, counterexample: account 42 has rows at [/data/X] and [/data/X2], the
    marker is in [/data/X2]; the first row cannot be re-pointed at
    [/data/X2], which the second row holds, and stays at [/data/X]. *)
Lemma marker_relocation_counterexample :
  ~ marker_relocation_as_specified Abs_id Join_slash
      (Stat_in ["/data/X2/.user"]) store_X_X2 42 "/data/X2".
Proof.
  intros H.
  specialize (H "/data/X2"
                (UserEntity.mkRow 1 42 "alice" (Some 1700000000) "/data/X"
                   (Some 12))
                [UserEntity.mkRow 2 42 "alice" None "/data/X2" None]
                eq_refl eq_refl eq_refl).
  cbv zeta in H. destruct H as (_ & Hin & _).
  vm_compute in Hin. destruct Hin as [E|[E|[]]]; discriminate.
Qed.

(** C1, witness: the relocation of the specification's example. *)
Lemma marker_confirmed_relocation_witness :
  let out :=
    LocateUserEntity Abs_id Join_slash (Stat_in ["/data/X2/.user"]) 42
      "/data/X2" store_one in
  let r' := UserEntity.mkRow 1 42 "alice" (Some 1700000000) "/data/X2"
              (Some 12) in
  returned out = Ok (Some (UserEntity.scan r'))
  /\ In r' (user_entities (db_after out))
  /\ List.length (rows_of_user 42 (db_after out)) = 1%nat.
Proof.
  destruct (marker_confirmed_relocation Abs_id Join_slash
              (Stat_in ["/data/X2/.user"]) store_one 42 "/data/X2" "/data/X2"
              (UserEntity.mkRow 1 42 "alice" (Some 1700000000) "/data/X"
                 (Some 12))
              [] eq_refl eq_refl eq_refl eq_refl)
    as (H1 & _ & H3 & H4 & _).
  - intros x [<-|[]] N. now elim N.
  - cbv zeta. repeat split; assumption.
Defined.

(** C2, witness: the fallback scan of the specification's example. *)
Lemma fallback_marker_scan_witness :
  let out :=
    LocateUserEntity Abs_id Join_slash (Stat_in ["/old/.user"]) 7 "/new"
      store_old in
  let r' := UserEntity.mkRow 1 7 "bob" None "/new" None in
  returned out = Ok (Some (UserEntity.scan r'))
  /\ rows_of_user 7 (db_after out) = [r'].
Proof.
  destruct (fallback_marker_scan Abs_id Join_slash (Stat_in ["/old/.user"])
              store_old 7 "/new" "/new"
              (UserEntity.mkRow 1 7 "bob" None "/old" None)
              eq_refl eq_refl eq_refl)
    as (H1 & _ & _ & _ & H5).
  - intros x [<-|[]]. reflexivity.
  - reflexivity.
  - cbv zeta. split; [assumption|]. apply H5. reflexivity.
Defined.

(** C3, witness *)
Lemma idempotent_exact_match_witness :
  LocateUserEntity Abs_id Join_slash (Stat_in []) 42 "/data/X" store_one
  = mkRun store_one [mkEvent (SelectUserEntityAt 42 "/data/X") None]
      (Ok (Some (UserEntity.scan
                   (UserEntity.mkRow 1 42 "alice" (Some 1700000000) "/data/X"
                      (Some 12))))).
Proof.
  apply (idempotent_exact_match Abs_id Join_slash (Stat_in []) store_one 42
           "/data/X" "/data/X").
  - reflexivity.
  - reflexivity.
  - simpl. now left.
  - reflexivity.
  - intros d. reflexivity.
Defined.

(** C4, counterexample: the pair (42, [/data/X]) is stored and no marker is
    anywhere; the create path does not hand the stored row back. *)
Lemma create_exact_match_counterexample :
  ~ create_exact_match_as_specified Abs_id Join_slash (Stat_in []) store_one
      candidate_alice "".
Proof.
  intros H.
  specialize (H "/data/X"
                (UserEntity.mkRow 1 42 "alice" (Some 1700000000) "/data/X"
                   (Some 12))
                eq_refl (or_introl eq_refl) eq_refl eq_refl).
  destruct H as [H _].
  - intros x [<-|[]]. reflexivity.
  - vm_compute in H. discriminate.
Qed.

(** C4, witness *)
Lemma create_rejects_stored_pair_witness :
  CreateOrUpdateUserEntityWithPathChange Abs_id Join_slash (Stat_in [])
    candidate_alice "" store_one
  = mkRun store_one
      [mkEvent (SelectUserEntities 42) None;
       mkEvent (InsertUserEntity 42 "alice" "/data/X")
         (Some (ErrUnique user_entities_unique))]
      (Err (ErrUnique user_entities_unique)).
Proof.
  apply (create_rejects_stored_pair Abs_id Join_slash (Stat_in []) store_one
           candidate_alice "" "/data/X"
           (UserEntity.mkRow 1 42 "alice" (Some 1700000000) "/data/X"
              (Some 12))).
  - reflexivity.
  - simpl. now left.
  - reflexivity.
  - reflexivity.
  - intros x [<-|[]]. reflexivity.
Defined.

(** C5, witness: the specification's example, list 3 moved from [/a] to
    [/b]. *)
Lemma lst_locate_ignores_name_witness :
  let out := LocateLstEntity Abs_id (Stat_in ["/b"]) 3 "/b" store_lst in
  let r' := LstEntity.mkRow 1 3 "Friends" "/b" in
  returned out = Ok (Some (LstEntity.scan r'))
  /\ lst_entities (db_after out) = [r'].
Proof.
  destruct (lst_locate_ignores_name Abs_id (Stat_in ["/b"]) store_lst 3 "/b"
              "/b" (LstEntity.mkRow 1 3 "Friends" "/a") []
              eq_refl eq_refl)
    as (H1 & H2 & _).
  - intros x [<-|[]]. reflexivity.
  - reflexivity.
  - reflexivity.
  - cbv zeta. split; [assumption|]. rewrite H2. reflexivity.
Defined.

(** C6, counterexample: [/b] does not exist on disk, and the row of list 3
    named [Friends] is still taken for the candidate named [friends]. *)
Lemma lst_create_fallback_counterexample :
  ~ lst_create_fallback_as_specified Abs_id (Stat_in []) EqualFold_ascii
      store_lst candidate_friends.
Proof.
  intros H.
  specialize (H "/b" (LstEntity.mkRow 1 3 "Friends" "/a") eq_refl).
  cbv zeta in H.
  destruct H as [[H _] _].
  - intros x [<-|[]]. reflexivity.
  - simpl. now left.
  - reflexivity.
  - vm_compute in H. discriminate.
Qed.

(** C6, witness: the same call, on a disk without [/b]. *)
Lemma lst_create_matches_by_name_witness :
  let out :=
    CreateOrUpdateLstEntityWithPathChange Abs_id EqualFold_ascii
      candidate_friends store_lst in
  let r' := LstEntity.mkRow 1 3 "Friends" "/b" in
  returned out = Ok (LstEntity.scan r')
  /\ lst_entities (db_after out) = [r'].
Proof.
  pose proof (lst_create_matches_by_name Abs_id EqualFold_ascii store_lst
                candidate_friends "/b" eq_refl eq_refl) as H.
  cbv zeta in H. simpl find in H.
  destruct H as (H1 & _ & H3 & _).
  - intros x [<-|[]]. reflexivity.
  - cbv zeta. split; [assumption|]. rewrite H3. reflexivity.
Defined.

(** C7.  Store errors propagate to the caller: evaluated where it fails.
    Account 42 has rows at [/a] and [/b] and the marker is in [/b].
    [LocateUserEntity] sends the UPDATE of the first row, the store rejects
    it, and the call returns the row and no error, so an error of the store
    is not the error returned; on the same store the create path returns the
    store's error. *)
Theorem locate_discards_update_error :
  let fs := Stat_in ["/b/.user"] in
  let rejected := Some (ErrUnique user_entities_unique) in
  LocateUserEntity Abs_id Join_slash fs 42 "/b" store_two
  = mkRun store_two
      [mkEvent (SelectUserEntities 42) None;
       mkEvent (UpdateUserEntityDir "/b" (Some 1)) rejected]
      (Ok (Some (UserEntity.mk (mkNullInt32 1 true) 42 "alice"
                   (Some 1700000000) "/b" (Some 12))))
  /\ CreateOrUpdateUserEntityWithPathChange Abs_id Join_slash fs
       candidate_alice_b "" store_two
     = mkRun store_two
         [mkEvent (SelectUserEntities 42) None;
          mkEvent (UpdateUserEntityDirName "/b" "alice" (Some 1)) rejected]
         (Err (ErrUnique user_entities_unique))
  /\ ~ errors_returned
        (LocateUserEntity Abs_id Join_slash fs 42 "/b" store_two).
Proof.
  split; [reflexivity|]. split; [reflexivity|].
  intros H.
  specialize (H (mkEvent (UpdateUserEntityDir "/b" (Some 1))
                   (Some (ErrUnique user_entities_unique)))
                (ErrUnique user_entities_unique)
                (or_intror (or_introl eq_refl)) eq_refl).
  discriminate H.
Qed.

(** C8, counterexample: no user is stored, the id is 2^63, and
    [GetUserById] returns the driver's error, not absence. *)
Lemma absence_counterexample : ~ absence_as_specified empty_store (2 ^ 63).
Proof.
  intros H. assert (Hno : forall u, In u (users empty_store) ->
                                    User.Id u <> 2 ^ 63) by (intros u []).
  specialize (H Hno). discriminate H.
Qed.

(** C8, witness *)
Lemma absence_is_not_failure_witness :
  returned (GetUserById_uint64 5 store_one) = Ok None
  /\ returned (GetUserEntity 9 store_one) = Ok None
  /\ returned (GetLst_uint64 3 store_one) = Ok None
  /\ returned (GetLstEntity 2 store_lst) = Ok None
  /\ returned (GetUserLink_uint64 42 1 store_one) = Ok None
  /\ returned (LocateUserEntity_uint64 Abs_id Join_slash (Stat_in []) 9
                 "/fresh" store_one) = Ok None
  /\ returned (LocateLstEntity Abs_id (Stat_in []) 3 "/b" store_lst) = Ok None.
Proof.
  destruct (absence_is_not_failure Abs_id Join_slash (Stat_in []))
    as (H1 & H2 & H3 & H4 & H5 & H6 & H7).
  split; [|split; [|split; [|split; [|split; [|split]]]]].
  - refine (proj1 (H1 store_one 5 eq_refl _)). intros u [].
  - refine (proj1 (H2 store_one 9 _)). intros r [<-|[]]. discriminate.
  - refine (proj1 (H3 store_one 3 eq_refl _)). intros l [].
  - refine (proj1 (H4 store_lst 2 _)). intros r [<-|[]]. discriminate.
  - refine (proj1 (H5 store_one 42 1 eq_refl _)). intros r [].
  - refine (proj1 (H6 store_one 9 "/fresh" "/fresh" eq_refl eq_refl _ _ _)).
    + intros r [<-|[]]. reflexivity.
    + now left.
    + intros r [].
  - refine (proj1 (H7 store_lst 3 "/b" "/b" eq_refl _ _)).
    + intros r [<-|[]]. reflexivity.
    + now left.
Defined.

(** C9, counterexample: account 42 has rows at [/a] and [/b], the marker is
    in [/b]; the first row is not re-pointed at [/b]. *)
Lemma fast_path_bypass_counterexample :
  ~ fast_path_bypass_as_specified Abs_id Join_slash (Stat_in ["/b/.user"])
      store_two 42 "/b".
Proof.
  intros H.
  specialize (H "/b"
                (UserEntity.mkRow 1 42 "alice" (Some 1700000000) "/a" (Some 12))
                (UserEntity.mkRow 2 42 "alice" None "/b" None) []
                eq_refl eq_refl eq_refl).
  cbv zeta in H. destruct H as (_ & Hin & _).
  vm_compute in Hin. destruct Hin as [E|[E|[]]]; discriminate.
Qed.

(** C9, witness: on that store the exact-match query is not sent, and the
    UPDATE is aimed at the first row. *)
Lemma marker_fast_path_skips_exact_match_witness :
  map sent
    (issued (LocateUserEntity Abs_id Join_slash (Stat_in ["/b/.user"]) 42 "/b"
               store_two))
  = [SelectUserEntities 42; UpdateUserEntityDir "/b" (Some 1)].
Proof.
  exact (proj1 (marker_fast_path_skips_exact_match Abs_id Join_slash
                  (Stat_in ["/b/.user"]) store_two 42 "/b" "/b"
                  (UserEntity.mkRow 1 42 "alice" (Some 1700000000) "/a"
                     (Some 12))
                  [UserEntity.mkRow 2 42 "alice" None "/b" None]
                  eq_refl eq_refl eq_refl)).
Defined.

(** C10, witness: the candidate carries a release time and a media count,
    the inserted row has neither. *)
Lemma creation_stores_identity_name_directory_witness :
  let r := UserEntity.mkRow 2 9 "carol" None "/fresh" None in
  inserted_row store_one
    (db_after (CreateOrUpdateUserEntityWithPathChange Abs_id Join_slash
                 (Stat_in []) candidate_carol "" store_one)) r
  /\ UserEntity.latest_release_time r = None
  /\ UserEntity.media_count r = None.
Proof.
  cbv zeta.
  assert (Hins : inserted_row store_one
            (db_after (CreateOrUpdateUserEntityWithPathChange Abs_id Join_slash
                         (Stat_in []) candidate_carol "" store_one))
            (UserEntity.mkRow 2 9 "carol" None "/fresh" None)).
  { split.
    - vm_compute. auto.
    - intros x [<-|[]]. discriminate. }
  split; [exact Hins|].
  destruct (creation_stores_identity_name_directory Abs_id Join_slash
              (Stat_in []) store_one candidate_carol "" "/fresh"
              (UserEntity.mkRow 2 9 "carol" None "/fresh" None)
              eq_refl (or_introl Hins))
    as (_ & _ & _ & H4 & H5).
  split; assumption.
Defined.

(** ** What the calls keep *)

Lemma keeps_ret {A} (P : DB -> Prop) (a : A) : keeps P (ret a).
Proof. intros db H. exact H. Qed.

Lemma keeps_fail {A} (P : DB -> Prop) (e : error) : keeps P (@fail A e).
Proof. intros db H. exact H. Qed.

Lemma keeps_lift {A} (P : DB -> Prop) (r : result A) : keeps P (lift r).
Proof. intros db H. exact H. Qed.

Lemma keeps_bind {A B} (P : DB -> Prop) (m : M A) (k : A -> M B) :
  keeps P m -> (forall a, keeps P (k a)) -> keeps P (bind m k).
Proof.
  intros Hm Hk db H. unfold bind.
  specialize (Hm db H).
  destruct (m db) as [db1 l1 [a|e]]; simpl in Hm; [|exact Hm].
  specialize (Hk a db1 Hm).
  destruct (k a db1) as [db2 l2 r]. exact Hk.
Qed.

Lemma keeps_try {A} (P : DB -> Prop) (m : M A) : keeps P m -> keeps P (try m).
Proof.
  intros Hm db H. unfold try. specialize (Hm db H).
  destruct (m db). exact Hm.
Qed.

Lemma keeps_discard {A} (P : DB -> Prop) (m : M A) :
  keeps P m -> keeps P (discard m).
Proof.
  intros Hm db H. unfold discard. specialize (Hm db H).
  destruct (m db). exact Hm.
Qed.

Lemma keeps_Select {R A} (P : DB -> Prop) (s : stmt) (table : DB -> list R)
    (sel : R -> bool) (scan : R -> A) :
  keeps P (db_Select s table sel scan).
Proof. intros db H. exact H. Qed.

Lemma keeps_Get {R A} (P : DB -> Prop) (s : stmt) (table : DB -> list R)
    (sel : R -> bool) (scan : R -> A) :
  keeps P (db_Get s table sel scan).
Proof.
  intros db H. unfold db_Get. destruct (find sel (table db)); exact H.
Qed.

Lemma keeps_Exec {R A} (P : DB -> Prop) (s : stmt)
    (store : DB -> list R -> DB) (f : DB -> result (list R * A)) :
  (forall db t a, P db -> f db = Ok (t, a) -> P (store db t)) ->
  keeps P (db_Exec s store f).
Proof.
  intros Hf db H. unfold db_Exec.
  destruct (f db) as [[t a]|e] eqn:E; simpl; [|exact H].
  exact (Hf db t a H E).
Qed.

(** The shape shared by the two locate functions and the two create
    functions, read as "every statement they send keeps [P]". *)
Lemma keeps_LocateUserEntity (Abs : string -> result string)
    (Join : string -> string -> string) (Stat : string -> bool)
    (P : DB -> Prop) (uid : Z) (parentDIr : string) :
  (forall dir id, keeps P (exec_update_user_entity_dir dir id)) ->
  keeps P (LocateUserEntity Abs Join Stat uid parentDIr).
Proof.
  intros Hupd. unfold LocateUserEntity.
  apply keeps_bind; [apply keeps_lift|]. intros absPath.
  apply keeps_bind.
  - destruct (Stat (Join absPath ".user")); [|apply keeps_ret].
    apply keeps_bind; [apply keeps_Select|].
    intros [|x rest]; [apply keeps_ret|].
    apply keeps_bind; [apply keeps_discard, Hupd|].
    intros. apply keeps_ret.
  - intros [x|]; [apply keeps_ret|].
    apply keeps_bind; [apply keeps_try, keeps_Get|].
    intros [x|[| | | |]]; try apply keeps_fail; [apply keeps_ret|].
    apply keeps_bind; [apply keeps_Select|].
    intros entities. induction entities as [|x rest IH]; simpl.
    + apply keeps_ret.
    + destruct (Stat (Join (UserEntity.ParentDir x) ".user")); [|exact IH].
      apply keeps_bind; [apply keeps_discard, Hupd|].
      intros. apply keeps_ret.
Qed.

Lemma keeps_LocateLstEntity (Abs : string -> result string)
    (Stat : string -> bool) (P : DB -> Prop) (lid : Z) (parentDir : string) :
  (forall dir id, keeps P (exec_update_lst_entity_dir dir id)) ->
  keeps P (LocateLstEntity Abs Stat lid parentDir).
Proof.
  intros Hupd. unfold LocateLstEntity.
  apply keeps_bind; [apply keeps_lift|]. intros absPath.
  apply keeps_bind; [apply keeps_try, keeps_Get|].
  intros [x|[| | | |]]; try apply keeps_fail; [apply keeps_ret|].
  apply keeps_bind; [apply keeps_Select|].
  intros entities. induction entities as [|x rest IH]; simpl.
  - apply keeps_ret.
  - destruct (Stat absPath); [|exact IH].
    apply keeps_bind; [apply keeps_discard, Hupd|].
    intros. apply keeps_ret.
Qed.

Lemma keeps_CreateOrUpdateUserEntityWithPathChange
    (Abs : string -> result string) (Join : string -> string -> string)
    (Stat : string -> bool) (P : DB -> Prop) (entity : UserEntity.t)
    (rootPath : string) :
  (forall dir name id, keeps P (exec_update_user_entity_dir_name dir name id)) ->
  (forall e, keeps P (exec_insert_user_entity e)) ->
  keeps P (CreateOrUpdateUserEntityWithPathChange Abs Join Stat entity rootPath).
Proof.
  intros Hupd Hins. unfold CreateOrUpdateUserEntityWithPathChange.
  apply keeps_bind; [apply keeps_lift|]. intros absPath.
  apply keeps_bind.
  - destruct (Stat (Join absPath ".user")); [|apply keeps_ret].
    apply keeps_bind; [apply keeps_Select|].
    intros [|x rest]; [apply keeps_ret|].
    apply keeps_bind; [apply Hupd|].
    intros. apply keeps_ret.
  - intros [x|]; [apply keeps_ret|].
    apply keeps_bind; [apply keeps_Select|].
    intros entities. apply keeps_bind.
    + induction entities as [|x rest IH]; simpl.
      * apply keeps_ret.
      * destruct (Stat (Join (UserEntity.ParentDir x) ".user")); [|exact IH].
        apply keeps_bind; [apply Hupd|].
        intros. apply keeps_ret.
    + intros [x|]; [apply keeps_ret|].
      apply keeps_bind; [apply Hins|].
      intros. apply keeps_ret.
Qed.

Lemma keeps_CreateOrUpdateLstEntityWithPathChange
    (Abs : string -> result string) (EqualFold : string -> string -> bool)
    (P : DB -> Prop) (entity : LstEntity.t) :
  (forall dir id, keeps P (exec_update_lst_entity_dir dir id)) ->
  (forall e, keeps P (exec_insert_lst_entity e)) ->
  keeps P (CreateOrUpdateLstEntityWithPathChange Abs EqualFold entity).
Proof.
  intros Hupd Hins. unfold CreateOrUpdateLstEntityWithPathChange.
  apply keeps_bind; [apply keeps_lift|]. intros absPath.
  apply keeps_bind; [apply keeps_Select|].
  intros entities. apply keeps_bind.
  - induction entities as [|x rest IH]; simpl.
    + apply keeps_ret.
    + destruct (EqualFold (LstEntity.Name x) _); [|exact IH].
      apply keeps_bind; [apply Hupd|].
      intros. apply keeps_ret.
  - intros [x|]; [apply keeps_ret|].
    apply keeps_bind; [apply Hins|].
    intros. apply keeps_ret.
Qed.

(** *** Relocation touches directories only *)

Lemma same_but_dirs_refl (db : DB) : same_but_dirs db db.
Proof. repeat split. Qed.

Lemma map_but_dir_update (dir : string) (i : Z) (t : list UserEntity.row) :
  map but_dir
    (update_where_id UserEntity.id
       (fun r => UserEntity.row_set_parent_dir r dir) i t)
  = map but_dir t.
Proof.
  unfold update_where_id. rewrite map_map. apply map_ext.
  intros a. destruct (UserEntity.id a =? i); reflexivity.
Qed.

Lemma map_lst_but_dir_update (dir : string) (i : Z) (t : list LstEntity.row) :
  map lst_but_dir
    (update_where_id LstEntity.id
       (fun r => LstEntity.row_set_parent_dir r dir) i t)
  = map lst_but_dir t.
Proof.
  unfold update_where_id. rewrite map_map. apply map_ext.
  intros a. destruct (LstEntity.id a =? i); reflexivity.
Qed.

Lemma keeps_same_but_dirs_user_update (db0 : DB) (dir : string)
    (id : NullInt32) :
  keeps (same_but_dirs db0) (exec_update_user_entity_dir dir id).
Proof.
  apply keeps_Exec. intros db t a H E.
  unfold update_user_entities in E.
  destruct (NullInt32_Value id) as [i|].
  - destruct (user_entities_conflict (user_entities db) i dir);
      [discriminate|].
    injection E as <- _.
    destruct H as (H1 & H2 & H3 & H4 & H5 & H6).
    repeat split; simpl; try assumption.
    now rewrite map_but_dir_update.
  - injection E as <- _. destruct db; exact H.
Qed.

Lemma keeps_same_but_dirs_lst_update (db0 : DB) (dir : string)
    (id : NullInt32) :
  keeps (same_but_dirs db0) (exec_update_lst_entity_dir dir id).
Proof.
  apply keeps_Exec. intros db t a H E.
  unfold update_lst_entities in E.
  destruct (NullInt32_Value id) as [i|].
  - destruct (lst_entities_conflict (lst_entities db) i dir);
      [discriminate|].
    injection E as <- _.
    destruct H as (H1 & H2 & H3 & H4 & H5 & H6).
    repeat split; simpl; try assumption.
    now rewrite map_lst_but_dir_update.
  - injection E as <- _. destruct db; exact H.
Qed.

(** X1.  The locate functions never insert, delete or re-own a row: whatever
    the arguments, the file system and the store, after [LocateUserEntity]
    and after [LocateLstEntity] every table has the rows it had, in the same
    order, and the only column that can differ is [parent_dir] of the two
    entity tables. *)
Theorem locate_touches_directories_only (Abs : string -> result string)
    (Join : string -> string -> string) (Stat : string -> bool) (db : DB)
    (id : Z) (dir : string) :
  same_but_dirs db (db_after (LocateUserEntity Abs Join Stat id dir db))
  /\ same_but_dirs db (db_after (LocateLstEntity Abs Stat id dir db)).
Proof.
  split.
  - apply (keeps_LocateUserEntity Abs Join Stat (same_but_dirs db)).
    + intros. apply keeps_same_but_dirs_user_update.
    + apply same_but_dirs_refl.
  - apply (keeps_LocateLstEntity Abs Stat (same_but_dirs db)).
    + intros. apply keeps_same_but_dirs_lst_update.
    + apply same_but_dirs_refl.
Qed.

(** *** The schema of [user_entities] survives every call *)

Lemma user_entities_uniq_iff (t : list UserEntity.row) :
  user_entities_uniq t = true <-> ForallOrdPairs apart t.
Proof.
  induction t as [|r t IH]; simpl.
  - split; [constructor|reflexivity].
  - rewrite andb_true_iff, negb_true_iff, IH. split.
    + intros [Hn Hp]. constructor; [|exact Hp].
      apply Forall_forall. intros b Hb. unfold apart.
      apply not_true_is_false. intros Hc.
      assert (existsb (user_entity_at (UserEntity.user_id r)
                         (UserEntity.parent_dir r)) t = true) as Hx
        by (apply existsb_exists; eauto).
      congruence.
    + intros H. inversion H as [|a l Hf Hp]; subst. split; [|exact Hp].
      apply not_true_is_false. intros Hc.
      apply existsb_exists in Hc. destruct Hc as [b [Hb Hc]].
      rewrite Forall_forall in Hf. specialize (Hf b Hb). unfold apart in Hf.
      congruence.
Qed.

(** Two rows collide on the index whichever of them is asked for the
    other. *)
Lemma user_entity_at_sym (a b : UserEntity.row) (d : string) :
  user_entity_at (UserEntity.user_id a) d b
  = (UserEntity.user_id a =? UserEntity.user_id b)
    && nocase_eqb d (UserEntity.parent_dir b).
Proof.
  unfold user_entity_at. rewrite Z.eqb_sym. f_equal. apply nocase_eqb_sym.
Qed.

Lemma distinct_cons_inv (x : Z) (l : list Z) :
  distinct (x :: l) = true -> ~ In x l /\ distinct l = true.
Proof.
  simpl. rewrite andb_true_iff, negb_true_iff. intros [Hn Hd].
  split; [|exact Hd]. intros Hin.
  assert (existsb (Z.eqb x) l = true) as Hc.
  { apply existsb_exists. exists x. split; [assumption|apply Z.eqb_refl]. }
  congruence.
Qed.

Lemma distinct_app_fresh (l : list Z) (x : Z) :
  distinct l = true -> ~ In x l -> distinct (l ++ [x]) = true.
Proof.
  induction l as [|a l IH]; simpl; intros Hd Hx; [reflexivity|].
  apply andb_true_iff in Hd. destruct Hd as [Hn Hd].
  apply andb_true_iff. split.
  - apply negb_true_iff. apply negb_true_iff in Hn.
    rewrite existsb_app, Hn. simpl.
    rewrite orb_false_r. apply Z.eqb_neq. intros ->. apply Hx. now left.
  - apply IH; [assumption|]. intros Hin. apply Hx. now right.
Qed.

(** A primary key handed out by the store is above every key in use. *)
Lemma next_rowid_above (ids : list Z) (x : Z) :
  In x ids -> x < next_rowid ids.
Proof.
  destruct ids as [|i rest]; [intros []|].
  unfold next_rowid.
  assert (Hmax : forall y, In y (i :: rest) -> y <= fold_right Z.max i rest).
  { induction rest as [|a rest IH]; cbn [fold_right In].
    - intros y [->|[]]. lia.
    - intros y [->|[->|Hy]].
      + specialize (IH y (or_introl eq_refl)). lia.
      + lia.
      + specialize (IH y (or_intror Hy)). lia. }
  intros Hin. specialize (Hmax x Hin). lia.
Qed.

Lemma next_rowid_fresh (ids : list Z) : ~ In (next_rowid ids) ids.
Proof.
  intros Hin. apply next_rowid_above in Hin. now apply Z.lt_irrefl in Hin.
Qed.

Lemma conflict_false_apart (t : list UserEntity.row) (i : Z) (d : string)
    (a b : UserEntity.row) :
  user_entities_conflict t i d = false ->
  In a t -> In b t -> UserEntity.id a = i -> UserEntity.id b <> i ->
  user_entity_at (UserEntity.user_id a) d b = false.
Proof.
  intros Hc Ha Hb Ea Nb. apply not_true_is_false. intros Hat.
  assert (user_entities_conflict t i d = true) as Hx; [|congruence].
  unfold user_entities_conflict. apply existsb_exists. exists a.
  split; [assumption|]. apply andb_true_iff. split; [now apply Z.eqb_eq|].
  apply existsb_exists. exists b. split; [assumption|].
  apply andb_true_iff. split; [|assumption].
  apply negb_true_iff. now apply Z.eqb_neq.
Qed.

(** A rewrite of the directory that the UNIQUE index lets through leaves the
    rows pairwise apart. *)
Lemma apart_update (f : UserEntity.row -> UserEntity.row) (d : string)
    (i : Z) (t : list UserEntity.row) :
  (forall r, UserEntity.user_id (f r) = UserEntity.user_id r) ->
  (forall r, UserEntity.parent_dir (f r) = d) ->
  distinct (map UserEntity.id t) = true ->
  ForallOrdPairs apart t ->
  user_entities_conflict t i d = false ->
  ForallOrdPairs apart (update_where_id UserEntity.id f i t).
Proof.
  intros Hu Hd Hpk Hap Hc.
  assert (H3 : forall a b, In a t -> In b t ->
             UserEntity.id a = i -> UserEntity.id b <> i ->
             user_entity_at (UserEntity.user_id a) d b = false)
    by (intros; eapply conflict_false_apart; eauto).
  clear Hc. unfold update_where_id.
  induction t as [|a t IH]; simpl; [constructor|].
  inversion Hap as [|a' l Hf Hp]; subst.
  simpl in Hpk. apply distinct_cons_inv in Hpk. destruct Hpk as [Hna Hpk].
  constructor.
  - apply Forall_forall. intros y Hy.
    apply in_map_iff in Hy. destruct Hy as [b [<- Hb]].
    rewrite Forall_forall in Hf. specialize (Hf b Hb). unfold apart in *.
    assert (Nab : UserEntity.id a <> UserEntity.id b).
    { intros E. apply Hna. rewrite E. now apply in_map. }
    destruct (UserEntity.id a =? i) eqn:Ea, (UserEntity.id b =? i) eqn:Eb.
    + apply Z.eqb_eq in Ea, Eb. congruence.
    + apply Z.eqb_eq in Ea. apply Z.eqb_neq in Eb.
      rewrite Hu, Hd. apply H3; simpl; auto.
    + apply Z.eqb_neq in Ea. apply Z.eqb_eq in Eb.
      unfold user_entity_at. rewrite Hu, Hd.
      pose proof (H3 b a (or_intror Hb) (or_introl eq_refl) Eb Ea) as H.
      rewrite user_entity_at_sym in H. exact H.
    + exact Hf.
  - apply IH; auto.
    intros x y Hx Hy. apply H3; now right.
Qed.

Lemma apart_append (t : list UserEntity.row) (r : UserEntity.row) :
  ForallOrdPairs apart t ->
  existsb (user_entity_at (UserEntity.user_id r) (UserEntity.parent_dir r)) t
  = false ->
  ForallOrdPairs apart (t ++ [r]).
Proof.
  intros Hap Hn.
  induction t as [|a t IH]; simpl.
  - constructor; constructor.
  - inversion Hap as [|a' l Hf Hp]; subst.
    simpl in Hn. apply orb_false_iff in Hn. destruct Hn as [Ha Hn].
    constructor; [|now apply IH].
    apply Forall_app. split; [assumption|].
    constructor; [|constructor]. unfold apart.
    rewrite user_entity_at_sym in Ha. exact Ha.
Qed.

Lemma keeps_ok_update (f : UserEntity.row -> UserEntity.row) (d : string)
    (s : stmt) (id : option Z) :
  (forall r, UserEntity.id (f r) = UserEntity.id r) ->
  (forall r, UserEntity.user_id (f r) = UserEntity.user_id r) ->
  (forall r, UserEntity.parent_dir (f r) = d) ->
  keeps user_entities_ok
    (db_Exec s with_user_entities (update_user_entities f d id)).
Proof.
  intros Hi Hu Hd. apply keeps_Exec. intros db t a [Hpk Huq] E.
  unfold update_user_entities in E. destruct id as [i|].
  - destruct (user_entities_conflict (user_entities db) i d) eqn:Hc;
      [discriminate|].
    injection E as <- _. split.
    + unfold user_entities_pk in *. simpl.
      now rewrite map_id_update_where_id.
    + simpl. apply user_entities_uniq_iff. apply (apart_update f d); auto.
      now apply user_entities_uniq_iff.
  - injection E as <- _. split; assumption.
Qed.

Lemma keeps_ok_insert (entity : UserEntity.t) :
  keeps user_entities_ok (exec_insert_user_entity entity).
Proof.
  apply keeps_Exec. intros db t a [Hpk Huq] E.
  unfold insert_user_entity in E.
  destruct (existsb _ (user_entities db)) eqn:Hn; [discriminate|].
  destruct (foreign_keys db && _); [discriminate|].
  injection E as <- _. split.
  - unfold user_entities_pk in *. simpl. rewrite map_app. simpl.
    apply distinct_app_fresh; [assumption|apply next_rowid_fresh].
  - simpl. apply user_entities_uniq_iff. apply apart_append.
    + now apply user_entities_uniq_iff.
    + exact Hn.
Qed.

(** X2.  A store whose [user_entities] table satisfies PRIMARY KEY (id) and
    UNIQUE (user_id, parent_dir) still satisfies both after
    [LocateUserEntity], [CreateOrUpdateUserEntityWithPathChange] and
    [CreateUserEntity], whatever they were called with and whether they
    succeeded or not. *)
Theorem user_entities_schema_kept (Abs : string -> result string)
    (Join : string -> string -> string) (Stat : string -> bool) (db : DB)
    (uid : Z) (dir rootPath : string) (entity : UserEntity.t) :
  user_entities_ok db ->
  user_entities_ok (db_after (LocateUserEntity Abs Join Stat uid dir db))
  /\ user_entities_ok
       (db_after (CreateOrUpdateUserEntityWithPathChange Abs Join Stat entity
                    rootPath db))
  /\ user_entities_ok (db_after (CreateUserEntity Abs entity db)).
Proof.
  intros Hok. split; [|split].
  - apply keeps_LocateUserEntity; [|exact Hok].
    intros d id. apply keeps_ok_update; reflexivity.
  - apply keeps_CreateOrUpdateUserEntityWithPathChange; [| |exact Hok].
    + intros d name id. apply keeps_ok_update; reflexivity.
    + apply keeps_ok_insert.
  - revert Hok. apply (keeps_bind user_entities_ok); [apply keeps_lift|].
    intros abs. apply keeps_bind; [apply keeps_ok_insert|].
    intros. apply keeps_ret.
Qed.

(** ** The account create path, case by case *)

Lemma exec_update_user_entity_dir_name_accepted (db : DB) (dir name : string)
    (i : Z) :
  user_entities_conflict (user_entities db) i dir = false ->
  exec_update_user_entity_dir_name dir name (mkNullInt32 i true) db
  = mkRun
      (with_user_entities db
         (update_where_id UserEntity.id
            (fun r => UserEntity.row_set_parent_dir_name r dir name) i
            (user_entities db)))
      [mkEvent (UpdateUserEntityDirName dir name (Some i)) None] (Ok tt).
Proof.
  intros Hc. unfold exec_update_user_entity_dir_name, db_Exec. simpl.
  rewrite Hc. reflexivity.
Qed.

Lemma exec_update_user_entity_dir_name_rejected (db : DB) (dir name : string)
    (i : Z) :
  user_entities_conflict (user_entities db) i dir = true ->
  exec_update_user_entity_dir_name dir name (mkNullInt32 i true) db
  = mkRun db
      [mkEvent (UpdateUserEntityDirName dir name (Some i))
         (Some (ErrUnique user_entities_unique))]
      (Err (ErrUnique user_entities_unique)).
Proof.
  intros Hc. unfold exec_update_user_entity_dir_name, db_Exec. simpl.
  rewrite Hc. reflexivity.
Qed.

(** The account create path comes down to one write: the UPDATE of the row
    it takes for the candidate, or the INSERT when it takes none. *)
Lemma CreateOrUpdateUserEntityWithPathChange_run
    (Abs : string -> result string) (Join : string -> string -> string)
    (Stat : string -> bool) (db : DB) (entity : UserEntity.t)
    (rootPath absPath : string) :
  Abs (UserEntity.ParentDir entity) = Ok absPath ->
  let entity' := UserEntity.set_ParentDir entity absPath in
  let sel := mkEvent (SelectUserEntities (UserEntity.Uid entity)) None in
  CreateOrUpdateUserEntityWithPathChange Abs Join Stat entity rootPath db
  = match create_path_choice Join Stat absPath
            (rows_of_user (UserEntity.Uid entity) db)
    with
    | Some r =>
        match exec_update_user_entity_dir_name absPath
                (UserEntity.Name entity) (mkNullInt32 (UserEntity.id r) true)
                db
        with
        | mkRun db1 l1 (Ok _) =>
            mkRun db1 (sel :: l1)
              (Ok (UserEntity.scan
                     (UserEntity.row_set_parent_dir_name r absPath
                        (UserEntity.Name entity))))
        | mkRun db1 l1 (Err e) => mkRun db1 (sel :: l1) (Err e)
        end
    | None =>
        let pre := if has_marker Join Stat absPath then [sel] else [] in
        match exec_insert_user_entity entity' db with
        | mkRun db1 l1 (Ok lastId) =>
            mkRun db1 (pre ++ sel :: l1)
              (Ok (UserEntity.set_Id entity'
                     (NullInt32_Scan (UserEntity.Id entity) lastId)))
        | mkRun db1 l1 (Err e) => mkRun db1 (pre ++ sel :: l1) (Err e)
        end
    end.
Proof.
  intros HAbs entity' sel.
  unfold CreateOrUpdateUserEntityWithPathChange, bind at 1, lift.
  rewrite HAbs. fold entity'.
  assert (Htail :
    (entities <- select_user_entities (UserEntity.Uid entity') ;;
     found <- CreateOrUpdateUserEntityWithPathChange_range Join Stat entity'
                entities ;;
     match found with
     | Some existingEntity => ret existingEntity
     | None =>
         lastId <- exec_insert_user_entity entity' ;;
         ret (UserEntity.set_Id entity'
                (NullInt32_Scan (UserEntity.Id entity') lastId))
     end) db
    = match find (fun r => has_marker Join Stat (UserEntity.parent_dir r))
              (rows_of_user (UserEntity.Uid entity) db)
      with
      | Some r =>
          match exec_update_user_entity_dir_name absPath
                  (UserEntity.Name entity)
                  (mkNullInt32 (UserEntity.id r) true) db
          with
          | mkRun db1 l1 (Ok _) =>
              mkRun db1 (sel :: l1)
                (Ok (UserEntity.scan
                       (UserEntity.row_set_parent_dir_name r absPath
                          (UserEntity.Name entity))))
          | mkRun db1 l1 (Err e) => mkRun db1 (sel :: l1) (Err e)
          end
      | None =>
          match exec_insert_user_entity entity' db with
          | mkRun db1 l1 (Ok lastId) =>
              mkRun db1 (sel :: l1)
                (Ok (UserEntity.set_Id entity'
                       (NullInt32_Scan (UserEntity.Id entity) lastId)))
          | mkRun db1 l1 (Err e) => mkRun db1 (sel :: l1) (Err e)
          end
      end).
  { unfold bind at 1, select_user_entities, db_Select.
    fold (rows_of_user (UserEntity.Uid entity') db).
    unfold bind at 1.
    rewrite CreateOrUpdateUserEntityWithPathChange_range_find.
    change (UserEntity.Uid entity') with (UserEntity.Uid entity).
    destruct (find _ (rows_of_user (UserEntity.Uid entity) db)) as [r|].
    - unfold bind, ret. cbn [UserEntity.ParentDir UserEntity.Name entity'
                             UserEntity.set_ParentDir].
      destruct (exec_update_user_entity_dir_name absPath
                  (UserEntity.Name entity)
                  {| Int32 := UserEntity.id r; Valid := true |} db)
        as [db1 l1 [u|e]]; simpl; rewrite ?app_nil_r; reflexivity.
    - unfold bind, ret.
      destruct (exec_insert_user_entity entity' db) as [db1 l1 [i|e]];
        simpl; rewrite ?app_nil_r; reflexivity. }
  unfold create_path_choice, has_marker.
  destruct (Stat (Join absPath ".user")).
  - unfold bind at 1. unfold bind at 1, select_user_entities at 1, db_Select.
    fold (rows_of_user (UserEntity.Uid entity') db).
    change (rows_of_user (UserEntity.Uid entity') db)
      with (rows_of_user (UserEntity.Uid entity) db).
    destruct (rows_of_user (UserEntity.Uid entity) db) as [|r rest] eqn:Hrows.
    + cbn [map hd_error]. unfold ret at 1. cbv beta iota.
      rewrite Htail. rewrite ?Hrows. cbn [find].
      destruct (exec_insert_user_entity entity' db) as [db1 l1 [i|e]];
        reflexivity.
    + cbn [map hd_error]. cbv beta iota.
      unfold bind, ret. cbn [UserEntity.ParentDir UserEntity.Name entity'
                              UserEntity.set_ParentDir UserEntity.Id
                              UserEntity.scan].
      destruct (exec_update_user_entity_dir_name absPath
                  (UserEntity.Name entity)
                  {| Int32 := UserEntity.id r; Valid := true |} db)
        as [db1 l1 [u|e]]; simpl; rewrite ?app_nil_r; reflexivity.
  - unfold bind at 1, ret at 1. cbv beta iota.
    rewrite Htail.
    destruct (find _ (rows_of_user (UserEntity.Uid entity) db)) as [r|].
    + destruct (exec_update_user_entity_dir_name absPath
                  (UserEntity.Name entity)
                  {| Int32 := UserEntity.id r; Valid := true |} db)
        as [db1 l1 [u|e]]; reflexivity.
    + destruct (exec_insert_user_entity entity' db) as [db1 l1 [i|e]];
        reflexivity.
Qed.

Lemma nocase_eqb_refl (a : string) : nocase_eqb a a = true.
Proof. unfold nocase_eqb. apply String.eqb_refl. Qed.

Lemma exec_insert_user_entity_accepted (db : DB) (entity : UserEntity.t) :
  (forall r, In r (user_entities db) ->
             user_entity_at (UserEntity.Uid entity)
               (UserEntity.ParentDir entity) r = false) ->
  (foreign_keys db = false
   \/ exists u, In u (users db) /\ User.Id u = UserEntity.Uid entity) ->
  exec_insert_user_entity entity db
  = mkRun
      (with_user_entities db
         (user_entities db
          ++ [new_row db entity (UserEntity.ParentDir entity)]))
      [mkEvent (InsertUserEntity (UserEntity.Uid entity)
                  (UserEntity.Name entity) (UserEntity.ParentDir entity))
         None]
      (Ok (next_rowid (map UserEntity.id (user_entities db)))).
Proof.
  intros Hfree Hfk.
  unfold exec_insert_user_entity, db_Exec, insert_user_entity.
  assert (existsb (user_entity_at (UserEntity.Uid entity)
                     (UserEntity.ParentDir entity)) (user_entities db)
          = false) as ->.
  { apply not_true_is_false. intros Hc.
    apply existsb_exists in Hc. destruct Hc as [x [Hx Hc]].
    rewrite (Hfree x Hx) in Hc. discriminate. }
  assert (foreign_keys db
          && negb (existsb (fun u => User.Id u =? UserEntity.Uid entity)
                     (users db)) = false) as ->.
  { destruct Hfk as [->|[u [Hu Eu]]]; [reflexivity|].
    apply andb_false_iff. right. apply negb_false_iff.
    apply existsb_exists. exists u. split; [assumption|now apply Z.eqb_eq]. }
  reflexivity.
Qed.

(** X3.  A genuinely new directory creates a record: when the create path
    takes no stored row for the candidate (no marker in the target directory
    or no row of the account, and no marker in a stored directory of the
    account), the pair (account, canonical directory) is not stored, and the
    account exists where foreign keys are enforced, then
    [CreateOrUpdateUserEntityWithPathChange] appends exactly one row with a
    primary key above every key in use, returns the candidate with that
    key, and the account has one row more. *)
Theorem create_inserts_fresh_record (Abs : string -> result string)
    (Join : string -> string -> string) (Stat : string -> bool) (db : DB)
    (entity : UserEntity.t) (rootPath absPath : string) :
  Abs (UserEntity.ParentDir entity) = Ok absPath ->
  create_path_choice Join Stat absPath
    (rows_of_user (UserEntity.Uid entity) db) = None ->
  (forall r, In r (user_entities db) ->
             user_entity_at (UserEntity.Uid entity) absPath r = false) ->
  (foreign_keys db = false
   \/ exists u, In u (users db) /\ User.Id u = UserEntity.Uid entity) ->
  let out :=
    CreateOrUpdateUserEntityWithPathChange Abs Join Stat entity rootPath db in
  let r := new_row db entity absPath in
  returned out
  = Ok (UserEntity.set_Id (UserEntity.set_ParentDir entity absPath)
          (NullInt32_Scan (UserEntity.Id entity) (UserEntity.id r)))
  /\ user_entities (db_after out) = user_entities db ++ [r]
  /\ (forall x, In x (user_entities db) -> UserEntity.id x < UserEntity.id r)
  /\ List.length (rows_of_user (UserEntity.Uid entity) (db_after out))
     = S (List.length (rows_of_user (UserEntity.Uid entity) db)).
Proof.
  intros HAbs Hchoice Hfree Hfk out r. subst out.
  rewrite (CreateOrUpdateUserEntityWithPathChange_run Abs Join Stat db entity
             rootPath absPath HAbs).
  cbv zeta. rewrite Hchoice.
  rewrite (exec_insert_user_entity_accepted db
             (UserEntity.set_ParentDir entity absPath) Hfree Hfk).
  simpl. split; [reflexivity|]. split; [reflexivity|]. split.
  - intros x Hx. apply next_rowid_above. now apply in_map.
  - unfold rows_of_user. simpl. rewrite filter_app, length_app. simpl.
    rewrite Z.eqb_refl. simpl. apply Nat.add_1_r.
Qed.

(** X4.  Relocation through the create path carries the name along: when
    the create path takes the stored row [r] for the candidate and no other
    row of the account sits at the canonical directory,
    [CreateOrUpdateUserEntityWithPathChange] rewrites both [parent_dir] and
    [name] of [r], leaves its release time and media count, returns the
    rewritten row, and the account keeps its number of rows. *)
Theorem create_relocates_and_renames (Abs : string -> result string)
    (Join : string -> string -> string) (Stat : string -> bool) (db : DB)
    (entity : UserEntity.t) (rootPath absPath : string)
    (r : UserEntity.row) :
  Abs (UserEntity.ParentDir entity) = Ok absPath ->
  user_entities_pk db = true ->
  create_path_choice Join Stat absPath
    (rows_of_user (UserEntity.Uid entity) db) = Some r ->
  (forall x, In x (user_entities db) ->
             UserEntity.id x <> UserEntity.id r ->
             user_entity_at (UserEntity.Uid entity) absPath x = false) ->
  let out :=
    CreateOrUpdateUserEntityWithPathChange Abs Join Stat entity rootPath db in
  let r' := UserEntity.mkRow (UserEntity.id r) (UserEntity.user_id r)
              (UserEntity.Name entity) (UserEntity.latest_release_time r)
              absPath (UserEntity.media_count r) in
  returned out = Ok (UserEntity.scan r')
  /\ In r' (user_entities (db_after out))
  /\ user_entities (db_after out)
     = update_where_id UserEntity.id
         (fun x => UserEntity.row_set_parent_dir_name x absPath
                     (UserEntity.Name entity))
         (UserEntity.id r) (user_entities db)
  /\ List.length (rows_of_user (UserEntity.Uid entity) (db_after out))
     = List.length (rows_of_user (UserEntity.Uid entity) db).
Proof.
  intros HAbs Hpk Hchoice Hother out r'. subst out.
  assert (Hin : In r (rows_of_user (UserEntity.Uid entity) db)).
  { unfold create_path_choice in Hchoice.
    destruct (has_marker Join Stat absPath).
    - destruct (rows_of_user (UserEntity.Uid entity) db); [discriminate|].
      injection Hchoice as ->. now left.
    - now apply find_In in Hchoice. }
  destruct (rows_of_user_In _ _ _ Hin) as [Hr Hu].
  assert (Hfree : user_entities_conflict (user_entities db)
                    (UserEntity.id r) absPath = false).
  { apply user_entities_conflict_free; auto.
    intros x Hx Nx. rewrite Hu. now apply Hother. }
  rewrite (CreateOrUpdateUserEntityWithPathChange_run Abs Join Stat db entity
             rootPath absPath HAbs).
  cbv zeta. rewrite Hchoice.
  rewrite (exec_update_user_entity_dir_name_accepted _ _ _ _ Hfree). simpl.
  split; [reflexivity|]. split.
  { apply (update_where_id_In UserEntity.id
             (fun x => UserEntity.row_set_parent_dir_name x absPath
                         (UserEntity.Name entity)) _ r Hr). }
  split; [reflexivity|].
  unfold rows_of_user. simpl.
  rewrite (filter_update_where_id UserEntity.id UserEntity.user_id)
    by reflexivity.
  apply update_where_id_length.
Qed.

(** X5.  The create path reports a relocation the store refuses: when the
    row taken for the candidate is [r] and a different row of the account
    already sits at the canonical directory,
    [CreateOrUpdateUserEntityWithPathChange] returns the UNIQUE constraint
    error, no entity, and leaves the store as it was. *)
Theorem create_reports_refused_relocation (Abs : string -> result string)
    (Join : string -> string -> string) (Stat : string -> bool) (db : DB)
    (entity : UserEntity.t) (rootPath absPath : string)
    (r x : UserEntity.row) :
  Abs (UserEntity.ParentDir entity) = Ok absPath ->
  create_path_choice Join Stat absPath
    (rows_of_user (UserEntity.Uid entity) db) = Some r ->
  In x (user_entities db) ->
  UserEntity.id x <> UserEntity.id r ->
  user_entity_at (UserEntity.Uid entity) absPath x = true ->
  CreateOrUpdateUserEntityWithPathChange Abs Join Stat entity rootPath db
  = mkRun db
      [mkEvent (SelectUserEntities (UserEntity.Uid entity)) None;
       mkEvent (UpdateUserEntityDirName absPath (UserEntity.Name entity)
                  (Some (UserEntity.id r)))
         (Some (ErrUnique user_entities_unique))]
      (Err (ErrUnique user_entities_unique)).
Proof.
  intros HAbs Hchoice Hx Nx Hat.
  assert (Hin : In r (rows_of_user (UserEntity.Uid entity) db)).
  { unfold create_path_choice in Hchoice.
    destruct (has_marker Join Stat absPath).
    - destruct (rows_of_user (UserEntity.Uid entity) db); [discriminate|].
      injection Hchoice as ->. now left.
    - now apply find_In in Hchoice. }
  destruct (rows_of_user_In _ _ _ Hin) as [Hr Hu].
  assert (Hc : user_entities_conflict (user_entities db) (UserEntity.id r)
                 absPath = true).
  { unfold user_entities_conflict. apply existsb_exists. exists r.
    split; [assumption|]. rewrite Z.eqb_refl. simpl.
    apply existsb_exists. exists x. split; [assumption|].
    apply andb_true_iff. split.
    - apply negb_true_iff. now apply Z.eqb_neq.
    - now rewrite Hu. }
  rewrite (CreateOrUpdateUserEntityWithPathChange_run Abs Join Stat db entity
             rootPath absPath HAbs).
  cbv zeta. rewrite Hchoice.
  rewrite (exec_update_user_entity_dir_name_rejected _ _ _ _ Hc).
  reflexivity.
Qed.

Lemma find_app_fresh {R} (p : R -> bool) (t : list R) (r : R) :
  (forall x, In x t -> p x = false) -> p r = true ->
  find p (t ++ [r]) = Some r.
Proof.
  intros Hn Hr. induction t as [|a t IH]; simpl.
  - now rewrite Hr.
  - rewrite (Hn a) by now left. apply IH. intros x Hx. apply Hn. now right.
Qed.


(** ** Calling the locate path again *)

Lemma update_where_id_twice {R} (id : R -> Z) (f : R -> R) (i : Z)
    (t : list R) :
  (forall r, id (f r) = id r) -> (forall r, f (f r) = f r) ->
  update_where_id id f i (update_where_id id f i t) = update_where_id id f i t.
Proof.
  intros Hi Hf. unfold update_where_id. rewrite map_map. apply map_ext.
  intros a. destruct (id a =? i) eqn:E; [|now rewrite E].
  now rewrite Hi, E, Hf.
Qed.

Lemma update_where_id_In_inv {R} (id : R -> Z) (f : R -> R) (i : Z)
    (t : list R) (x : R) :
  (forall r, id (f r) = id r) ->
  In x (update_where_id id f i t) -> id x <> i -> In x t.
Proof.
  intros Hi Hx Nx. unfold update_where_id in Hx.
  apply in_map_iff in Hx. destruct Hx as [y [E Hy]].
  destruct (id y =? i) eqn:Ey.
  - exfalso. apply Nx. rewrite <- E, Hi. now apply Z.eqb_eq.
  - now subst.
Qed.

(** With no marker in the target directory the exact match decides. *)
Lemma LocateUserEntity_exact (Abs : string -> result string)
    (Join : string -> string -> string) (Stat : string -> bool) (db : DB)
    (uid : Z) (dir absPath : string) (r : UserEntity.row) :
  Abs dir = Ok absPath ->
  has_marker Join Stat absPath = false ->
  find (user_entity_at uid absPath) (user_entities db) = Some r ->
  LocateUserEntity Abs Join Stat uid dir db
  = mkRun db [mkEvent (SelectUserEntityAt uid absPath) None]
      (Ok (Some (UserEntity.scan r))).
Proof.
  intros HAbs Hnew Hfind.
  unfold LocateUserEntity, bind at 1, lift. rewrite HAbs.
  unfold has_marker in Hnew. unfold bind at 1. rewrite Hnew.
  unfold ret at 1. cbv beta iota.
  unfold bind at 1, try, db_Get. rewrite Hfind. reflexivity.
Qed.

(** X7.  Marker-confirmed relocation is idempotent for an account with one
    record: when the marker is in the canonical directory and the account
    has exactly one stored row, calling [LocateUserEntity] a second time
    with the same arguments returns the same row and leaves the store
    exactly as the first call left it. *)
Theorem marker_relocation_idempotent (Abs : string -> result string)
    (Join : string -> string -> string) (Stat : string -> bool) (db : DB)
    (uid : Z) (dir absPath : string) (r : UserEntity.row) :
  Abs dir = Ok absPath ->
  user_entities_pk db = true ->
  has_marker Join Stat absPath = true ->
  rows_of_user uid db = [r] ->
  let out1 := LocateUserEntity Abs Join Stat uid dir db in
  let out2 := LocateUserEntity Abs Join Stat uid dir (db_after out1) in
  returned out2 = returned out1
  /\ returned out1
     = Ok (Some (UserEntity.scan (UserEntity.row_set_parent_dir r absPath)))
  /\ db_after out2 = db_after out1.
Proof.
  intros HAbs Hpk Hnew Hrows out1 out2.
  pose (rest := @nil UserEntity.row).
  change (rows_of_user uid db = r :: rest) in Hrows.
  assert (Hother : forall x, In x (user_entities db) ->
                     UserEntity.id x <> UserEntity.id r ->
                     user_entity_at uid absPath x = false).
  { intros x Hx Nx. unfold user_entity_at.
    destruct (UserEntity.user_id x =? uid) eqn:E; [|reflexivity].
    exfalso. apply Nx.
    assert (In x (rows_of_user uid db)) as Hin
      by (apply filter_In; now split).
    rewrite Hrows in Hin. destruct Hin as [->|[]]. reflexivity. }
  set (f := fun x => UserEntity.row_set_parent_dir x absPath).
  set (T1 := update_where_id UserEntity.id f (UserEntity.id r)
               (user_entities db)).
  assert (Hin : In r (rows_of_user uid db)) by (rewrite Hrows; now left).
  destruct (rows_of_user_In _ _ _ Hin) as [Hr Hu].
  assert (Hfree : user_entities_conflict (user_entities db)
                    (UserEntity.id r) absPath = false).
  { apply user_entities_conflict_free; auto.
    intros x Hx Nx. rewrite Hu. now apply Hother. }
  assert (H1 : out1
    = mkRun (with_user_entities db T1)
        [mkEvent (SelectUserEntities uid) None;
         mkEvent (UpdateUserEntityDir absPath (Some (UserEntity.id r))) None]
        (Ok (Some (UserEntity.scan (f r))))).
  { subst out1.
    rewrite (LocateUserEntity_fast_path Abs Join Stat _ _ _ _ _ _ HAbs Hnew
               Hrows).
    now rewrite (exec_update_user_entity_dir_accepted _ _ _ Hfree). }
  assert (Hrows1 : rows_of_user uid (with_user_entities db T1)
                   = f r :: update_where_id UserEntity.id f (UserEntity.id r)
                              rest).
  { unfold rows_of_user, T1. simpl.
    rewrite (filter_update_where_id UserEntity.id UserEntity.user_id)
      by reflexivity.
    fold (rows_of_user uid db). rewrite Hrows. simpl.
    now rewrite Z.eqb_refl. }
  assert (Hfree1 : user_entities_conflict T1 (UserEntity.id (f r)) absPath
                   = false).
  { apply user_entities_conflict_free.
    - unfold T1. now rewrite map_id_update_where_id.
    - apply (update_where_id_In UserEntity.id f _ r Hr).
    - intros x Hx Nx. simpl. rewrite Hu. apply Hother; [|exact Nx].
      apply (update_where_id_In_inv UserEntity.id f (UserEntity.id r)
               (user_entities db)); auto. }
  assert (H2 : out2
    = mkRun (with_user_entities db T1)
        [mkEvent (SelectUserEntities uid) None;
         mkEvent (UpdateUserEntityDir absPath (Some (UserEntity.id r))) None]
        (Ok (Some (UserEntity.scan (f r))))).
  { subst out2. rewrite H1. cbn [db_after].
    rewrite (LocateUserEntity_fast_path Abs Join Stat _ _ _ _ _ _ HAbs Hnew
               Hrows1).
    rewrite (exec_update_user_entity_dir_accepted
               (with_user_entities db T1) absPath (UserEntity.id (f r))
               Hfree1).
    cbn [user_entities with_user_entities]. unfold T1.
    rewrite (update_where_id_twice UserEntity.id f) by reflexivity.
    reflexivity. }
  rewrite H1, H2. repeat split.
Qed.

(** X8.  After the fallback scan the exact match takes over: in the
    situation of C2, on a store that satisfies its UNIQUE index, a second
    [LocateUserEntity] with the same arguments sends only the exact-match
    query, returns the row the first call returned, and changes nothing. *)
Theorem fallback_then_exact_match (Abs : string -> result string)
    (Join : string -> string -> string) (Stat : string -> bool) (db : DB)
    (uid : Z) (dir absPath : string) (r : UserEntity.row) :
  Abs dir = Ok absPath ->
  user_entities_ok db ->
  has_marker Join Stat absPath = false ->
  (forall x, In x (user_entities db) ->
             user_entity_at uid absPath x = false) ->
  find (fun x => has_marker Join Stat (UserEntity.parent_dir x))
       (rows_of_user uid db) = Some r ->
  let out1 := LocateUserEntity Abs Join Stat uid dir db in
  let out2 := LocateUserEntity Abs Join Stat uid dir (db_after out1) in
  returned out2 = returned out1
  /\ db_after out2 = db_after out1
  /\ issued out2 = [mkEvent (SelectUserEntityAt uid absPath) None].
Proof.
  intros HAbs [Hpk Huq] Hnew Hexact Hfind out1 out2.
  set (f := fun x => UserEntity.row_set_parent_dir x absPath).
  set (T1 := update_where_id UserEntity.id f (UserEntity.id r)
               (user_entities db)).
  destruct (find_In _ _ _ Hfind) as [Hin _].
  destruct (rows_of_user_In _ _ _ Hin) as [Hr Hu].
  assert (Hfree : user_entities_conflict (user_entities db)
                    (UserEntity.id r) absPath = false).
  { apply user_entities_conflict_free; auto.
    intros x Hx _. rewrite Hu. now apply Hexact. }
  assert (H1 : out1
    = mkRun (with_user_entities db T1)
        [mkEvent (SelectUserEntityAt uid absPath) (Some ErrNoRows);
         mkEvent (SelectUserEntities uid) None;
         mkEvent (UpdateUserEntityDir absPath (Some (UserEntity.id r))) None]
        (Ok (Some (UserEntity.scan (f r))))).
  { subst out1. unfold LocateUserEntity, bind at 1, lift. rewrite HAbs.
    unfold has_marker in Hnew. unfold bind at 1. rewrite Hnew.
    unfold ret at 1. cbv beta iota.
    unfold bind at 1, try, db_Get.
    rewrite (find_none_of_all_false _ _ Hexact).
    unfold bind at 1, select_user_entities, db_Select.
    fold (rows_of_user uid db).
    rewrite LocateUserEntity_range_find, Hfind.
    unfold bind, discard.
    now rewrite (exec_update_user_entity_dir_accepted _ _ _ Hfree). }
  assert (Hfind1 : find (user_entity_at uid absPath) T1 = Some (f r)).
  { apply find_user_entity_at.
    - apply user_entities_uniq_iff. unfold T1.
      apply (apart_update f absPath); auto.
      now apply user_entities_uniq_iff.
    - apply (update_where_id_In UserEntity.id f _ r Hr).
    - unfold user_entity_at. simpl.
      rewrite Hu, Z.eqb_refl. apply nocase_eqb_refl. }
  assert (H2 : out2
    = mkRun (with_user_entities db T1)
        [mkEvent (SelectUserEntityAt uid absPath) None]
        (Ok (Some (UserEntity.scan (f r))))).
  { subst out2. rewrite H1. cbn [db_after].
    now apply LocateUserEntity_exact. }
  rewrite H1, H2. repeat split.
Qed.

(** X9.  A path that cannot be made absolute stops every reconciliation
    before the store is touched: when [filepath.Abs] fails, the two locate
    functions, the two create-or-update functions and [CreateUserEntity]
    return its error, send no statement and leave the store as it was. *)
Theorem abs_failure_stops_the_call (Abs : string -> result string)
    (Join : string -> string -> string) (Stat : string -> bool)
    (EqualFold : string -> string -> bool) (db : DB) (id : Z)
    (dir rootPath : string) (ue : UserEntity.t) (le : LstEntity.t)
    (e : error) :
  (Abs dir = Err e ->
   LocateUserEntity Abs Join Stat id dir db = mkRun db [] (Err e)
   /\ LocateLstEntity Abs Stat id dir db = mkRun db [] (Err e))
  /\ (Abs (UserEntity.ParentDir ue) = Err e ->
      CreateOrUpdateUserEntityWithPathChange Abs Join Stat ue rootPath db
      = mkRun db [] (Err e)
      /\ CreateUserEntity Abs ue db = mkRun db [] (Err e))
  /\ (Abs (LstEntity.ParentDir le) = Err e ->
      CreateOrUpdateLstEntityWithPathChange Abs EqualFold le db
      = mkRun db [] (Err e)).
Proof.
  split; [|split].
  - intros H. unfold LocateUserEntity, LocateLstEntity, bind, lift.
    rewrite H. split; reflexivity.
  - intros H.
    unfold CreateOrUpdateUserEntityWithPathChange, CreateUserEntity, bind,
      lift.
    rewrite H. split; reflexivity.
  - intros H. unfold CreateOrUpdateLstEntityWithPathChange, bind, lift.
    rewrite H. reflexivity.
Qed.

(** X10.  The exact match of the list locate path comes before the
    fallback: when some stored row matches (lid, canonical directory),
    [LocateLstEntity] returns a row that matches, as stored, sends only the
    exact-match query and changes nothing - also when the directory exists
    on disk and the list has other rows. *)
Theorem lst_locate_exact_match_first (Abs : string -> result string)
    (Stat : string -> bool) (db : DB) (lid : Z) (dir absPath : string)
    (r : LstEntity.row) :
  Abs dir = Ok absPath ->
  In r (lst_entities db) ->
  lst_entity_at lid absPath r = true ->
  exists r0,
    In r0 (lst_entities db)
    /\ lst_entity_at lid absPath r0 = true
    /\ LocateLstEntity Abs Stat lid dir db
       = mkRun db [mkEvent (SelectLstEntityAt lid absPath) None]
           (Ok (Some (LstEntity.scan r0))).
Proof.
  intros HAbs Hr Hat.
  destruct (find (lst_entity_at lid absPath) (lst_entities db)) as [r0|]
    eqn:Hf.
  - destruct (find_In _ _ _ Hf) as [Hin0 Hat0].
    exists r0. split; [assumption|]. split; [assumption|].
    unfold LocateLstEntity, bind at 1, lift. rewrite HAbs.
    unfold bind at 1, try, db_Get. rewrite Hf. reflexivity.
  - exfalso. pose proof (find_none _ _ Hf r Hr) as Hn. congruence.
Qed.

(** ** One account at a time *)

Lemma update_where_id_absent {R} (id : R -> Z) (f : R -> R) (i : Z)
    (t : list R) :
  (forall r, In r t -> id r <> i) -> update_where_id id f i t = t.
Proof.
  intros H. unfold update_where_id.
  rewrite <- (map_id t) at 2. apply map_ext_in.
  intros a Ha. apply H in Ha. apply Z.eqb_neq in Ha. now rewrite Ha.
Qed.

(** Rewriting a row of one account leaves the rows of every other account
    as they are. *)
Lemma rows_of_other_user_update (db : DB) (f : UserEntity.row -> UserEntity.row)
    (r : UserEntity.row) (uid' : Z) :
  (forall x, UserEntity.user_id (f x) = UserEntity.user_id x) ->
  user_entities_pk db = true ->
  In r (user_entities db) ->
  UserEntity.user_id r <> uid' ->
  rows_of_user uid'
    (with_user_entities db
       (update_where_id UserEntity.id f (UserEntity.id r) (user_entities db)))
  = rows_of_user uid' db.
Proof.
  intros Hf Hpk Hr Hu. unfold rows_of_user. simpl.
  rewrite (filter_update_where_id UserEntity.id UserEntity.user_id) by exact Hf.
  apply update_where_id_absent. intros x Hx Ex.
  apply filter_In in Hx. destruct Hx as [Hx Eu]. apply Z.eqb_eq in Eu.
  assert (x = r) by (eapply distinct_In_eq; eauto). congruence.
Qed.

(** Without the fast path, [LocateUserEntity] is its exact match followed,
    when that finds nothing, by the scan. *)
Lemma LocateUserEntity_no_fast_path (Abs : string -> result string)
    (Join : string -> string -> string) (Stat : string -> bool) (db : DB)
    (uid : Z) (dir absPath : string) :
  Abs dir = Ok absPath ->
  has_marker Join Stat absPath = false \/ rows_of_user uid db = [] ->
  db_after (LocateUserEntity Abs Join Stat uid dir db)
  = match find (user_entity_at uid absPath) (user_entities db) with
    | Some _ => db
    | None =>
        match find (fun r => has_marker Join Stat (UserEntity.parent_dir r))
                (rows_of_user uid db)
        with
        | Some r =>
            db_after (exec_update_user_entity_dir absPath
                        (mkNullInt32 (UserEntity.id r) true) db)
        | None => db
        end
    end.
Proof.
  intros HAbs Hfast.
  unfold LocateUserEntity, bind at 1, lift. rewrite HAbs.
  assert (Hmoved :
    (if Stat (Join absPath ".user")
     then
       entities <- select_user_entities uid ;;
       match entities with
       | entity :: _ =>
           discard (exec_update_user_entity_dir absPath
                      (UserEntity.Id entity)) ;;;
           ret (Some (UserEntity.set_ParentDir entity absPath))
       | [] => ret None
       end
     else ret None) db
    = mkRun db (if has_marker Join Stat absPath
                then [mkEvent (SelectUserEntities uid) None] else [])
        (Ok None)).
  { unfold has_marker in *. destruct Hfast as [Hm|He].
    - rewrite Hm. reflexivity.
    - destruct (Stat (Join absPath ".user")); [|reflexivity].
      unfold bind, select_user_entities, db_Select.
      fold (rows_of_user uid db). rewrite He. reflexivity. }
  unfold bind at 1. rewrite Hmoved.
  unfold bind at 1, try, db_Get.
  destruct (find (user_entity_at uid absPath) (user_entities db)) as [x|];
    [reflexivity|].
  unfold bind at 1, select_user_entities, db_Select.
  fold (rows_of_user uid db).
  rewrite LocateUserEntity_range_find.
  destruct (find _ (rows_of_user uid db)) as [r|]; [|reflexivity].
  unfold bind, discard, ret.
  destruct (exec_update_user_entity_dir absPath
              {| Int32 := UserEntity.id r; Valid := true |} db).
  reflexivity.
Qed.

(** The store after [LocateUserEntity]: as before, or with one row of the
    account re-pointed. *)
Lemma LocateUserEntity_after (Abs : string -> result string)
    (Join : string -> string -> string) (Stat : string -> bool) (db : DB)
    (uid : Z) (dir : string) :
  let db1 := db_after (LocateUserEntity Abs Join Stat uid dir db) in
  db1 = db
  \/ exists r absPath,
       In r (rows_of_user uid db)
       /\ db1 = with_user_entities db
                  (update_where_id UserEntity.id
                     (fun x => UserEntity.row_set_parent_dir x absPath)
                     (UserEntity.id r) (user_entities db)).
Proof.
  cbv zeta.
  assert (Hupd : forall r absPath, In r (rows_of_user uid db) ->
    let db1 := db_after (exec_update_user_entity_dir absPath
                           (mkNullInt32 (UserEntity.id r) true) db) in
    db1 = db
    \/ exists r0 absPath0,
         In r0 (rows_of_user uid db)
         /\ db1 = with_user_entities db
                    (update_where_id UserEntity.id
                       (fun x => UserEntity.row_set_parent_dir x absPath0)
                       (UserEntity.id r0) (user_entities db))).
  { intros r absPath Hr. cbv zeta.
    destruct (user_entities_conflict (user_entities db) (UserEntity.id r)
                absPath) eqn:Hc.
    - rewrite (exec_update_user_entity_dir_rejected _ _ _ Hc). now left.
    - rewrite (exec_update_user_entity_dir_accepted _ _ _ Hc). right.
      exists r, absPath. split; [assumption|reflexivity]. }
  destruct (Abs dir) as [absPath|e] eqn:HAbs.
  2:{ left. unfold LocateUserEntity, bind, lift. now rewrite HAbs. }
  destruct (has_marker Join Stat absPath) eqn:Hm.
  - destruct (rows_of_user uid db) as [|r rest] eqn:Hrows.
    + rewrite (LocateUserEntity_no_fast_path Abs Join Stat db uid dir absPath
                 HAbs (or_intror Hrows)).
      rewrite Hrows. simpl. destruct (find _ (user_entities db)); now left.
    + rewrite (LocateUserEntity_fast_path Abs Join Stat _ _ _ _ _ _ HAbs Hm
                 Hrows).
      specialize (Hupd r absPath (or_introl eq_refl)). cbv zeta in Hupd.
      destruct (exec_update_user_entity_dir absPath
                  {| Int32 := UserEntity.id r; Valid := true |} db).
      exact Hupd.
  - rewrite (LocateUserEntity_no_fast_path Abs Join Stat db uid dir absPath
               HAbs (or_introl Hm)).
    destruct (find _ (user_entities db)); [now left|].
    destruct (find _ (rows_of_user uid db)) as [r|] eqn:Hf; [|now left].
    apply Hupd. now apply find_In in Hf.
Qed.

(** X11.  Reconciling one account leaves every other account alone: on a
    store that satisfies PRIMARY KEY (id), after [LocateUserEntity] for
    account [uid] and after [CreateOrUpdateUserEntityWithPathChange] for a
    candidate of account [uid], the rows of any other account are the same
    rows, in the same order, as before. *)
Theorem other_accounts_untouched (Abs : string -> result string)
    (Join : string -> string -> string) (Stat : string -> bool) (db : DB)
    (uid uid' : Z) (dir rootPath : string) (entity : UserEntity.t) :
  user_entities_pk db = true ->
  uid' <> uid ->
  UserEntity.Uid entity = uid ->
  rows_of_user uid' (db_after (LocateUserEntity Abs Join Stat uid dir db))
  = rows_of_user uid' db
  /\ rows_of_user uid'
       (db_after (CreateOrUpdateUserEntityWithPathChange Abs Join Stat entity
                    rootPath db))
     = rows_of_user uid' db.
Proof.
  intros Hpk Hne Hent. split.
  - destruct (LocateUserEntity_after Abs Join Stat db uid dir)
      as [->|(r & absPath & Hin & ->)]; [reflexivity|].
    destruct (rows_of_user_In _ _ _ Hin) as [Hr Hu].
    apply rows_of_other_user_update; auto. congruence.
  - destruct (Abs (UserEntity.ParentDir entity)) as [absPath|e] eqn:HAbs.
    2:{ unfold CreateOrUpdateUserEntityWithPathChange, bind, lift.
        now rewrite HAbs. }
    rewrite (CreateOrUpdateUserEntityWithPathChange_run Abs Join Stat db
               entity rootPath absPath HAbs).
    cbv zeta. rewrite Hent.
    destruct (create_path_choice Join Stat absPath (rows_of_user uid db))
      as [r|] eqn:Hchoice.
    + assert (Hin : In r (rows_of_user uid db)).
      { unfold create_path_choice in Hchoice.
        destruct (has_marker Join Stat absPath).
        - destruct (rows_of_user uid db); [discriminate|].
          injection Hchoice as ->. now left.
        - now apply find_In in Hchoice. }
      destruct (rows_of_user_In _ _ _ Hin) as [Hr Hu].
      destruct (user_entities_conflict (user_entities db) (UserEntity.id r)
                  absPath) eqn:Hc.
      * now rewrite (exec_update_user_entity_dir_name_rejected _ _ _ _ Hc).
      * rewrite (exec_update_user_entity_dir_name_accepted _ _ _ _ Hc).
        cbn [db_after]. apply rows_of_other_user_update; auto. congruence.
    + unfold exec_insert_user_entity, db_Exec, insert_user_entity.
      destruct (existsb _ (user_entities db)); [reflexivity|].
      destruct (foreign_keys db && _); [reflexivity|].
      cbn [db_after]. unfold rows_of_user. simpl.
      rewrite filter_app. simpl. rewrite Hent.
      assert ((uid =? uid') = false) as -> by (apply Z.eqb_neq; congruence).
      apply app_nil_r.
Qed.

(** ** The plain accessors *)

Lemma find_by_id {R} (id : R -> Z) (t : list R) (r : R) :
  distinct (map id t) = true -> In r t ->
  find (fun x => id x =? id r) t = Some r.
Proof.
  intros Hd Hr. induction t as [|a t IH]; [destruct Hr|].
  simpl. destruct (id a =? id r) eqn:E.
  - apply Z.eqb_eq in E. f_equal.
    apply (distinct_In_eq id (a :: t)); auto. now left.
  - destruct Hr as [->|Hr]; [now rewrite Z.eqb_refl in E|].
    apply IH; [|assumption]. now apply distinct_cons_inv in Hd.
Qed.

Lemma find_updated {R} (id : R -> Z) (f : R -> R) (t : list R) (r : R) :
  (forall x, id (f x) = id x) ->
  distinct (map id t) = true -> In r t ->
  find (fun x => id x =? id r) (update_where_id id f (id r) t) = Some (f r).
Proof.
  intros Hf Hd Hr.
  assert (E : find (fun x => id x =? id (f r))
                (update_where_id id f (id r) t) = Some (f r)).
  { apply find_by_id.
    - now rewrite map_id_update_where_id.
    - now apply update_where_id_In. }
  now rewrite Hf in E.
Qed.

Lemma delete_where_id_In {R} (id : R -> Z) (i : Z) (t : list R) (x : R) :
  In x (delete_where_id id i t) <-> In x t /\ id x <> i.
Proof.
  unfold delete_where_id. rewrite filter_In, negb_true_iff, Z.eqb_neq. tauto.
Qed.

Lemma delete_where_id_absent {R} (id : R -> Z) (i : Z) (t : list R) :
  (forall x, In x t -> id x <> i) -> delete_where_id id i t = t.
Proof.
  intros H. unfold delete_where_id. induction t as [|a t IH]; simpl;
    [reflexivity|].
  assert ((id a =? i) = false) as -> by (apply Z.eqb_neq, H; now left).
  simpl. f_equal. apply IH. intros x Hx. apply H. now right.
Qed.

Lemma with_user_entities_same (db : DB) :
  with_user_entities db (user_entities db) = db.
Proof. now destruct db. Qed.

(** X12.  [DelUserEntity] removes the rows with the given primary key and no
    other: it never fails, a row is in the table afterwards exactly when it
    was there before under another key, [GetUserEntity] for the key then
    reports absence, and deleting a key that is not stored changes
    nothing. *)
Theorem del_user_entity_removes_the_row (db : DB) (id : Z) :
  let out := DelUserEntity id db in
  value out = Ok tt
  /\ (forall x, In x (user_entities (store_after out))
                <-> In x (user_entities db) /\ UserEntity.id x <> id)
  /\ returned (GetUserEntity id (store_after out)) = Ok None
  /\ ((forall x, In x (user_entities db) -> UserEntity.id x <> id) ->
      store_after out = db).
Proof.
  cbv zeta. unfold DelUserEntity, exec1. cbn [value store_after].
  split; [reflexivity|]. split; [|split].
  - intros x. cbn [user_entities with_user_entities].
    apply delete_where_id_In.
  - unfold GetUserEntity, bind, try, db_Get.
    cbn [user_entities with_user_entities].
    rewrite find_none_of_all_false; [reflexivity|].
    intros x Hx. apply delete_where_id_In in Hx. now apply Z.eqb_neq.
  - intros H. rewrite delete_where_id_absent by exact H.
    apply with_user_entities_same.
Qed.

(** X13.  Update, then get: on a store that satisfies PRIMARY KEY (id), if
    the entity carries the valid id of a stored row, [UpdateUserEntity]
    succeeds and [GetUserEntity] then returns the row with the entity's
    name, release time and media count and with the account and directory it
    had. *)
Theorem update_user_entity_then_get (db : DB) (entity : UserEntity.t)
    (r : UserEntity.row) :
  user_entities_pk db = true ->
  In r (user_entities db) ->
  UserEntity.Id entity = mkNullInt32 (UserEntity.id r) true ->
  let out := UpdateUserEntity entity db in
  value out = Ok tt
  /\ returned (GetUserEntity (UserEntity.id r) (store_after out))
     = Ok (Some (UserEntity.mk (UserEntity.Id entity) (UserEntity.user_id r)
                   (UserEntity.Name entity)
                   (UserEntity.LatestReleaseTime entity)
                   (UserEntity.parent_dir r) (UserEntity.MediaCount entity))).
Proof.
  intros Hpk Hr Hid. cbv zeta.
  unfold UpdateUserEntity, exec1, update_plain. rewrite Hid.
  cbn [NullInt32_Value Valid Int32 value store_after].
  split; [reflexivity|].
  unfold GetUserEntity, bind, try, db_Get.
  cbn [user_entities with_user_entities].
  rewrite find_updated; [reflexivity|reflexivity|exact Hpk|exact Hr].
Qed.

(** X14.  The four statistics updates leave placement alone and do not
    mind a missing row: after [UpdateUserEntity],
    [UpdateUserEntityMediCount], [UpdateUserEntityTweetStat] and
    [SetUserEntityLatestReleaseTime] every row has the primary key, account
    and directory it had, in the same order; each call succeeds; and when no
    row has the key the store is unchanged. *)
Theorem statistics_updates_keep_placement (db : DB) (entity : UserEntity.t)
    (eid count : Z) (t : Time) :
  let outs :=
    [UpdateUserEntity entity db;
     UpdateUserEntityMediCount eid count db;
     UpdateUserEntityTweetStat eid t count db;
     SetUserEntityLatestReleaseTime eid t db] in
  Forall (fun out =>
            value out = Ok tt
            /\ map placement (user_entities (store_after out))
               = map placement (user_entities db))
         outs
  /\ ((forall x, In x (user_entities db) -> UserEntity.id x <> eid) ->
      NullInt32_Value (UserEntity.Id entity) = Some eid
      \/ NullInt32_Value (UserEntity.Id entity) = None ->
      Forall (fun out => store_after out = db) outs).
Proof.
  cbv zeta.
  assert (Hmap : forall f i,
    (forall r, placement (f r) = placement r) ->
    map placement (update_where_id UserEntity.id f i (user_entities db))
    = map placement (user_entities db)).
  { intros f i Hf. unfold update_where_id. rewrite map_map.
    apply map_ext. intros a. destruct (UserEntity.id a =? i); auto. }
  split.
  - repeat constructor;
      unfold UpdateUserEntity, UpdateUserEntityMediCount,
        UpdateUserEntityTweetStat, SetUserEntityLatestReleaseTime, exec1,
        update_plain;
      try destruct (NullInt32_Value (UserEntity.Id entity));
      cbn [value store_after user_entities with_user_entities];
      try reflexivity; now apply Hmap.
  - intros Hno Hid.
    repeat constructor;
      unfold UpdateUserEntity, UpdateUserEntityMediCount,
        UpdateUserEntityTweetStat, SetUserEntityLatestReleaseTime, exec1,
        update_plain;
      try (destruct Hid as [-> | ->]);
      cbn [store_after];
      rewrite ?update_where_id_absent by exact Hno;
      apply with_user_entities_same.
Qed.

Lemma update_where_id_compose {R} (id : R -> Z) (f g : R -> R) (i : Z)
    (t : list R) :
  (forall r, id (f r) = id r) ->
  update_where_id id g i (update_where_id id f i t)
  = update_where_id id (fun r => g (f r)) i t.
Proof.
  intros Hf. unfold update_where_id. rewrite map_map. apply map_ext.
  intros a. destruct (id a =? i) eqn:E; [|now rewrite E].
  now rewrite Hf, E.
Qed.

(** X15.  [UpdateUserEntityTweetStat] is the two single updates in one
    statement: it leaves the store that [SetUserEntityLatestReleaseTime]
    followed by [UpdateUserEntityMediCount] leaves, and in the other order
    too. *)
Theorem tweet_stat_is_both_updates (db : DB) (eid count : Z) (t : Time) :
  store_after (UpdateUserEntityTweetStat eid t count db)
  = store_after
      (UpdateUserEntityMediCount eid count
         (store_after (SetUserEntityLatestReleaseTime eid t db)))
  /\ store_after (UpdateUserEntityTweetStat eid t count db)
     = store_after
         (SetUserEntityLatestReleaseTime eid t
            (store_after (UpdateUserEntityMediCount eid count db))).
Proof.
  unfold UpdateUserEntityTweetStat, UpdateUserEntityMediCount,
    SetUserEntityLatestReleaseTime, exec1, update_plain.
  cbn [store_after user_entities with_user_entities].
  split; rewrite update_where_id_compose by reflexivity; reflexivity.
Qed.

Lemma existsb_false_of_all {R} (p : R -> bool) (t : list R) :
  (forall x, In x t -> p x = false) -> existsb p t = false.
Proof.
  intros H. apply not_true_is_false. intros Hc.
  apply existsb_exists in Hc. destruct Hc as [x [Hx Hc]].
  rewrite (H x Hx) in Hc. discriminate.
Qed.

(** A row replaced under its own key is what a lookup of the key finds. *)
Lemma find_replaced {R} (id : R -> Z) (t : list R) (v : R) :
  (exists r, In r t /\ id r = id v) ->
  find (fun x => id x =? id v) (update_where_id id (fun _ => v) (id v) t)
  = Some v.
Proof.
  intros [r [Hr E]]. unfold update_where_id.
  induction t as [|a t IH]; [destruct Hr|].
  simpl. destruct (id a =? id v) eqn:Ea.
  - now rewrite Z.eqb_refl.
  - rewrite Ea. apply IH. destruct Hr as [->|Hr]; [|assumption].
    apply Z.eqb_neq in Ea. congruence.
Qed.


(** X17.  [UpdateUser] rewrites a stored user and never inserts: if the id
    is stored and no other user has the new screen name, [GetUserById] afterwards returns the struct as
    given; if another user has the screen name the call returns the UNIQUE
    error and the store is unchanged; if the id is not stored the call
    succeeds and the store is unchanged - it does not insert. *)
Theorem update_user_cases (db : DB) (usr : User.t) :
  (forall u0,
     In u0 (users db) -> User.Id u0 = User.Id usr ->
     (forall u, In u (users db) -> User.Id u <> User.Id usr ->
                User.ScreenName u <> User.ScreenName usr) ->
     let out := UpdateUser usr db in
     value out = Ok tt
     /\ returned (GetUserById (User.Id usr) (store_after out)) = Ok (Some usr))
  /\ (forall u0 u, In u0 (users db) -> User.Id u0 = User.Id usr ->
        In u (users db) -> User.Id u <> User.Id usr ->
        User.ScreenName u = User.ScreenName usr ->
        UpdateUser usr db = mkOutcome db (Err (ErrUnique users_unique)))
  /\ ((forall u, In u (users db) -> User.Id u <> User.Id usr) ->
      UpdateUser usr db = mkOutcome db (Ok tt)).
Proof.
  split; [|split].
  - intros u0 Hu0 E0 Hfree. cbv zeta.
    unfold UpdateUser, exec1, update_user.
    assert (existsb (fun u => negb (User.Id u =? User.Id usr)
                              && String.eqb (User.ScreenName u)
                                   (User.ScreenName usr)) (users db)
            = false) as ->.
    { apply existsb_false_of_all. intros u Hu.
      destruct (User.Id u =? User.Id usr) eqn:E; [reflexivity|].
      apply Z.eqb_neq in E. simpl. apply String.eqb_neq. auto. }
    rewrite andb_false_r. cbn [value store_after users with_users].
    split; [reflexivity|].
    unfold GetUserById, bind, try, db_Get. cbn [users with_users].
    rewrite (find_replaced User.Id (users db) usr); [reflexivity|].
    now exists u0.
  - intros u0 u Hu0 E0 Hu Nu En. unfold UpdateUser, exec1, update_user.
    assert (existsb (fun v => User.Id v =? User.Id usr) (users db) = true)
      as ->.
    { apply existsb_exists. exists u0. split; [assumption|now apply Z.eqb_eq]. }
    assert (existsb (fun v => negb (User.Id v =? User.Id usr)
                              && String.eqb (User.ScreenName v)
                                   (User.ScreenName usr)) (users db)
            = true) as ->; [|reflexivity].
    apply existsb_exists. exists u. split; [assumption|].
    apply andb_true_iff. split.
    + apply negb_true_iff. now apply Z.eqb_neq.
    + now apply String.eqb_eq.
  - intros Hno. unfold UpdateUser, exec1, update_user.
    rewrite (existsb_false_of_all _ (users db))
      by (intros v Hv; apply Z.eqb_neq; auto).
    cbn [andb]. rewrite update_where_id_absent by exact Hno.
    now destruct db.
Qed.


(** X19.  Create, then delete: when [CreateUserEntity] inserts (the pair
    (account, canonical directory) is not stored and the account exists
    where foreign keys are enforced), the primary key it hands back is above
    every key in use, and [DelUserEntity] of that key gives back the store
    the call started from. *)
Theorem create_user_entity_then_delete (Abs : string -> result string)
    (db : DB) (entity : UserEntity.t) (abs : string) :
  Abs (UserEntity.ParentDir entity) = Ok abs ->
  (forall r, In r (user_entities db) ->
             user_entity_at (UserEntity.Uid entity) abs r = false) ->
  (foreign_keys db = false
   \/ exists u, In u (users db) /\ User.Id u = UserEntity.Uid entity) ->
  let out := CreateUserEntity Abs entity db in
  let i := next_rowid (map UserEntity.id (user_entities db)) in
  returned out
  = Ok (UserEntity.set_Id (UserEntity.set_ParentDir entity abs)
          (NullInt32_Scan (UserEntity.Id entity) i))
  /\ user_entities (db_after out) = user_entities db ++ [new_row db entity abs]
  /\ DelUserEntity i (db_after out) = mkOutcome db (Ok tt).
Proof.
  intros HAbs Hfree Hfk out i.
  assert (Hout : out
    = mkRun
        (with_user_entities db (user_entities db ++ [new_row db entity abs]))
        [mkEvent (InsertUserEntity (UserEntity.Uid entity)
                    (UserEntity.Name entity) abs) None]
        (Ok (UserEntity.set_Id (UserEntity.set_ParentDir entity abs)
               (NullInt32_Scan (UserEntity.Id entity) i)))).
  { subst out. unfold CreateUserEntity, bind at 1, lift. rewrite HAbs.
    unfold bind, ret.
    rewrite (exec_insert_user_entity_accepted db
               (UserEntity.set_ParentDir entity abs) Hfree Hfk).
    reflexivity. }
  rewrite Hout. cbn [returned db_after user_entities with_user_entities].
  split; [reflexivity|]. split; [reflexivity|].
  unfold DelUserEntity, exec1, delete_where_id.
  cbn [user_entities with_user_entities].
  rewrite filter_app. simpl. fold i. rewrite Z.eqb_refl. simpl.
  rewrite app_nil_r.
  fold (delete_where_id UserEntity.id i (user_entities db)).
  rewrite delete_where_id_absent.
  - now destruct db.
  - intros x Hx E.
    assert (UserEntity.id x < i)
      by (apply next_rowid_above; now apply in_map).
    lia.
Qed.

(** X20.  [DelLstEntity] and the links that refer to a list entity: with
    foreign keys enforced, a stored list entity that a link refers to cannot
    be deleted - the call returns the foreign key error and changes nothing;
    otherwise the call succeeds and the rows under that key, and only they,
    are gone. *)
Theorem del_lst_entity_cases (db : DB) (id : Z) :
  (forall e l, foreign_keys db = true ->
     In e (lst_entities db) -> LstEntity.id e = id ->
     In l (user_links db) -> UserLink.parent_lst_entity_id l = id ->
     DelLstEntity id db = mkOutcome db (Err ErrForeignKey))
  /\ (foreign_keys db = false
      \/ (forall l, In l (user_links db) ->
                    UserLink.parent_lst_entity_id l <> id) ->
      let out := DelLstEntity id db in
      value out = Ok tt
      /\ (forall x, In x (lst_entities (store_after out))
                    <-> In x (lst_entities db) /\ LstEntity.id x <> id)
      /\ returned (GetLstEntity id (store_after out)) = Ok None).
Proof.
  split.
  - intros e l Hfk He Ee Hl El. unfold DelLstEntity, exec1, delete_lst_entity.
    rewrite Hfk.
    assert (existsb (fun r => LstEntity.id r =? id) (lst_entities db) = true)
      as ->.
    { apply existsb_exists. exists e. split; [assumption|now apply Z.eqb_eq]. }
    assert (existsb (fun x => UserLink.parent_lst_entity_id x =? id)
              (user_links db) = true) as ->; [|reflexivity].
    apply existsb_exists. exists l. split; [assumption|now apply Z.eqb_eq].
  - intros H. cbv zeta. unfold DelLstEntity, exec1, delete_lst_entity.
    assert (foreign_keys db
            && existsb (fun r => LstEntity.id r =? id) (lst_entities db)
            && existsb (fun l => UserLink.parent_lst_entity_id l =? id)
                 (user_links db) = false) as ->.
    { destruct H as [->|H]; [reflexivity|].
      rewrite (existsb_false_of_all _ (user_links db))
        by (intros l Hl; apply Z.eqb_neq; auto).
      apply andb_false_r. }
    cbn [value store_after lst_entities with_lst_entities].
    split; [reflexivity|]. split.
    + intros x. apply delete_where_id_In.
    + unfold GetLstEntity, bind, try, db_Get.
      cbn [lst_entities with_lst_entities].
      rewrite find_none_of_all_false; [reflexivity|].
      intros x Hx. apply delete_where_id_In in Hx. now apply Z.eqb_neq.
Qed.

(** X21.  [UpdateLstEntity] goes by the number in the id, valid or not: on a
    table that satisfies PRIMARY KEY (id), if a stored row has the key
    [entity.Id.Int32], the call renames that row - list and directory
    stay - and [GetLstEntity] returns it renamed, whether or not
    [entity.Id.Valid] is set. *)
Theorem update_lst_entity_then_get (db : DB) (entity : LstEntity.t)
    (r : LstEntity.row) :
  lst_entities_pk db = true ->
  In r (lst_entities db) ->
  Int32 (LstEntity.Id entity) = LstEntity.id r ->
  let out := UpdateLstEntity entity db in
  value out = Ok tt
  /\ returned (GetLstEntity (LstEntity.id r) (store_after out))
     = Ok (Some (LstEntity.mk (mkNullInt32 (LstEntity.id r) true)
                   (LstEntity.lst_id r) (LstEntity.Name entity)
                   (LstEntity.parent_dir r))).
Proof.
  intros Hpk Hr Hid. cbv zeta.
  unfold UpdateLstEntity, exec1, update_plain. rewrite Hid.
  cbn [value store_after]. split; [reflexivity|].
  unfold GetLstEntity, bind, try, db_Get.
  cbn [lst_entities with_lst_entities].
  rewrite find_updated; [reflexivity|reflexivity|exact Hpk|exact Hr].
Qed.

(** X22.  The table [lsts] round trips for an id the driver accepts (below
    2^63): [CreateLst] under a free id stores the list and [GetLst] returns
    it as given; under a taken id it returns the constraint error and
    changes nothing; after [UpdateLst] of a stored id [GetLst] returns the
    list with the new name and the owner it had; after [DelLst], [GetLst]
    reports absence. *)
Theorem lsts_round_trip (db : DB) (lst : Lst.t) :
  Lst.Id lst < 2 ^ 63 ->
  ((forall l, In l (lsts db) -> Lst.Id l <> Lst.Id lst) ->
   let out := CreateLst lst db in
   value out = Ok tt
   /\ returned (GetLst_uint64 (Lst.Id lst) (store_after out)) = Ok (Some lst))
  /\ (forall l, In l (lsts db) -> Lst.Id l = Lst.Id lst ->
      CreateLst lst db = mkOutcome db (Err (ErrUnique lsts_pk)))
  /\ (forall l, distinct (map Lst.Id (lsts db)) = true ->
      In l (lsts db) -> Lst.Id l = Lst.Id lst ->
      let out := UpdateLst lst db in
      value out = Ok tt
      /\ returned (GetLst_uint64 (Lst.Id lst) (store_after out))
         = Ok (Some (Lst.mk (Lst.Id l) (Lst.Name lst) (Lst.OwnerId l))))
  /\ (let out := DelLst_uint64 (Lst.Id lst) db in
      value out = Ok tt
      /\ returned (GetLst_uint64 (Lst.Id lst) (store_after out)) = Ok None).
Proof.
  intros Hacc. apply Z.ltb_lt in Hacc.
  unfold GetLst_uint64, DelLst_uint64, driver_accepts. rewrite Hacc.
  split; [|split; [|split]].
  - intros Hid. cbv zeta. unfold CreateLst, exec1, insert_lst.
    rewrite (existsb_false_of_all _ (lsts db))
      by (intros l Hl; apply Z.eqb_neq; auto).
    cbn [value store_after]. split; [reflexivity|].
    unfold GetLst, bind, try, db_Get. cbn [lsts with_lsts].
    rewrite (find_app_fresh _ (lsts db) lst).
    + reflexivity.
    + intros l Hl. apply Z.eqb_neq. auto.
    + apply Z.eqb_refl.
  - intros l Hl E. unfold CreateLst, exec1, insert_lst.
    assert (existsb (fun l0 => Lst.Id l0 =? Lst.Id lst) (lsts db) = true)
      as ->; [|reflexivity].
    apply existsb_exists. exists l. split; [assumption|now apply Z.eqb_eq].
  - intros l Hpk Hl E. cbv zeta. unfold UpdateLst, exec1, update_plain.
    cbn [value store_after]. split; [reflexivity|].
    unfold GetLst, bind, try, db_Get. cbn [lsts with_lsts].
    rewrite <- E.
    rewrite find_updated; [reflexivity|reflexivity|exact Hpk|exact Hl].
  - cbv zeta. unfold DelLst, exec1. cbn [value store_after].
    split; [reflexivity|].
    unfold GetLst, bind, try, db_Get. cbn [lsts with_lsts].
    rewrite find_none_of_all_false; [reflexivity|].
    intros x Hx. apply delete_where_id_In in Hx. now apply Z.eqb_neq.
Qed.

(** ** What the create paths leave alone *)

Lemma only_user_entities_refl (db : DB) : only_user_entities db db.
Proof. repeat split. Qed.

Lemma keeps_only_user_entities {A} (db0 : DB) (s : stmt)
    (f : DB -> result (list UserEntity.row * A)) :
  keeps (only_user_entities db0) (db_Exec s with_user_entities f).
Proof. apply keeps_Exec. intros db t a H _. exact H. Qed.

Lemma only_lst_entities_refl (db : DB) : only_lst_entities db db.
Proof.
  repeat split. exists []. now rewrite app_nil_r.
Qed.

Lemma keeps_only_lst_update (db0 : DB) (dir : string) (id : NullInt32) :
  keeps (only_lst_entities db0) (exec_update_lst_entity_dir dir id).
Proof.
  apply keeps_Exec. intros db t a H E. unfold update_lst_entities in E.
  destruct H as (H1 & H2 & H3 & H4 & H5 & added & H6).
  destruct (NullInt32_Value id) as [i|].
  - destruct (lst_entities_conflict (lst_entities db) i dir);
      [discriminate|].
    injection E as <- _. repeat split; try assumption.
    exists added. simpl. now rewrite map_lst_but_dir_update.
  - injection E as <- _. repeat split; try assumption. now exists added.
Qed.

Lemma keeps_only_lst_insert (db0 : DB) (entity : LstEntity.t) :
  keeps (only_lst_entities db0) (exec_insert_lst_entity entity).
Proof.
  apply keeps_Exec. intros db t a H E. unfold insert_lst_entity in E.
  destruct H as (H1 & H2 & H3 & H4 & H5 & added & H6).
  destruct (existsb _ (lst_entities db)); [discriminate|].
  injection E as <- _. repeat split; try assumption.
  simpl. rewrite map_app, H6, <- app_assoc. eauto.
Qed.

(** X23.  Each create path keeps to its table.  Whatever it is called with,
    [CreateOrUpdateUserEntityWithPathChange] leaves [users], [lsts],
    [lst_entities] and [user_links] as they were, and
    [CreateOrUpdateLstEntityWithPathChange] leaves [users], [lsts],
    [user_entities] and [user_links] as they were and, in [lst_entities],
    never deletes a row nor changes a key, a list id or a name: the rows it
    found are still there in order, directories apart, with at most new rows
    after them. *)
Theorem create_paths_keep_to_their_table (Abs : string -> result string)
    (Join : string -> string -> string) (Stat : string -> bool)
    (EqualFold : string -> string -> bool) (db : DB) (ue : UserEntity.t)
    (rootPath : string) (le : LstEntity.t) :
  only_user_entities db
    (db_after (CreateOrUpdateUserEntityWithPathChange Abs Join Stat ue rootPath
                 db))
  /\ only_lst_entities db
       (db_after (CreateOrUpdateLstEntityWithPathChange Abs EqualFold le db)).
Proof.
  split.
  - apply (keeps_CreateOrUpdateUserEntityWithPathChange Abs Join Stat
             (only_user_entities db)).
    + intros. apply keeps_only_user_entities.
    + intros. apply keeps_only_user_entities.
    + apply only_user_entities_refl.
  - apply (keeps_CreateOrUpdateLstEntityWithPathChange Abs EqualFold
             (only_lst_entities db)).
    + intros. apply keeps_only_lst_update.
    + intros. apply keeps_only_lst_insert.
    + apply only_lst_entities_refl.
Qed.

(** X24.  Renaming and deleting a link as [GetUserLinks] sees it, for an
    account id the driver accepts (below 2^63): after [UpdateUserLink] the
    account's links are the ones it had, in the same order, with the name
    replaced in those under the given key; after [DelUserLink] they are the
    ones it had under another key.  Both calls succeed, also when no link
    has the key. *)
Theorem user_link_update_and_delete (db : DB) (uid id : Z) (name : string) :
  uid < 2 ^ 63 ->
  exists before,
    value (GetUserLinks_uint64 uid db) = Ok before
    /\ value (UpdateUserLink id name db) = Ok tt
    /\ value (GetUserLinks_uint64 uid
                (store_after (UpdateUserLink id name db)))
       = Ok (map (fun l =>
                    if Int32 (UserLink.Id l) =? id
                    then UserLink.mk (UserLink.Id l) (UserLink.Uid l) name
                           (UserLink.ParentLstEntityId l)
                    else l)
               before)
    /\ value (DelUserLink id db) = Ok tt
    /\ value (GetUserLinks_uint64 uid (store_after (DelUserLink id db)))
       = Ok (filter (fun l => negb (Int32 (UserLink.Id l) =? id)) before).
Proof.
  intros Hacc. apply Z.ltb_lt in Hacc.
  unfold GetUserLinks_uint64, driver_accepts. rewrite Hacc.
  eexists. split; [reflexivity|].
  unfold UpdateUserLink, DelUserLink, GetUserLinks, exec1, update_plain,
    delete_where_id, update_where_id.
  cbn [value store_after user_links with_user_links].
  split; [reflexivity|]. split; [|split; [reflexivity|]].
  - f_equal. induction (user_links db) as [|a t IH]; [reflexivity|].
    simpl. destruct (UserLink.id a =? id) eqn:Ei; simpl;
      destruct (UserLink.user_id a =? uid); simpl; rewrite ?Ei, ?IH;
      reflexivity.
  - f_equal. induction (user_links db) as [|a t IH]; [reflexivity|].
    simpl. destruct (UserLink.id a =? id) eqn:Ei; simpl;
      destruct (UserLink.user_id a =? uid); simpl; rewrite ?Ei, ?IH;
      reflexivity.
Qed.

(** ** The further properties on concrete stores *)

(** X2, witness *)
Lemma user_entities_schema_kept_witness :
  user_entities_ok
    (db_after (CreateOrUpdateUserEntityWithPathChange Abs_id Join_slash
                 (Stat_in []) candidate_carol "" store_one)).
Proof.
  refine (proj1 (proj2 (user_entities_schema_kept Abs_id Join_slash
                          (Stat_in []) store_one 42 "/data/X" ""
                          candidate_carol _))).
  split; reflexivity.
Defined.

(** X3, witness: account 9 is new and [/fresh] carries no marker. *)
Lemma create_inserts_fresh_record_witness :
  user_entities
    (db_after (CreateOrUpdateUserEntityWithPathChange Abs_id Join_slash
                 (Stat_in []) candidate_carol "" store_one))
  = user_entities store_one
    ++ [UserEntity.mkRow 2 9 "carol" None "/fresh" None].
Proof.
  refine (proj1 (proj2 (create_inserts_fresh_record Abs_id Join_slash
                          (Stat_in []) store_one candidate_carol "" "/fresh"
                          eq_refl eq_refl _ (or_introl eq_refl)))).
  intros r [<-|[]]. reflexivity.
Defined.

(** X4, witness: the marker is in [/data/X2] and the candidate brings a new
    name. *)
Lemma create_relocates_and_renames_witness :
  returned
    (CreateOrUpdateUserEntityWithPathChange Abs_id Join_slash
       (Stat_in ["/data/X2/.user"]) candidate_alice_X2 "" store_one)
  = Ok (UserEntity.scan
          (UserEntity.mkRow 1 42 "Alice A." (Some 1700000000) "/data/X2"
             (Some 12))).
Proof.
  refine (proj1 (create_relocates_and_renames Abs_id Join_slash
                   (Stat_in ["/data/X2/.user"]) store_one candidate_alice_X2
                   "" "/data/X2"
                   (UserEntity.mkRow 1 42 "alice" (Some 1700000000) "/data/X"
                      (Some 12))
                   eq_refl eq_refl eq_refl _)).
  intros x [<-|[]] N. now elim N.
Defined.

(** X5, witness: rows at [/a] and [/b], marker in [/b]. *)
Lemma create_reports_refused_relocation_witness :
  returned
    (CreateOrUpdateUserEntityWithPathChange Abs_id Join_slash
       (Stat_in ["/b/.user"]) candidate_alice_b "" store_two)
  = Err (ErrUnique user_entities_unique).
Proof.
  assert (Hne : UserEntity.id (UserEntity.mkRow 2 42 "alice" None "/b" None)
                <> 1) by discriminate.
  exact (f_equal returned
           (create_reports_refused_relocation Abs_id Join_slash
              (Stat_in ["/b/.user"]) store_two candidate_alice_b "" "/b"
              (UserEntity.mkRow 1 42 "alice" (Some 1700000000) "/a" (Some 12))
              (UserEntity.mkRow 2 42 "alice" None "/b" None)
              eq_refl eq_refl (or_intror (or_introl eq_refl)) Hne eq_refl)).
Defined.


(** X7, witness *)
Lemma marker_relocation_idempotent_witness :
  let fs := Stat_in ["/data/X2/.user"] in
  let out1 := LocateUserEntity Abs_id Join_slash fs 42 "/data/X2" store_one in
  db_after (LocateUserEntity Abs_id Join_slash fs 42 "/data/X2"
              (db_after out1))
  = db_after out1.
Proof.
  exact (proj2 (proj2 (marker_relocation_idempotent Abs_id Join_slash
                         (Stat_in ["/data/X2/.user"]) store_one 42
                         "/data/X2" "/data/X2"
                         (UserEntity.mkRow 1 42 "alice" (Some 1700000000)
                            "/data/X" (Some 12))
                         eq_refl eq_refl eq_refl eq_refl))).
Defined.

(** X8, witness *)
Lemma fallback_then_exact_match_witness :
  let fs := Stat_in ["/old/.user"] in
  let out1 := LocateUserEntity Abs_id Join_slash fs 7 "/new" store_old in
  issued (LocateUserEntity Abs_id Join_slash fs 7 "/new" (db_after out1))
  = [mkEvent (SelectUserEntityAt 7 "/new") None].
Proof.
  refine (proj2 (proj2 (fallback_then_exact_match Abs_id Join_slash
                          (Stat_in ["/old/.user"]) store_old 7 "/new" "/new"
                          (UserEntity.mkRow 1 7 "bob" None "/old" None)
                          eq_refl (conj eq_refl eq_refl) eq_refl _ eq_refl))).
  intros x [<-|[]]. reflexivity.
Defined.

(** X9, witness *)
Lemma abs_failure_stops_the_call_witness :
  LocateUserEntity Abs_fails Join_slash (Stat_in []) 42 "X" store_one
  = mkRun store_one [] (Err (ErrPath "getwd")).
Proof.
  exact (proj1 (proj1 (abs_failure_stops_the_call Abs_fails Join_slash
                         (Stat_in []) EqualFold_ascii store_one 42 "X" ""
                         candidate_alice candidate_friends (ErrPath "getwd"))
                  eq_refl)).
Defined.

(** X10, witness: [/a] exists on disk and is where list 3 is tracked. *)
Lemma lst_locate_exact_match_first_witness :
  exists r0,
    In r0 (lst_entities store_lst)
    /\ lst_entity_at 3 "/A" r0 = true
    /\ LocateLstEntity Abs_id (Stat_in ["/A"]) 3 "/A" store_lst
       = mkRun store_lst [mkEvent (SelectLstEntityAt 3 "/A") None]
           (Ok (Some (LstEntity.scan r0))).
Proof.
  apply (lst_locate_exact_match_first Abs_id (Stat_in ["/A"]) store_lst 3
           "/A" "/A" (LstEntity.mkRow 1 3 "Friends" "/a") eq_refl).
  - now left.
  - reflexivity.
Defined.

(** X11, witness: account 42 is relocated, account 7 is not touched. *)
Lemma other_accounts_untouched_witness :
  rows_of_user 7
    (db_after (LocateUserEntity Abs_id Join_slash
                 (Stat_in ["/data/X2/.user"]) 42 "/data/X2" store_mixed))
  = rows_of_user 7 store_mixed.
Proof.
  refine (proj1 (other_accounts_untouched Abs_id Join_slash
                   (Stat_in ["/data/X2/.user"]) store_mixed 42 7 "/data/X2"
                   "" candidate_alice eq_refl _ eq_refl)).
  discriminate.
Defined.

(** X13, witness *)
Lemma update_user_entity_then_get_witness :
  returned (GetUserEntity 1 (store_after (UpdateUserEntity entity_alice_stat
                                            store_one)))
  = Ok (Some (UserEntity.mk (mkNullInt32 1 true) 42 "Alice A."
                (Some 1700000900) "/data/X" (Some 40))).
Proof.
  refine (proj2 (update_user_entity_then_get store_one entity_alice_stat
                   (UserEntity.mkRow 1 42 "alice" (Some 1700000000) "/data/X"
                      (Some 12))
                   eq_refl _ eq_refl)).
  now left.
Defined.

(** X14, witness: no row has key 5. *)
Lemma statistics_updates_keep_placement_witness :
  store_after (UpdateUserEntityTweetStat 5 1700000900 40 store_one)
  = store_one.
Proof.
  pose proof (proj2 (statistics_updates_keep_placement store_one
                       candidate_alice 5 40 1700000900)) as H.
  cbv zeta in H.
  assert (Hno : forall x, In x (user_entities store_one) ->
                          UserEntity.id x <> 5).
  { intros x [<-|[]]. discriminate. }
  specialize (H Hno (or_intror eq_refl)).
  rewrite Forall_forall in H. apply H. right. right. now left.
Defined.


(** X17, witness: account 7 tries to take the screen name of account 42. *)
Lemma update_user_cases_witness :
  UpdateUser (User.mk 7 "alice" "Bob" false 3) store_full
  = mkOutcome store_full (Err (ErrUnique users_unique)).
Proof.
  refine (proj1 (proj2 (update_user_cases store_full
                          (User.mk 7 "alice" "Bob" false 3)))
            usr_bob usr_alice _ eq_refl _ _ eq_refl).
  - right. now left.
  - now left.
  - discriminate.
Defined.


(** X19, witness *)
Lemma create_user_entity_then_delete_witness :
  DelUserEntity 2 (db_after (CreateUserEntity Abs_id candidate_carol store_one))
  = mkOutcome store_one (Ok tt).
Proof.
  refine (proj2 (proj2 (create_user_entity_then_delete Abs_id store_one
                          candidate_carol "/fresh" eq_refl _
                          (or_introl eq_refl)))).
  intros r [<-|[]]. reflexivity.
Defined.

(** X20, witness: list entity 1 is referred to by the link of account 42. *)
Lemma del_lst_entity_cases_witness :
  DelLstEntity 1 store_full = mkOutcome store_full (Err ErrForeignKey).
Proof.
  refine (proj1 (del_lst_entity_cases store_full 1)
            (LstEntity.mkRow 1 3 "Friends" "/a") (UserLink.mkRow 1 42 "alice" 1)
            eq_refl _ eq_refl _ eq_refl).
  - now left.
  - now left.
Defined.

(** X21, witness: the id is marked invalid and still selects row 1. *)
Lemma update_lst_entity_then_get_witness :
  returned
    (GetLstEntity 1
       (store_after (UpdateLstEntity
                       (LstEntity.mk (mkNullInt32 1 false) 3 "Close friends"
                          "/ignored")
                       store_lst)))
  = Ok (Some (LstEntity.mk (mkNullInt32 1 true) 3 "Close friends" "/a")).
Proof.
  refine (proj2 (update_lst_entity_then_get store_lst
                   (LstEntity.mk (mkNullInt32 1 false) 3 "Close friends"
                      "/ignored")
                   (LstEntity.mkRow 1 3 "Friends" "/a") eq_refl _ eq_refl)).
  now left.
Defined.

(** X22, witness *)
Lemma lsts_round_trip_witness :
  returned (GetLst_uint64 3 (store_after (CreateLst lst_friends store_one)))
  = Ok (Some lst_friends)
  /\ returned
       (GetLst_uint64 3
          (store_after (UpdateLst (Lst.mk 3 "Family" 0) store_full)))
     = Ok (Some (Lst.mk 3 "Family" 42)).
Proof.
  split.
  - refine (proj2 (proj1 (lsts_round_trip store_one lst_friends eq_refl) _)).
    intros l [].
  - refine (proj2 (proj1 (proj2 (proj2 (lsts_round_trip store_full
                                          (Lst.mk 3 "Family" 0) eq_refl)))
                     lst_friends eq_refl _ eq_refl)).
    now left.
Defined.

(** X24, witness: account 42 has one link, which is renamed. *)
Lemma user_link_update_and_delete_witness :
  value (GetUserLinks_uint64 42
           (store_after (UpdateUserLink 1 "Alice A." store_full)))
  = Ok [UserLink.mk (mkNullInt32 1 true) 42 "Alice A." 1].
Proof.
  destruct (user_link_update_and_delete store_full 42 1 "Alice A." eq_refl)
    as (before & Hb & _ & Hu & _).
  injection Hb as <-. exact Hu.
Defined.
